(** * q-trader: a shallow embedding of selected components and their properties

    Part I embeds the Python code (one module per source class or file);
    Parts II and III state and prove the properties.

    Conventions of the embedding:
    - a Python [int] is a [Z]; a [bytes] object, a path and a [str] of
      symbols or JSON text is a [string], one character per byte; the [str]
      read from a log file is a list of code points; a [float] delay is an
      exact rational [Q];
    - a call that may raise returns a [result]: [Ok v] or [Raise e];
    - a [set] of objects is a [gset] of object identities. *)

From stdpp Require Import gmap strings list.
From Stdlib Require Import ZArith QArith Qminmax Lia Ascii String DecimalString.

Close Scope Q_scope.
Open Scope string_scope.

Set Warnings "-register-all,-clear-no-such-hyp".

(** ** Part I: the embedding *)

(** *** Python prelude: exceptions and results *)

Module Py.

Inductive exn : Type :=
| ConnectionError
| JSONDecodeError
| UnicodeDecodeError
| KeyError
| TypeError
| ValueError
| AttributeError
| StructError.

Inductive result (A : Type) : Type :=
| Ok (v : A)
| Raise (e : exn).
Arguments Ok {A} v.
Arguments Raise {A} e.

Definition bind {A B : Type} (r : result A) (k : A -> result B) : result B :=
  match r with
  | Ok v => k v
  | Raise e => Raise e
  end.

Definition raises {A : Type} (r : result A) : Prop :=
  match r with
  | Ok _ => False
  | Raise _ => True
  end.

End Py.

Notation "x <- r ;;; k" := (Py.bind r (fun x => k))
  (at level 100, r at next level, right associativity).

(** *** src/api/websocket_manager.py *)

Module WebSocketManager.

(** A [WebSocket] object is identified by its identity (Python sets of
    objects hash by identity). *)
Definition WebSocket : Type := positive.

Record t : Type := {
  active_connections : gset WebSocket;
  log_subscribers : gset WebSocket;
  log_monitoring_enabled : bool
}.

(** [set.discard]: removes the element when present, never raises. *)
Definition discard (x : WebSocket) (s : gset WebSocket) : Py.result (gset WebSocket) :=
  Py.Ok (s ∖ {[ x ]}).

(** [disconnect]: lines 40-46. The two [logger.info] calls only read the
    sets. *)
Definition disconnect (self : t) (websocket : WebSocket) : Py.result t :=
  active <- discard websocket (active_connections self) ;;;
  subs <- (if decide (websocket ∈ log_subscribers self)
           then discard websocket (log_subscribers self)
           else Py.Ok (log_subscribers self)) ;;;
  Py.Ok {| active_connections := active;
           log_subscribers := subs;
           log_monitoring_enabled := log_monitoring_enabled self |}.

(** [connect], lines 24-28, once [websocket.accept()] has returned. *)
Definition connect (self : t) (websocket : WebSocket) : t :=
  {| active_connections := {[ websocket ]} ∪ active_connections self;
     log_subscribers := log_subscribers self;
     log_monitoring_enabled := log_monitoring_enabled self |}.

(** [subscribe_logs], lines 30-33. *)
Definition subscribe_logs (self : t) (websocket : WebSocket) : t :=
  {| active_connections := active_connections self;
     log_subscribers := {[ websocket ]} ∪ log_subscribers self;
     log_monitoring_enabled := log_monitoring_enabled self |}.

(** [unsubscribe_logs], lines 35-38. *)
Definition unsubscribe_logs (self : t) (websocket : WebSocket) : Py.result t :=
  subs <- discard websocket (log_subscribers self) ;;;
  Py.Ok {| active_connections := active_connections self;
           log_subscribers := subs;
           log_monitoring_enabled := log_monitoring_enabled self |}.

(** The clean-up loops of [broadcast] and [broadcast_log]: [step] is applied
    to each socket of [disconnected], in the order the set is iterated. *)
Definition for_each (disconnected : gset WebSocket) (step : t -> WebSocket -> Py.result t)
    (self : t) : Py.result t :=
  set_fold (fun connection acc => st <- acc ;;; step st connection) (Py.Ok self) disconnected.

(** [broadcast], lines 48-65, when no other task touches the manager while
    a send is awaited ([broadcast_run] below is the method among other
    tasks). [message_str] is the outcome of [json.dumps] on the message,
    [fails] tells for which sockets [send_text] raises. The result is the
    manager and the set of sockets that received the text. *)
Definition broadcast (self : t) (message_str : Py.result string) (fails : WebSocket -> bool) :
    Py.result (t * gset WebSocket) :=
  if decide (active_connections self = ∅) then Py.Ok (self, ∅)
  else
    _text <- message_str ;;;
    let disconnected := filter (fun c => fails c = true) (active_connections self) in
    let received := filter (fun c => fails c = false) (active_connections self) in
    self' <- for_each disconnected disconnect self ;;;
    Py.Ok (self', received).

(** [broadcast_log], lines 106-129, when no other task touches the manager
    while a send is awaited. *)
Definition broadcast_log (self : t) (message_str : Py.result string)
    (fails : WebSocket -> bool) : Py.result (t * gset WebSocket) :=
  if (negb (log_monitoring_enabled self) || bool_decide (log_subscribers self = ∅))%bool
  then Py.Ok (self, ∅)
  else
    _text <- message_str ;;;
    let disconnected := filter (fun c => fails c = true) (log_subscribers self) in
    let received := filter (fun c => fails c = false) (log_subscribers self) in
    self' <- for_each disconnected
               (fun st connection =>
                  subs <- discard connection (log_subscribers st) ;;;
                  disconnect {| active_connections := active_connections st;
                                log_subscribers := subs;
                                log_monitoring_enabled := log_monitoring_enabled st |}
                             connection)
               self ;;;
    Py.Ok (self', received).

(** [enable_log_monitoring] and [disable_log_monitoring], lines 132-142. *)
Definition enable_log_monitoring (self : t) : t :=
  {| active_connections := active_connections self;
     log_subscribers := log_subscribers self;
     log_monitoring_enabled := true |}.

Definition disable_log_monitoring (self : t) : t :=
  {| active_connections := active_connections self;
     log_subscribers := log_subscribers self;
     log_monitoring_enabled := false |}.

(** **** Sends that are awaited while other tasks run

    [broadcast] and [broadcast_log] above are the two methods when no other
    task touches the manager while a send is awaited. Every
    [await connection.send_text(...)] lets other tasks run, and these reach
    the manager through its methods; the [for] statement iterates over the
    live set and raises [RuntimeError] ("Set changed size during
    iteration") at its next step when the set has another size than at the
    start of the loop. *)

(** A call of another task on the manager. *)
Inductive operation : Type :=
| Connect (websocket : WebSocket)
| SubscribeLogs (websocket : WebSocket)
| UnsubscribeLogs (websocket : WebSocket)
| Disconnect (websocket : WebSocket)
| EnableLogMonitoring
| DisableLogMonitoring.

Definition apply_operation (self : t) (o : operation) : t :=
  match o with
  | Connect websocket => connect self websocket
  | SubscribeLogs websocket => subscribe_logs self websocket
  | UnsubscribeLogs websocket =>
      match unsubscribe_logs self websocket with
      | Py.Ok self' => self'
      | Py.Raise _ => self
      end
  | Disconnect websocket =>
      match disconnect self websocket with
      | Py.Ok self' => self'
      | Py.Raise _ => self
      end
  | EnableLogMonitoring => enable_log_monitoring self
  | DisableLogMonitoring => disable_log_monitoring self
  end.

(** What the calls made during one await leave behind, and whether one of
    them changed the set [live] that is being iterated. *)
Fixpoint interfere (live : t -> gset WebSocket) (self : t) (calls : list operation) :
    t * bool :=
  match calls with
  | [] => (self, false)
  | o :: rest =>
      let self' := apply_operation self o in
      let '(final, touched) := interfere live self' rest in
      (final, (negb (bool_decide (live self' = live self)) || touched)%bool)
  end.

(** How a send loop ends. *)
Inductive loop_end : Type :=
| Exhausted (self : t) (disconnected received : gset WebSocket)
| ChangedSize (self : t) (received : gset WebSocket)
| Rearranged.

(** The send loop of lines 56-61 and 120-125 over the sockets still to
    visit. [fails] tells for which sockets [send_text] raises, [others] what
    the other tasks call while the send to a socket is awaited. After each
    send comes the next step of the [for] statement: it raises when the size
    of the set is not [size0]; when the set was changed and has its old size
    again, which sockets the iterator yields next depends on the layout of
    the hash table, and the model gives no answer. *)
Fixpoint send_loop (live : t -> gset WebSocket) (size0 : nat)
    (fails : WebSocket -> bool) (others : WebSocket -> list operation)
    (todo : list WebSocket) (self : t) (disconnected received : gset WebSocket) : loop_end :=
  match todo with
  | [] => Exhausted self disconnected received
  | connection :: rest =>
      let '(self', touched) := interfere live self (others connection) in
      let disconnected' :=
        if fails connection then {[ connection ]} ∪ disconnected else disconnected in
      let received' :=
        if fails connection then received else {[ connection ]} ∪ received in
      if negb (Nat.eqb (size (live self')) size0) then ChangedSize self' received'
      else if touched then Rearranged
      else send_loop live size0 fails others rest self' disconnected' received'
  end.

(** How a call of [broadcast] or [broadcast_log] ends: it returns, with the
    manager and the sockets that received the text; [json.dumps] raises
    before anything is sent; the [for] statement raises [RuntimeError], which
    leaves the method before its clean-up loop; or the model gives no
    answer. *)
Inductive outcome : Type :=
| Returned (self : t) (received : gset WebSocket)
| Raised (e : Py.exn)
| SetChangedSize (self : t) (received : gset WebSocket)
| Unspecified.

Definition finish (step : t -> WebSocket -> Py.result t) (sent : loop_end) : outcome :=
  match sent with
  | Exhausted self disconnected received =>
      match for_each disconnected step self with
      | Py.Ok self' => Returned self' received
      | Py.Raise e => Raised e
      end
  | ChangedSize self received => SetChangedSize self received
  | Rearranged => Unspecified
  end.

(** [broadcast], lines 48-65, among other tasks. *)
Definition broadcast_run (self : t) (message_str : Py.result string)
    (fails : WebSocket -> bool) (others : WebSocket -> list operation) : outcome :=
  if decide (active_connections self = ∅) then Returned self ∅
  else
    match message_str with
    | Py.Raise e => Raised e
    | Py.Ok _text =>
        finish disconnect
          (send_loop active_connections (size (active_connections self)) fails others
             (elements (active_connections self)) self ∅ ∅)
    end.

(** [broadcast_log], lines 106-129, among other tasks. *)
Definition broadcast_log_run (self : t) (message_str : Py.result string)
    (fails : WebSocket -> bool) (others : WebSocket -> list operation) : outcome :=
  if (negb (log_monitoring_enabled self) || bool_decide (log_subscribers self = ∅))%bool
  then Returned self ∅
  else
    match message_str with
    | Py.Raise e => Raised e
    | Py.Ok _text =>
        finish
          (fun st connection =>
             subs <- discard connection (log_subscribers st) ;;;
             disconnect {| active_connections := active_connections st;
                           log_subscribers := subs;
                           log_monitoring_enabled := log_monitoring_enabled st |}
                        connection)
          (send_loop log_subscribers (size (log_subscribers self)) fails others
             (elements (log_subscribers self)) self ∅ ∅)
    end.

End WebSocketManager.

(** *** src/utils/ipc/utils.py: BackoffStrategy

    The delays are Python floats. They are modelled by exact rationals: the
    properties below only use the order of the delays, that [min] returns one
    of its arguments, and that [x * k >= x] for [x >= 0] and [k >= 1], which
    rounded multiplication preserves. The values of the examples are dyadic
    and their products are exact in binary floating point. *)

Module BackoffStrategy.

Record t : Type := {
  initial_delay : Q;
  max_delay : Q;
  multiplier : Q;
  _current_delay : Q
}.






End BackoffStrategy.

(** *** Python values

    The values that [json.loads] produces and [json.dumps] accepts, plus
    [bytes]. A [dict] is kept as an association list in insertion order with
    distinct keys. Floats are outside the model. *)

Module PyVal.

Inductive value : Type :=
| VNone
| VBool (b : bool)
| VInt (z : Z)
| VStr (s : string)
| VBytes (b : string)
| VList (l : list value)
| VDict (d : list (string * value)).

(** [d.get(key)] on the association list of a [dict]. *)
Fixpoint assoc_get (key : string) (d : list (string * value)) : option value :=
  match d with
  | [] => None
  | (k, v) :: rest => if String.eqb k key then Some v else assoc_get key rest
  end.

(** [d[key] = v]: replaces in place or appends. *)
Fixpoint assoc_set (key : string) (v : value) (d : list (string * value)) :
    list (string * value) :=
  match d with
  | [] => [(key, v)]
  | (k, v0) :: rest =>
      if String.eqb k key then (k, v) :: rest else (k, v0) :: assoc_set key v rest
  end.

(** Truth value of an object, as tested by [if x], [not x] and [x or y]. *)
Definition truthy (v : value) : bool :=
  match v with
  | VNone => false
  | VBool b => b
  | VInt z => negb (Z.eqb z 0)
  | VStr s => negb (String.eqb s "")
  | VBytes b => negb (String.eqb b "")
  | VList l => match l with [] => false | _ => true end
  | VDict d => match d with [] => false | _ => true end
  end.

(** [obj[key]] for a [str] key. *)
Definition getitem (obj : value) (key : string) : Py.result value :=
  match obj with
  | VDict d =>
      match assoc_get key d with
      | Some v => Py.Ok v
      | None => Py.Raise Py.KeyError
      end
  | _ => Py.Raise Py.TypeError
  end.

(** [obj.get(key)]: only a [dict] has the method; the absent key gives
    [None]. *)
Definition get (obj : value) (key : string) : Py.result value :=
  match obj with
  | VDict d =>
      match assoc_get key d with
      | Some v => Py.Ok v
      | None => Py.Ok VNone
      end
  | _ => Py.Raise Py.AttributeError
  end.

(** [v != 0]: an [int] compares by value, a [bool] is an [int] ([False == 0]),
    every other value differs from [0]. *)
Definition ne_zero (v : value) : bool :=
  match v with
  | VInt z => negb (Z.eqb z 0)
  | VBool b => b
  | _ => true
  end.

(** [v == s] for a [str] literal [s]. *)
Definition eq_str (v : value) (s : string) : bool :=
  match v with
  | VStr s' => String.eqb s' s
  | _ => false
  end.

End PyVal.

(** *** src/utils/wecomm.py *)

Module Wecomm.

(** What the caller of [requests.post] observes of the relay: the call
    raises, or it returns a response with a status code, a raw text and the
    outcome of [rsp.json()] on that text. *)
Record Response : Type := {
  status_code : Z;
  text : string;
  json : Py.result PyVal.value
}.

Inductive Relay : Type :=
| PostRaises (e : Py.exn)
| PostReturns (rsp : Response).

(** One [logger.error] record: the message and the raw response text that
    the f-string of line 17 interpolates. *)
Record LogRecord : Type := { log_msg : string; log_rsp_text : string }.

(** [send_wechat]: returns the records logged, or raises. The condition of
    line 16 is evaluated left to right with a short-circuit [or]. *)
Definition send_wechat (msg : string) (relay : Relay) : Py.result (list LogRecord) :=
  match relay with
  | PostRaises e => Py.Raise e
  | PostReturns rsp =>
      failed <- (if negb (Z.eqb (status_code rsp) 200) then Py.Ok true
                 else body <- json rsp ;;;
                      errcode <- PyVal.getitem body "errcode" ;;;
                      Py.Ok (PyVal.ne_zero errcode)) ;;;
      if (failed : bool)
      then Py.Ok [ {| log_msg := msg; log_rsp_text := text rsp |} ]
      else Py.Ok []
  end.

End Wecomm.

(** *** Python [str] operations (ASCII) *)

Module PyStr.

(** [c.upper()] for one ASCII character. *)
Definition upper_ascii (c : ascii) : ascii :=
  let n := nat_of_ascii c in
  if (Nat.leb 97 n && Nat.leb n 122)%bool then ascii_of_nat (n - 32) else c.

(** [s.upper()]. *)
Fixpoint upper (s : string) : string :=
  match s with
  | EmptyString => EmptyString
  | String c r => String (upper_ascii c) (upper r)
  end.

(** [s.isascii()]. *)
Fixpoint isascii (s : string) : bool :=
  match s with
  | EmptyString => true
  | String c r => (Nat.ltb (nat_of_ascii c) 128 && isascii r)%bool
  end.

(** [sep in s] for a one-character [sep]. *)
Fixpoint contains (sep : ascii) (s : string) : bool :=
  match s with
  | EmptyString => false
  | String c r => if Ascii.eqb c sep then true else contains sep r
  end.

(** [s.split(sep)] for a one-character [sep]: never the empty list. *)
Fixpoint split (sep : ascii) (s : string) : list string :=
  match s with
  | EmptyString => [EmptyString]
  | String c r =>
      if Ascii.eqb c sep then EmptyString :: split sep r
      else match split sep r with
           | [] => [String c EmptyString]
           | h :: t => String c h :: t
           end
  end.

End PyStr.

(** *** src/adapters/tq_gateway.py *)

Module TqGateway.

Inductive Exchange : Type := SHFE | DCE | CZCE | CFFEX | INE | GFEX | NONE.

(** [_init_exchange_map], lines 61-70. *)
Definition _init_exchange_map : list (string * Exchange) :=
  [ ("SHFE", SHFE); ("DCE", DCE); ("CZCE", CZCE);
    ("CFFEX", CFFEX); ("INE", INE); ("GFEX", GFEX) ].

(** [key in self.exchange_map]. *)
Definition in_exchange_map (key : string) : bool :=
  existsb (fun kv => String.eqb (fst kv) key) _init_exchange_map.

(** The exchange codes named as keys of the map, as a proposition. *)
Definition known_exchange (code : string) : Prop :=
  In code ["SHFE"; "DCE"; "CZCE"; "CFFEX"; "INE"; "GFEX"].

(** [_format_symbol], lines 624-644. *)
Definition _format_symbol (symbol : string) : option string :=
  if String.eqb symbol "" then None
  else if PyStr.contains "." symbol then
    match PyStr.split "." symbol with
    | [p0; p1] =>
        if in_exchange_map (PyStr.upper p0) then Some symbol
        else if in_exchange_map (PyStr.upper p1)
             then Some (PyStr.upper p1 ++ "." ++ p0)
             else None
    | _ => None
    end
  else Some symbol.

(** [self.exchange_map.get(key, default)]. *)
Fixpoint exchange_map_get (key : string) (default : Exchange)
    (map : list (string * Exchange)) : Exchange :=
  match map with
  | [] => default
  | (k, e) :: rest => if String.eqb k key then e else exchange_map_get key default rest
  end.

(** [_parse_exchange], lines 646-648. *)
Definition _parse_exchange (exchange_code : string) : Exchange :=
  exchange_map_get (PyStr.upper exchange_code) NONE _init_exchange_map.

(** [parts[i]] of a split, for an index that exists. *)
Definition part (i : nat) (symbol : string) : string :=
  List.nth i (PyStr.split "." symbol) EmptyString.

(** The first two lines of [_convert_position], [_convert_tick] and
    [_convert_order] (lines 498-499, 595-596, 546-547):
    [symbol.split(".")[0] if "." in symbol else ""] and
    [symbol.split(".")[1] if "." in symbol else symbol]. *)
Definition exchange_id_of (symbol : string) : string :=
  if PyStr.contains "." symbol then part 0 symbol else EmptyString.

Definition instrument_id_of (symbol : string) : string :=
  if PyStr.contains "." symbol then part 1 symbol else symbol.

(** The exchange that [query_contracts] (lines 353-358) gives to the
    contract of a quote symbol: it is parsed from the whole symbol. *)
Definition contract_exchange (symbol : string) : Exchange := _parse_exchange symbol.

Section Quotes.

(** The quote cache [self._quotes] maps a formatted symbol to the tick
    record ([TickData]) last converted for it; the records are kept
    abstract. *)
Context {Tick : Type}.

(** [unsubscribe], lines 186-196: the cache and the boolean returned.
    [None in self._quotes] is false, so a symbol that does not format is
    skipped. *)
Fixpoint unsubscribe (symbols : list string) (quotes : gmap string Tick) :
    gmap string Tick * bool :=
  match symbols with
  | [] => (quotes, true)
  | symbol :: rest =>
      match _format_symbol symbol with
      | Some formatted_symbol => unsubscribe rest (delete formatted_symbol quotes)
      | None => unsubscribe rest quotes
      end
  end.

End Quotes.

End TqGateway.

(** *** src/api/routes/alarm.py *)

Module Alarm.

(** A naive [datetime] is the number of microseconds since
    1970-01-01T00:00:00 on the local wall clock; a [timedelta] is a number
    of microseconds. *)
Definition datetime : Type := Z.

Definition timedelta (hours minutes : Z) : Z :=
  ((hours * 3600 + minutes * 60) * 1000000)%Z.

(** Proleptic Gregorian date of a day number (days since 1970-01-01). *)
Definition civil_from_days (days : Z) : Z * Z * Z :=
  let z := (days + 719468)%Z in
  let era := (z / 146097)%Z in
  let doe := (z - era * 146097)%Z in
  let yoe := ((doe - doe / 1460 + doe / 36524 - doe / 146096) / 365)%Z in
  let doy := (doe - (365 * yoe + yoe / 4 - yoe / 100))%Z in
  let mp := ((5 * doy + 2) / 153)%Z in
  let d := (doy - (153 * mp + 2) / 5 + 1)%Z in
  let m := (if Z.ltb mp 10 then mp + 3 else mp - 9)%Z in
  let y := (yoe + era * 400 + (if Z.leb m 2 then 1 else 0))%Z in
  (y, m, d).

Definition digit (n : Z) : ascii := ascii_of_nat (48 + Z.to_nat (n mod 10)).

(** Zero-padded decimal of fixed [width]. *)
Fixpoint zero_padded (width : nat) (n : Z) : string :=
  match width with
  | O => EmptyString
  | S w => zero_padded w (n / 10) ++ String (digit n) EmptyString
  end.

(** [t.strftime("%Y-%m-%d")]. *)
Definition strftime_ymd (t : datetime) : string :=
  let '(y, m, d) := civil_from_days (t / 86400000000)%Z in
  zero_padded 4 y ++ "-" ++ zero_padded 2 m ++ "-" ++ zero_padded 2 d.

(** Modelled from the spec: the persisted alarm record [AlarmPo] of
    src/models/po.py, which is not among the sources. The spec lists an
    identifier, an alarm date (a calendar-day string), a creation timestamp,
    a message and a confirmation status; the timestamp column may be NULL. *)
Record AlarmPo : Type := {
  id : Z;
  alarm_date : string;
  created_at : option datetime;
  message : string;
  confirmed : bool
}.

Record AlarmStatsRes : Type := {
  today_total : nat;
  last_hour : nat;
  last_five_minutes : nat
}.

(** [session.query(AlarmPo).filter(cond).count()] on a snapshot of the
    table. *)
Definition query_count (cond : AlarmPo -> bool) (table : list AlarmPo) : nat :=
  List.length (List.filter cond table).

(** SQL [AlarmPo.created_at >= bound]: a NULL timestamp never satisfies
    it. *)
Definition created_at_ge (bound : datetime) (a : AlarmPo) : bool :=
  match created_at a with
  | Some t => Z.leb bound t
  | None => false
  end.

Definition alarm_date_eq (day : string) (a : AlarmPo) : bool :=
  String.eqb (alarm_date a) day.

(** [get_alarm_stats], lines 56-84, for the clock reading [now] and the
    table snapshot [table]. *)
Definition get_alarm_stats (now : datetime) (table : list AlarmPo) : AlarmStatsRes :=
  let today := strftime_ymd now in
  let one_hour_ago := (now - timedelta 1 0)%Z in
  let five_minutes_ago := (now - timedelta 0 5)%Z in
  let today_count := query_count (alarm_date_eq today) table in
  let last_hour_count := query_count (created_at_ge one_hour_ago) table in
  let last_five_minutes_count := query_count (created_at_ge five_minutes_ago) table in
  {| today_total := today_count;
     last_hour := last_hour_count;
     last_five_minutes := last_five_minutes_count |}.

End Alarm.

(** *** src/trader/order_cmd.py (order command engine)

    The module is imported by tests/test_order_cmd.py but is not among the
    sources; its splitting operations are modelled from section 4.11 of the
    specification. *)

Module OrderCmd.

(** Modelled from the spec: the enumerations [Direction] and [Offset] of
    the absent src/models/object.py and [OrderCmdStatus] of the absent
    module, by the members that the spec and the tests name. *)
Inductive Direction : Type := BUY | SELL.

Inductive Offset : Type := OPEN | CLOSE | CLOSETODAY | CLOSEYESTERDAY.

Inductive OrderCmdStatus : Type := PENDING | RUNNING | FINISHED.

(** Modelled from the spec: the absent [SplitOrder], one slice produced by
    a split, with its volume and its offset tag. *)
Record SplitOrder : Type := {
  slice_volume : Z;
  slice_offset : Offset
}.

(** Modelled from the spec: the position snapshot handed to [split]; of
    [PositionData] (src/models/object.py, absent) the split reads the
    today-lot volume of the side being closed ([pos_long_td] for the SELL
    close of the tests). *)
Record PositionData : Type := {
  today_volume : Z
}.

(** Modelled from the spec: the per-order cap loop of the absent
    [SimpleSplitStrategy]. "divided into ceil(volume / max_volume_per_order)
    slices, each of size max_volume_per_order except a final remainder
    slice": full slices are cut while more than a cap remains. [fuel] bounds
    the number of slices. *)
Fixpoint cut (fuel : nat) (qty cap : Z) (tag : Offset) : list SplitOrder :=
  match fuel with
  | O => []
  | S fuel' =>
      if (qty <=? 0)%Z then []
      else if (qty <=? cap)%Z then [ {| slice_volume := qty; slice_offset := tag |} ]
      else {| slice_volume := cap; slice_offset := tag |}
             :: cut fuel' (qty - cap) cap tag
  end.

(** Modelled from the spec: the slices of one quantity, with enough fuel
    for a positive cap. *)
Definition slices (qty cap : Z) (tag : Offset) : list SplitOrder :=
  cut (Z.to_nat qty) qty cap tag.

(** Modelled from the spec: the absent [SimpleSplitStrategy], as the command
    fields that splitting reads and the slices not yet handed out. *)
Record SimpleSplitStrategy : Type := {
  cmd_volume : Z;
  cmd_offset : Offset;
  cmd_max_volume_per_order : Z;
  pending_slices : list SplitOrder
}.

(** Modelled from the spec: [SimpleSplitStrategy.split(position_or_absent)]
    of the absent module. OPEN cuts the whole volume and needs no position;
    CLOSE takes [today_qty = min(requested_volume, position.today_volume)]
    and [yesterday_qty = requested_volume - today_qty], cuts the today
    quantity into CLOSETODAY slices and then the yesterday quantity into
    CLOSE slices. The spec says nothing for a CLOSE without a position or for
    other command offsets: there the model gives no result. Returns the slice
    count and the loaded strategy. *)
Definition strategy_split (self : SimpleSplitStrategy) (pos : option PositionData) :
    option (Z * SimpleSplitStrategy) :=
  let cap := cmd_max_volume_per_order self in
  let produced :=
    match cmd_offset self, pos with
    | OPEN, _ => Some (slices (cmd_volume self) cap OPEN)
    | CLOSE, Some position =>
        let today_qty := Z.min (cmd_volume self) (today_volume position) in
        let yesterday_qty := (cmd_volume self - today_qty)%Z in
        Some (slices today_qty cap CLOSETODAY ++ slices yesterday_qty cap CLOSE)%list
    | _, _ => None
    end in
  match produced with
  | Some l =>
      Some (Z.of_nat (List.length l),
            {| cmd_volume := cmd_volume self;
               cmd_offset := cmd_offset self;
               cmd_max_volume_per_order := cap;
               pending_slices := l |})
  | None => None
  end.

(** Modelled from the spec: [SimpleSplitStrategy.get_next()] of the absent
    module hands out the slices in the order produced and then no further
    slice. *)
Definition get_next (self : SimpleSplitStrategy) : option SplitOrder * SimpleSplitStrategy :=
  match pending_slices self with
  | [] => (None, self)
  | s :: rest =>
      (Some s,
       {| cmd_volume := cmd_volume self;
          cmd_offset := cmd_offset self;
          cmd_max_volume_per_order := cmd_max_volume_per_order self;
          pending_slices := rest |})
  end.

(** [n] successive calls of [get_next]: the results and the final state. *)
Fixpoint get_next_n (n : nat) (self : SimpleSplitStrategy) :
    list (option SplitOrder) * SimpleSplitStrategy :=
  match n with
  | O => ([], self)
  | S n' =>
      let '(r, self') := get_next self in
      let '(rs, self'') := get_next_n n' self' in
      (r :: rs, self'')
  end.

(** Modelled from the spec: the absent [OrderCmd], as the fields that
    [split] reads or writes. *)
Record t : Type := {
  symbol : string;
  direction : Direction;
  offset : Offset;
  volume : Z;
  max_volume_per_order : Z;
  status : OrderCmdStatus;
  _strategy : option SimpleSplitStrategy;
  _left_retry_times : Z
}.

(** Modelled from the spec: the strategy object that [OrderCmd.split]
    creates from the command, before it is loaded. *)
Definition new_strategy (cmd : t) : SimpleSplitStrategy :=
  {| cmd_volume := volume cmd;
     cmd_offset := offset cmd;
     cmd_max_volume_per_order := max_volume_per_order cmd;
     pending_slices := [] |}.

(** Modelled from the spec: [OrderCmd.split(position_or_absent)] of the
    absent module "returns the resulting slice count and seeds an internal
    retry budget: left_retry_times = 2 x slice_count + 1". *)
Definition split (cmd : t) (pos : option PositionData) : option (Z * t) :=
  match strategy_split (new_strategy cmd) pos with
  | Some (count, strategy) =>
      Some (count,
            {| symbol := symbol cmd;
               direction := direction cmd;
               offset := offset cmd;
               volume := volume cmd;
               max_volume_per_order := max_volume_per_order cmd;
               status := status cmd;
               _strategy := Some strategy;
               _left_retry_times := (2 * count + 1)%Z |})
  | None => None
  end.

(** [ceil(a / b)] on integers, for [b > 0]. *)
Definition ceil_div (a b : Z) : Z := ((a + b - 1) / b)%Z.

(** The commands built in tests/test_order_cmd.py: symbol SHFE.rb2505, set
    RUNNING before [split] is called. *)
Definition test_cmd (o : Offset) (d : Direction) (v cap : Z) : t :=
  {| symbol := "SHFE.rb2505";
     direction := d;
     offset := o;
     volume := v;
     max_volume_per_order := cap;
     status := RUNNING;
     _strategy := None;
     _left_retry_times := 0 |}.

End OrderCmd.

(** *** src/utils/ipc/socket_client.py *)

Module SocketClient.

Import PyVal.

(** An [asyncio.Future]: pending, or done with a result, with an exception
    (here the value interpolated into its text), or by cancellation. *)
Inductive Future : Type :=
| FPending
| FResult (v : value)
| FException (detail : value)
| FCancelled.

Definition done (f : Future) : bool :=
  match f with
  | FPending => false
  | _ => true
  end.

(** The client state that the receive path touches. Futures are objects
    shared with the coroutine awaiting them in [request]: [futures] is the
    store of future objects by identity, [_pending_requests] maps a request
    id to a future's identity. [on_data_callback] tells whether the
    registered handler raises on a push; [delivered] lists the pushes it was
    called with. *)
Record t : Type := {
  connected : bool;
  _pending_requests : gmap string positive;
  futures : gmap positive Future;
  on_data_callback : option (value -> value -> option Py.exn);
  delivered : list (value * value)
}.

Definition set_pending (st : t) (p : gmap string positive) : t :=
  {| connected := connected st; _pending_requests := p; futures := futures st;
     on_data_callback := on_data_callback st; delivered := delivered st |}.

Definition set_future (st : t) (fid : positive) (f : Future) : t :=
  {| connected := connected st; _pending_requests := _pending_requests st;
     futures := <[ fid := f ]> (futures st);
     on_data_callback := on_data_callback st; delivered := delivered st |}.

Definition set_connected (st : t) (c : bool) : t :=
  {| connected := c; _pending_requests := _pending_requests st; futures := futures st;
     on_data_callback := on_data_callback st; delivered := delivered st |}.

Definition add_delivered (st : t) (message_type data : value) : t :=
  {| connected := connected st; _pending_requests := _pending_requests st;
     futures := futures st; on_data_callback := on_data_callback st;
     delivered := (delivered st ++ [(message_type, data)])%list |}.

(** A method that mutates the client and may raise: the state it leaves and
    the exception, if any. *)
Definition outcome : Type := t * option Py.exn.

(** [self._pending_requests.pop(request_id, None)]: the keys are [str]; a
    [list] or [dict] key is unhashable; any other key is found absent. *)
Definition pop_pending (st : t) (request_id : value) : Py.result (option positive * t) :=
  match request_id with
  | VStr k =>
      Py.Ok (_pending_requests st !! k, set_pending st (delete k (_pending_requests st)))
  | VList _ | VDict _ => Py.Raise Py.TypeError
  | _ => Py.Ok (None, st)
  end.

(** [x or y]. *)
Definition or_else (x y : value) : value := if truthy x then x else y.

(** [message.get("data", {})]. *)
Definition get_default (obj : value) (key : string) (default : value) : Py.result value :=
  match obj with
  | VDict d =>
      match assoc_get key d with
      | Some v => Py.Ok v
      | None => Py.Ok default
      end
  | _ => Py.Raise Py.AttributeError
  end.

(** The response branch of [_handle_message] once the future is popped
    (lines 277-283): the name [message] is rebound on line 278 to the
    response's [message] field or the empty string, and line 282 calls
    [.get("data")] on that rebound name. *)
Definition resolve (st : t) (fid : positive) (message : value) : outcome :=
  match get message "status" with
  | Py.Raise e => (st, Some e)
  | Py.Ok status =>
      match get message "message" with
      | Py.Raise e => (st, Some e)
      | Py.Ok m =>
          let message := or_else m (VStr "") in
          if eq_str status "error"
          then (set_future st fid (FException message), None)
          else match get message "data" with
               | Py.Raise e => (st, Some e)
               | Py.Ok data => (set_future st fid (FResult (or_else data (VDict []))), None)
               end
      end
  end.

(** [_handle_message], lines 267-313. *)
Definition _handle_message (st : t) (message : value) : outcome :=
  match get message "type" with
  | Py.Raise e => (st, Some e)
  | Py.Ok VNone => (st, None)
  | Py.Ok message_type =>
      if eq_str message_type "response" then
        match get message "request_id" with
        | Py.Raise e => (st, Some e)
        | Py.Ok request_id =>
            if negb (truthy request_id) then (st, None)
            else match pop_pending st request_id with
                 | Py.Raise e => (st, Some e)
                 | Py.Ok (None, st1) => (st1, None)
                 | Py.Ok (Some fid, st1) =>
                     match futures st1 !! fid with
                     | Some f => if done f then (st1, None) else resolve st1 fid message
                     | None => (st1, None)
                     end
                 end
        end
      else
        match get_default message "data" (VDict []) with
        | Py.Raise e => (st, Some e)
        | Py.Ok data =>
            match on_data_callback st with
            | Some handler =>
                (* an exception of the handler is caught and logged *)
                let _caught := handler message_type data in
                (add_delivered st message_type data, None)
            | None => (st, None)
            end
        end
  end.

(** What the loop leaves behind: the client state and the frames it never
    read. *)
Record LoopEnd : Type := {
  final : t;
  unread : list (option value)
}.

(** Lines 241-252: after the loop the client is marked disconnected. *)
Definition loop_exit (st : t) (rest : list (option value)) : LoopEnd :=
  {| final := set_connected st false; unread := rest |}.

(** [_receiving_loop], lines 198-220. [incoming] lists what successive
    calls of [_receive_message] return ([None] for a failed read); when it is
    exhausted the stream is at its end and the read fails. Any exception of
    [_handle_message] is caught by [except Exception] and breaks the loop. *)
Fixpoint _receiving_loop (st : t) (incoming : list (option value)) : LoopEnd :=
  if negb (connected st) then loop_exit st incoming
  else
    match incoming with
    | [] => loop_exit st []
    | None :: rest => loop_exit st rest
    | Some message :: rest =>
        if negb (truthy message) then loop_exit st rest
        else match _handle_message st message with
             | (st', None) => _receiving_loop st' rest
             | (st', Some _) => loop_exit st' rest
             end
    end.

(** [preserved st st']: the relation between the client state before and
    after steps of the receive path that the invariants below are stated
    with. No request becomes pending, no future is created, a future that is
    done keeps its outcome, and the pushes already delivered stay. *)
Definition preserved (st st' : t) : Prop :=
  (forall k, _pending_requests st !! k = None -> _pending_requests st' !! k = None) /\
  (forall fid, futures st !! fid = None -> futures st' !! fid = None) /\
  (forall fid f, futures st !! fid = Some f -> done f = true ->
                 futures st' !! fid = Some f) /\
  (exists more, delivered st' = (delivered st ++ more)%list).

(** [disconnect], lines 111-128, as far as the requests go: the client is
    marked disconnected, every pending request whose future is not done gets
    [ConnectionError] with the text of line 126, and the pending table is
    cleared. Cancelling the receive task and closing the writer touch no
    request. *)
Definition disconnect (st : t) : t :=
  let waiting : gset positive := map_img (_pending_requests st) in
  {| connected := false;
     _pending_requests := ∅;
     futures :=
       map_imap (fun fid f =>
                   Some (if (bool_decide (fid ∈ waiting) && negb (done f))%bool
                         then FException (VStr "连接已断开")
                         else f))
                (futures st);
     on_data_callback := on_data_callback st;
     delivered := delivered st |}.

End SocketClient.

(** *** ASCII character classes *)

Module AsciiClass.

Definition between (lo hi : nat) (c : ascii) : bool :=
  (Nat.leb lo (nat_of_ascii c) && Nat.leb (nat_of_ascii c) hi)%bool.

Definition digit (c : ascii) : bool := between 48 57 c.

(** ASCII whitespace: space, [\t], [\n], [\v], [\f], [\r]. *)
Definition space (c : ascii) : bool :=
  (between 9 13 c || Nat.eqb (nat_of_ascii c) 32)%bool.

End AsciiClass.

(** *** Python text read from a file

    The content of a file is a byte string; the [str] that a text-mode read
    returns is a list of code points. [open(path, 'r', encoding='utf-8',
    errors='replace')] decodes UTF-8, writes U+FFFD for every ill-formed
    sequence, and translates [\r\n] and [\r] to [\n]. *)

Module PyText.

Definition text : Type := list N.

(** The byte values of a byte string; for an ASCII literal these are also
    its code points. *)
Definition codes (s : string) : list N := List.map N_of_ascii (list_ascii_of_string s).

(** What the interpreter brings along: for the code points above 127 the
    classes of its Unicode character database ([str.isspace], the decimal
    digit value, [str.isalnum]), and [sys.get_int_max_str_digits()], which is
    0 (no limit) or at least 640. *)
Record runtime : Type := {
  isspace : N -> bool;
  decimal : N -> option N;
  isalnum : N -> bool;
  int_max_str_digits : nat
}.

Definition between (lo hi c : N) : bool := ((lo <=? c) && (c <=? hi))%N.

Section Classes.

Variable rt : runtime.

(** [c.isspace()], also [\s]. *)
Definition space (c : N) : bool :=
  if (c <? 128)%N then (between 9 13 c || between 28 32 c)%bool else isspace rt c.

(** The value of a decimal digit. *)
Definition digit_value (c : N) : option N :=
  if (c <? 128)%N then (if between 48 57 c then Some (c - 48)%N else None)
  else decimal rt c.

(** [\d]. *)
Definition digit (c : N) : bool :=
  match digit_value c with
  | Some _ => true
  | None => false
  end.

(** [\w]. *)
Definition word (c : N) : bool :=
  if (c <? 128)%N
  then (between 48 57 c || between 65 90 c || between 97 122 c || (c =? 95)%N)%bool
  else isalnum rt c.

(** [s.lstrip()], [s.strip()]. *)
Fixpoint lstrip (s : text) : text :=
  match s with
  | c :: r => if space c then lstrip r else s
  | [] => []
  end.

Definition strip (s : text) : text := List.rev (lstrip (List.rev (lstrip s))).

Fixpoint int_of_digits (s : text) (acc : Z) : Z :=
  match s with
  | c :: r => int_of_digits r (acc * 10 + Z.of_N (default 0%N (digit_value c)))%Z
  | [] => acc
  end.

(** [int(s)] for a non-empty run of decimal digits: [ValueError] when the
    run is longer than the limit on digits. *)
Definition int_ (s : text) : Py.result Z :=
  let digits := List.length s in
  if (Nat.ltb 640 digits && Nat.ltb 0 (int_max_str_digits rt)
      && Nat.ltb (int_max_str_digits rt) digits)%bool
  then Py.Raise Py.ValueError
  else Py.Ok (int_of_digits s 0).

End Classes.

(** The classes cut down to ASCII, with the default limit on digits: no
    code point above 127 is in a class. Every runtime treats text alike
    whose characters above 127 only meet [.]. *)
Definition ascii_runtime : runtime :=
  {| isspace := fun _ => false;
     decimal := fun _ => None;
     isalnum := fun _ => false;
     int_max_str_digits := 4300 |}.

(** [.] without [re.DOTALL]. *)
Definition any (c : N) : bool := negb (c =? 10)%N.

(** [s.split(sep)] for a one-character [sep]: never the empty list. *)
Fixpoint split (sep : N) (s : text) : list text :=
  match s with
  | [] => [[]]
  | c :: r =>
      if (c =? sep)%N then [] :: split sep r
      else match split sep r with
           | [] => [[c]]
           | h :: t => (c :: h) :: t
           end
  end.

(** **** The UTF-8 decoder with [errors='replace'] *)

Definition continuation (b : N) : bool := between 128 191 b.

Definition replacement : N := 65533%N.

(** One step on the bytes that remain: the next code point and the number
    of bytes it takes. An ill-formed sequence gives U+FFFD for its longest
    prefix that could start a well-formed one (a lone byte when there is
    none), and decoding resumes after that prefix. *)
Definition decode_step (s : list N) : option (N * nat) :=
  match s with
  | [] => None
  | b0 :: r0 =>
      Some
        (if (b0 <? 128)%N then (b0, 1%nat)
         else if (b0 <? 194)%N then (replacement, 1%nat)
         else if (b0 <? 224)%N then
           match r0 with
           | [] => (replacement, 1%nat)
           | b1 :: _ =>
               if continuation b1
               then (((b0 - 192) * 64 + (b1 - 128))%N, 2%nat)
               else (replacement, 1%nat)
           end
         else if (b0 <? 240)%N then
           match r0 with
           | [] => (replacement, 1%nat)
           | b1 :: r1 =>
               if (negb (continuation b1)
                   || ((b0 =? 224)%N && (b1 <? 160)%N)
                   || ((b0 =? 237)%N && (160 <=? b1)%N))%bool
               then (replacement, 1%nat)
               else match r1 with
                    | [] => (replacement, 2%nat)
                    | b2 :: _ =>
                        if continuation b2
                        then ((((b0 - 224) * 64 + (b1 - 128)) * 64 + (b2 - 128))%N, 3%nat)
                        else (replacement, 2%nat)
                    end
           end
         else if (b0 <? 245)%N then
           match r0 with
           | [] => (replacement, 1%nat)
           | b1 :: r1 =>
               if (negb (continuation b1)
                   || ((b0 =? 240)%N && (b1 <? 144)%N)
                   || ((b0 =? 244)%N && (144 <=? b1)%N))%bool
               then (replacement, 1%nat)
               else match r1 with
                    | [] => (replacement, 2%nat)
                    | b2 :: r2 =>
                        if negb (continuation b2) then (replacement, 2%nat)
                        else match r2 with
                             | [] => (replacement, 3%nat)
                             | b3 :: _ =>
                                 if continuation b3
                                 then (((((b0 - 240) * 64 + (b1 - 128)) * 64
                                         + (b2 - 128)) * 64 + (b3 - 128))%N, 4%nat)
                                 else (replacement, 3%nat)
                             end
                    end
           end
         else (replacement, 1%nat))
  end.

(** The steps in sequence; every step takes at least one byte, so the number
    of bytes is fuel enough. *)
Fixpoint decode_from (fuel : nat) (s : list N) : text :=
  match fuel with
  | O => []
  | S fuel =>
      match decode_step s with
      | None => []
      | Some (c, k) => c :: decode_from fuel (List.skipn k s)
      end
  end.

Definition utf8_decode (s : list N) : text := decode_from (List.length s) s.

(** Universal newlines: [\r\n] and a lone [\r] become [\n]. *)
Fixpoint universal_newlines (s : text) : text :=
  match s with
  | [] => []
  | c :: r =>
      if (c =? 13)%N then
        match r with
        | c' :: r' =>
            if (c' =? 10)%N then 10%N :: universal_newlines r'
            else 10%N :: universal_newlines r
        | [] => [10%N]
        end
      else c :: universal_newlines r
  end.

(** [f.seek(start_pos); f.read()] on the file opened in text mode: the
    offset counts bytes (a file offset, below 2^64), the result is text. *)
Definition read_text (start_pos : nat) (bytes : string) : text :=
  universal_newlines (utf8_decode (List.skipn start_pos (codes bytes))).

(** Bytes on which decoding changes nothing: ASCII without carriage
    returns. *)
Definition plain (s : list N) : bool :=
  List.forallb (fun c => (c <? 128)%N && negb (c =? 13)%N)%bool s.

End PyText.

(** *** [os.path] on a POSIX system *)

Module OsPath.

(** [sep.join(parts)]. *)
Fixpoint join (sep : string) (parts : list string) : string :=
  match parts with
  | [] => EmptyString
  | [p] => p
  | p :: rest => p ++ sep ++ join sep rest
  end.

(** The body of the loop of [posixpath.normpath] for one component;
    [new_comps] is held with its last component first. *)
Definition normpath_step (initial_slashes : nat) (new_comps : list string) (comp : string) :
    list string :=
  if (String.eqb comp "" || String.eqb comp ".")%bool then new_comps
  else if (negb (String.eqb comp "..")
           || (Nat.eqb initial_slashes 0
               && match new_comps with [] => true | _ :: _ => false end)
           || match new_comps with last :: _ => String.eqb last ".." | [] => false end)%bool
       then comp :: new_comps
       else List.tl new_comps.

Definition slashes (n : nat) : string :=
  match n with
  | O => ""
  | S O => "/"
  | _ => "//"
  end.

(** [path.startswith('/')], counted as [posixpath.normpath] does: two
    leading slashes are kept, three or more are one. *)
Definition initial_slashes (path : string) : nat :=
  if String.prefix "/" path
  then if (String.prefix "//" path && negb (String.prefix "///" path))%bool
       then 2%nat else 1%nat
  else 0%nat.

(** [os.path.normpath(path)] ([posixpath]): empty and [.] components are
    dropped, [..] removes the component before it, one or exactly two
    leading slashes are kept. *)
Definition normpath (path : string) : string :=
  if String.eqb path "" then "."
  else
    let comps := PyStr.split "/" path in
    let new_comps := List.fold_left (normpath_step (initial_slashes path)) comps [] in
    let path := slashes (initial_slashes path) ++ join "/" (List.rev new_comps) in
    if String.eqb path "" then "." else path.

(** The invariant of the loop: a component that [normpath] keeps, other
    than [..], and the components kept so far (last first), which are the
    leading [..] components of a relative path followed by components that
    are not [..]. *)
Definition kept_component (c : string) : Prop :=
  c <> "" /\ c <> "." /\ c <> ".." /\ PyStr.contains "/" c = false.

Definition normal_stack (k : nat) (stack : list string) : Prop :=
  exists n rest,
    stack = (rest ++ List.repeat ".." n)%list /\
    Forall kept_component rest /\
    (k <> 0%nat -> n = 0%nat).

End OsPath.

(** *** Python [re]: the fragment used by the log parser

    A pattern is a sequence of literals, bounded or unbounded repetitions of
    one character class (greedy or lazy) and group parentheses. Matching is
    anchored at the start as [re.match] is and explores the alternatives in
    the backtracking order of [re]: a greedy repetition tries the longest
    run first, a lazy one the shortest. *)

Module Re.

Inductive item : Type :=
| Lit (c : N)
| Rep (cls : N -> bool) (lo : nat) (hi : option nat) (greedy : bool)
| GroupOpen
| GroupClose.

Definition below (n : nat) (hi : option nat) : bool :=
  match hi with
  | Some h => Nat.ltb n h
  | None => true
  end.

(** First success in priority order. *)
Definition orelse {A : Type} (x y : option A) : option A :=
  match x with
  | Some _ => x
  | None => y
  end.

(** [run items s pos opens caps]: [pos] characters are consumed, [opens]
    are the start offsets of the groups still open, [caps] the spans of the
    groups closed so far (latest first). The result lists the spans of the
    groups in order of closing. *)
Fixpoint run (items : list item) (s : PyText.text) (pos : nat)
    (opens : list nat) (caps : list (nat * nat)) : option (list (nat * nat)) :=
  match items with
  | [] => Some (List.rev caps)
  | Lit c :: rest =>
      match s with
      | c' :: s' => if (c =? c')%N then run rest s' (S pos) opens caps else None
      | [] => None
      end
  | GroupOpen :: rest => run rest s pos (pos :: opens) caps
  | GroupClose :: rest =>
      match opens with
      | start :: opens' => run rest s pos opens' ((start, pos) :: caps)
      | [] => None
      end
  | Rep cls lo hi greedy :: rest =>
      (fix loop (s : PyText.text) (n pos : nat) {struct s} : option (list (nat * nat)) :=
         let stop := if Nat.leb lo n then run rest s pos opens caps else None in
         let more :=
           match s with
           | c :: s' =>
               if (cls c && below n hi)%bool then loop s' (S n) (S pos) else None
           | [] => None
           end in
         if greedy then orelse more stop else orelse stop more) s 0%nat pos
  end.

(** [re.match(pattern, s)]: the group spans, or no match. *)
Definition match_ (pattern : list item) (s : PyText.text) : option (list (nat * nat)) :=
  run pattern s 0%nat [] [].

(** [m.group(i)] for [i >= 1]. *)
Definition group (s : PyText.text) (spans : list (nat * nat)) (i : nat) : PyText.text :=
  match List.nth_error spans (i - 1) with
  | Some (a, b) => List.firstn (b - a) (List.skipn a s)
  | None => []
  end.

End Re.

(** *** src/services/log_watcher.py

    A log file is a byte string; what the watcher reads from it is text
    (code points), and the offsets it records are added up from the lengths
    of that text. Paths are byte strings, normalised by [os.path.normpath] of
    a POSIX system. *)

Module LogWatcher.

(** [s.endswith(suffix)]. *)
Definition endswith (s suffix : string) : bool :=
  let n := String.length s in
  let k := String.length suffix in
  (Nat.leb k n && String.eqb (String.substring (n - k) k s) suffix)%bool.

(** A path as the calls of the watcher find it: nothing there, something
    that [open] refuses (a directory, a file without read permission), or a
    file with its content. *)
Inductive file : Type :=
| Missing
| Unreadable (size : nat)
| Readable (content : string).

Definition filesystem : Type := string -> file.

(** [os.path.exists(path)]. *)
Definition exists_ (fs : filesystem) (path : string) : bool :=
  match fs path with
  | Missing => false
  | _ => true
  end.

(** [os.path.getsize(path)] of a path that exists: a number of bytes. *)
Definition getsize (fs : filesystem) (path : string) : nat :=
  match fs path with
  | Missing => 0%nat
  | Unreadable size => size
  | Readable content => String.length content
  end.

(** [open(path, 'r', ...)]: the content, or nothing when it raises. *)
Definition open_ (fs : filesystem) (path : string) : option string :=
  match fs path with
  | Readable content => Some content
  | _ => None
  end.

(** The dict built by [_parse_log_line], with the [raw] entry that
    [_read_new_lines] adds. *)
Record entry : Type := {
  timestamp : PyText.text;
  level : PyText.text;
  logger : PyText.text;
  function : PyText.text;
  line : Z;
  message : PyText.text;
  raw : PyText.text
}.

(** The watcher: recorded offsets per path, and the batches handed to the
    callback so far. *)
Record t : Type := {
  log_dir : string;
  file_position : gmap string nat;
  callback_calls : list (list entry)
}.

Section Runtime.

Variable rt : PyText.runtime.

(** The pattern of line 145:
    [(\d{4}-\d{2}-\d{2} \d{2}:\d{2}:\d{2}\.\d{3}) \| (\w+)\s+\| (.+?):(.+?):(\d+)\s*\| (.+)] *)
Definition pattern : list Re.item :=
  let d n := Re.Rep (PyText.digit rt) n (Some n) true in
  let space := Re.Lit 32%N in
  let colon := Re.Lit 58%N in
  let bar := Re.Lit 124%N in
  [ Re.GroupOpen; d 4%nat; Re.Lit 45%N; d 2%nat; Re.Lit 45%N; d 2%nat; space;
    d 2%nat; colon; d 2%nat; colon; d 2%nat; Re.Lit 46%N; d 3%nat; Re.GroupClose;
    space; bar; space;
    Re.GroupOpen; Re.Rep (PyText.word rt) 1 None true; Re.GroupClose;
    Re.Rep (PyText.space rt) 1 None true; bar; space;
    Re.GroupOpen; Re.Rep PyText.any 1 None false; Re.GroupClose; colon;
    Re.GroupOpen; Re.Rep PyText.any 1 None false; Re.GroupClose; colon;
    Re.GroupOpen; Re.Rep (PyText.digit rt) 1 None true; Re.GroupClose;
    Re.Rep (PyText.space rt) 0 None true; bar; space;
    Re.GroupOpen; Re.Rep PyText.any 1 None true; Re.GroupClose ].

(** [_parse_log_line], lines 142-161, followed by [parsed['raw'] = line]:
    an exception of [int] is caught (line 159) and gives [None]. *)
Definition _parse_log_line (text : PyText.text) : option entry :=
  match Re.match_ pattern text with
  | None => None
  | Some spans =>
      match PyText.int_ rt (Re.group text spans 5) with
      | Py.Raise _ => None
      | Py.Ok number =>
          Some {| timestamp := Re.group text spans 1;
                  level := Re.group text spans 2;
                  logger := Re.group text spans 3;
                  function := Re.group text spans 4;
                  line := number;
                  message := Re.group text spans 6;
                  raw := text |}
      end
  end.

(** The loop of lines 122-131 over the split content. *)
Fixpoint parse_lines (lines : list PyText.text) : list entry :=
  match lines with
  | [] => []
  | l :: rest =>
      match PyText.strip rt l with
      | [] => parse_lines rest
      | l =>
          match _parse_log_line l with
          | Some parsed => parsed :: parse_lines rest
          | None => parse_lines rest
          end
      end
  end.

(** [_read_new_lines], lines 110-140: the entries and the updated watcher.
    [new_pos] adds the number of characters read to the byte offset. *)
Definition _read_new_lines (self : t) (fs : filesystem) (file_path : string)
    (start_pos : nat) : list entry * t :=
  match open_ fs file_path with
  | None => ([], self)
  | Some bytes =>
      match PyText.read_text start_pos bytes with
      | [] => ([], self)
      | content =>
          let lines := PyText.split 10%N content in
          let entries := parse_lines lines in
          let new_pos := (start_pos + List.length content)%nat in
          (entries,
           {| log_dir := log_dir self;
              file_position :=
                <[ OsPath.normpath file_path := new_pos ]> (file_position self);
              callback_calls := callback_calls self |})
      end
  end.

(** [_on_file_modified], lines 89-108; [today_log_file] is what
    [_get_today_log_file] returns at the time of the event. *)
Definition _on_file_modified (self : t) (fs : filesystem) (today_log_file : string)
    (file_path : string) : t :=
  if negb (endswith file_path ".log") then self
  else
    let normalized_path := OsPath.normpath file_path in
    let normalized_today := OsPath.normpath today_log_file in
    if negb (String.eqb normalized_path normalized_today) then self
    else
      let last_pos := default 0%nat (file_position self !! normalized_path) in
      let '(new_entries, self') := _read_new_lines self fs normalized_path last_pos in
      match new_entries with
      | [] => self'
      | _ =>
          {| log_dir := log_dir self';
             file_position := file_position self';
             callback_calls := (callback_calls self' ++ [new_entries])%list |}
      end.

(** [LogFileEventHandler.on_modified], lines 27-41, wired to
    [_on_file_modified] as [start] does: directory events, paths that do not
    end in [.log] and paths outside the log directory are ignored. *)
Definition on_modified (self : t) (fs : filesystem) (today_log_file : string)
    (is_directory : bool) (src_path : string) : t :=
  if is_directory then self
  else if negb (endswith src_path ".log") then self
  else if negb (String.prefix (log_dir self) src_path) then self
  else _on_file_modified self fs today_log_file src_path.

End Runtime.

(** [start], lines 60-73, as far as the offsets go: when today's log file
    exists its current size in bytes is recorded, under the normalised path,
    as the offset to read from. Starting the directory observer itself
    changes nothing here. *)
Definition start (self : t) (fs : filesystem) (today_log_file : string) : t :=
  if exists_ fs today_log_file then
    {| log_dir := log_dir self;
       file_position :=
         <[ OsPath.normpath today_log_file := getsize fs today_log_file ]>
           (file_position self);
       callback_calls := callback_calls self |}
  else self.

End LogWatcher.

(** *** JSON text, as [simplejson] writes and reads it

    ASCII documents over the values of [PyVal]; number literals with a
    fraction or an exponent and [\u] escapes above 127 are outside the
    model and are reported as undecodable. *)

Module Json.

Import PyVal.

Definition dquote : ascii := "034".
Definition backslash : ascii := "092".

(** A two-character escape. *)
Definition esc (c : ascii) : string := String backslash (String c EmptyString).

Definition hex_digit (n : nat) : ascii :=
  ascii_of_nat (if Nat.ltb n 10 then 48 + n else 87 + n).

Definition hex_val (c : ascii) : option nat :=
  let n := nat_of_ascii c in
  if AsciiClass.between 48 57 c then Some (n - 48)%nat
  else if AsciiClass.between 97 102 c then Some (n - 87)%nat
  else if AsciiClass.between 65 70 c then Some (n - 55)%nat
  else None.

(** [encode_basestring_ascii] without the quotes: the short escapes, and
    [\u00xx] for every other character outside [' '..'~']. *)
Definition escape_char (c : ascii) : string :=
  let n := nat_of_ascii c in
  if Ascii.eqb c dquote then esc dquote
  else if Ascii.eqb c backslash then esc backslash
  else if Nat.eqb n 10 then esc "n"
  else if Nat.eqb n 13 then esc "r"
  else if Nat.eqb n 9 then esc "t"
  else if Nat.eqb n 8 then esc "b"
  else if Nat.eqb n 12 then esc "f"
  else if AsciiClass.between 32 126 c then String c EmptyString
  else String backslash (String "u" (String "0" (String "0"
         (String (hex_digit (n / 16)) (String (hex_digit (n mod 16)) EmptyString))))).

Fixpoint escape (s : string) : string :=
  match s with
  | EmptyString => EmptyString
  | String c r => escape_char c ++ escape r
  end.

Definition quote (s : string) : string :=
  String dquote (escape s ++ String dquote EmptyString).

Fixpoint all_ascii (s : string) : bool :=
  match s with
  | EmptyString => true
  | String c r => (Nat.ltb (nat_of_ascii c) 128 && all_ascii r)%bool
  end.

Fixpoint join (sep : string) (parts : list string) : string :=
  match parts with
  | [] => EmptyString
  | [p] => p
  | p :: rest => p ++ sep ++ join sep rest
  end.

(** Collects the results of a list of calls, stopping at the first that
    raises. *)
Fixpoint sequence {A : Type} (l : list (Py.result A)) : Py.result (list A) :=
  match l with
  | [] => Py.Ok []
  | r :: rest => x <- r ;;; xs <- sequence rest ;;; Py.Ok (x :: xs)
  end.

(** [simplejson.dumps(v, ignore_nan=True, default=str)] with the default
    separators. A [bytes] object is not handed to [default]: with the default
    [encoding='utf-8'] simplejson decodes it to text and writes it as a
    string, raising [UnicodeDecodeError] when it is not UTF-8 (here: not
    ASCII). No value of the model reaches [default]. *)
Fixpoint dumps (v : value) : Py.result string :=
  match v with
  | VNone => Py.Ok "null"
  | VBool true => Py.Ok "true"
  | VBool false => Py.Ok "false"
  | VInt z => Py.Ok (NilZero.string_of_int (Z.to_int z))
  | VStr s => Py.Ok (quote s)
  | VBytes b => if all_ascii b then Py.Ok (quote b) else Py.Raise Py.UnicodeDecodeError
  | VList l =>
      items <- sequence (List.map dumps l) ;;;
      Py.Ok ("[" ++ join ", " items ++ "]")
  | VDict d =>
      items <- sequence (List.map (fun kv => t <- dumps (snd kv) ;;;
                                             Py.Ok (quote (fst kv) ++ ": " ++ t)) d) ;;;
      Py.Ok ("{" ++ join ", " items ++ "}")
  end.

Definition is_ws (c : ascii) : bool :=
  let n := nat_of_ascii c in
  (Nat.eqb n 32 || Nat.eqb n 9 || Nat.eqb n 10 || Nat.eqb n 13)%bool.

Fixpoint skip_ws (s : string) : string :=
  match s with
  | String c r => if is_ws c then skip_ws r else s
  | EmptyString => EmptyString
  end.

(** [s] without the prefix [p], when it starts with it. *)
Fixpoint after (p s : string) : option string :=
  match p, s with
  | EmptyString, _ => Some s
  | String a p', String b s' => if Ascii.eqb a b then after p' s' else None
  | _, _ => None
  end.

(** The body of a string literal, after its opening quote: the text and the
    input after the closing quote. *)
Fixpoint scan_string (s : string) : option (string * string) :=
  match s with
  | EmptyString => None
  | String c r =>
      if Ascii.eqb c dquote then Some (EmptyString, r)
      else if Ascii.eqb c backslash then
        match r with
        | String e r1 =>
            let plain (x : ascii) :=
              match scan_string r1 with
              | Some (t, rest) => Some (String x t, rest)
              | None => None
              end in
            if Ascii.eqb e dquote then plain dquote
            else if Ascii.eqb e backslash then plain backslash
            else if Ascii.eqb e "/" then plain "/"%char
            else if Ascii.eqb e "b" then plain "008"%char
            else if Ascii.eqb e "f" then plain "012"%char
            else if Ascii.eqb e "n" then plain "010"%char
            else if Ascii.eqb e "r" then plain "013"%char
            else if Ascii.eqb e "t" then plain "009"%char
            else if Ascii.eqb e "u" then
              match r1 with
              | String h1 (String h2 (String h3 (String h4 r5))) =>
                  match hex_val h1, hex_val h2, hex_val h3, hex_val h4 with
                  | Some 0%nat, Some 0%nat, Some a, Some b =>
                      if Nat.ltb (16 * a + b) 128 then
                        match scan_string r5 with
                        | Some (t, rest) => Some (String (ascii_of_nat (16 * a + b)) t, rest)
                        | None => None
                        end
                      else None
                  | _, _, _, _ => None
                  end
              | _ => None
              end
            else None
        | EmptyString => None
        end
      else if Nat.ltb (nat_of_ascii c) 32 then None
      else match scan_string r with
           | Some (t, rest) => Some (String c t, rest)
           | None => None
           end
  end.

Fixpoint scan_digits (s : string) : string * string :=
  match s with
  | String c r =>
      if AsciiClass.digit c then let '(d, rest) := scan_digits r in (String c d, rest)
      else (EmptyString, s)
  | EmptyString => (EmptyString, EmptyString)
  end.

Fixpoint nat_of_digits (s : string) (acc : Z) : Z :=
  match s with
  | String c r => nat_of_digits r (acc * 10 + Z.of_nat (nat_of_ascii c - 48))%Z
  | EmptyString => acc
  end.

(** An integer literal: no leading zero, no fraction, no exponent. *)
Definition scan_int (s : string) : option (Z * string) :=
  let '(neg, s1) := match s with
                    | String "-" r => (true, r)
                    | _ => (false, s)
                    end in
  let '(ds, rest) := scan_digits s1 in
  let leading_zero := match ds with
                      | String "0" (String _ _) => true
                      | _ => false
                      end in
  let continues := match rest with
                   | String c _ => (Ascii.eqb c "." || Ascii.eqb c "e" || Ascii.eqb c "E")%bool
                   | EmptyString => false
                   end in
  if (String.eqb ds "" || leading_zero || continues)%bool then None
  else Some (if neg then (- nat_of_digits ds 0)%Z else nat_of_digits ds 0, rest).

Definition syntax_error {A : Type} : Py.result A := Py.Raise Py.JSONDecodeError.

(** The decoder. [hook] is the [object_hook], applied to every object once
    its members are read, innermost first; a repeated key keeps its first
    position and its last value. *)
Fixpoint parse_value (fuel : nat) (hook : list (string * value) -> Py.result value)
    (s : string) : Py.result (value * string) :=
  match fuel with
  | O => syntax_error
  | S fuel' =>
      match skip_ws s with
      | String c r =>
          if Ascii.eqb c "[" then
            match skip_ws r with
            | String "]" r' => Py.Ok (VList [], r')
            | _ => parse_elements fuel' hook r []
            end
          else if Ascii.eqb c "{" then
            match skip_ws r with
            | String "}" r' => v <- hook [] ;;; Py.Ok (v, r')
            | _ => parse_members fuel' hook r []
            end
          else if Ascii.eqb c dquote then
            match scan_string r with
            | Some (t, rest) => Py.Ok (VStr t, rest)
            | None => syntax_error
            end
          else
            match after "null" (String c r), after "true" (String c r),
                  after "false" (String c r) with
            | Some rest, _, _ => Py.Ok (VNone, rest)
            | _, Some rest, _ => Py.Ok (VBool true, rest)
            | _, _, Some rest => Py.Ok (VBool false, rest)
            | None, None, None =>
                match scan_int (String c r) with
                | Some (z, rest) => Py.Ok (VInt z, rest)
                | None => syntax_error
                end
            end
      | EmptyString => syntax_error
      end
  end
with parse_elements (fuel : nat) (hook : list (string * value) -> Py.result value)
    (s : string) (acc : list value) : Py.result (value * string) :=
  match fuel with
  | O => syntax_error
  | S fuel' =>
      p <- parse_value fuel' hook s ;;;
      let '(v, rest) := p in
      match skip_ws rest with
      | String "," rest' => parse_elements fuel' hook rest' (acc ++ [v])%list
      | String "]" rest' => Py.Ok (VList (acc ++ [v])%list, rest')
      | _ => syntax_error
      end
  end
with parse_members (fuel : nat) (hook : list (string * value) -> Py.result value)
    (s : string) (acc : list (string * value)) : Py.result (value * string) :=
  match fuel with
  | O => syntax_error
  | S fuel' =>
      match skip_ws s with
      | String q r =>
          match (if Ascii.eqb q dquote then scan_string r else None) with
          | Some (key, rest) =>
              match skip_ws rest with
              | String ":" rest1 =>
                  p <- parse_value fuel' hook rest1 ;;;
                  let '(v, rest2) := p in
                  match skip_ws rest2 with
                  | String "," rest3 => parse_members fuel' hook rest3 (assoc_set key v acc)
                  | String "}" rest3 =>
                      obj <- hook (assoc_set key v acc) ;;; Py.Ok (obj, rest3)
                  | _ => syntax_error
                  end
              | _ => syntax_error
              end
          | None => syntax_error
          end
      | EmptyString => syntax_error
      end
  end.

(** [simplejson.loads(text, object_hook=hook)]. *)
Definition loads (hook : list (string * value) -> Py.result value) (text : string) :
    Py.result value :=
  p <- parse_value (2 * String.length text + 2) hook text ;;;
  let '(v, rest) := p in
  match skip_ws rest with
  | EmptyString => Py.Ok v
  | _ => syntax_error
  end.

End Json.

(** *** src/utils/ipc/protocol.py

    Byte strings are [string]s of 8-bit characters. *)

Module MessageProtocol.

Import PyVal.

Inductive MessageType : Type := HEARTBEAT | REQUEST | RESPONSE | PUSH | ERROR.

(** [msg_type.value] *)
Definition type_value (ty : MessageType) : string :=
  match ty with
  | HEARTBEAT => "heartbeat"
  | REQUEST => "request"
  | RESPONSE => "response"
  | PUSH => "push"
  | ERROR => "error"
  end.

(** [MessageType(v)]: lookup by value, [ValueError] when there is none. *)
Definition type_of_value (v : value) : Py.result MessageType :=
  match v with
  | VStr s =>
      if String.eqb s "heartbeat" then Py.Ok HEARTBEAT
      else if String.eqb s "request" then Py.Ok REQUEST
      else if String.eqb s "response" then Py.Ok RESPONSE
      else if String.eqb s "push" then Py.Ok PUSH
      else if String.eqb s "error" then Py.Ok ERROR
      else Py.Raise Py.ValueError
  | _ => Py.Raise Py.ValueError
  end.

(** The dataclass [MessageBody]; the types of its fields are annotations
    only, [from_dict] stores whatever the document holds. *)
Record MessageBody : Type := {
  msg_type : MessageType;
  request_id : value;
  data : value;
  timestamp : value;
  error : value
}.

Definition to_dict (self : MessageBody) : value :=
  VDict [ ("msg_type", VStr (type_value (msg_type self)));
          ("request_id", request_id self);
          ("data", data self);
          ("timestamp", timestamp self);
          ("error", error self) ].

Definition from_dict (d : value) : Py.result MessageBody :=
  ty_value <- getitem d "msg_type" ;;;
  ty <- type_of_value ty_value ;;;
  rid <- getitem d "request_id" ;;;
  dat <- getitem d "data" ;;;
  ts <- getitem d "timestamp" ;;;
  err <- get d "error" ;;;
  Py.Ok {| msg_type := ty; request_id := rid; data := dat; timestamp := ts; error := err |}.

(** [b.hex()] *)
Fixpoint hex (b : string) : string :=
  match b with
  | EmptyString => EmptyString
  | String c r =>
      let n := nat_of_ascii c in
      String (Json.hex_digit (n / 16)) (String (Json.hex_digit (n mod 16)) (hex r))
  end.

(** [bytes.fromhex(s)]: pairs of hexadecimal digits, ASCII whitespace
    allowed between the pairs. *)
Fixpoint fromhex_text (s : string) : Py.result string :=
  match s with
  | EmptyString => Py.Ok EmptyString
  | String c r =>
      if AsciiClass.space c then fromhex_text r
      else match r with
           | String c2 r2 =>
               match Json.hex_val c, Json.hex_val c2 with
               | Some a, Some b =>
                   rest <- fromhex_text r2 ;;;
                   Py.Ok (String (ascii_of_nat (16 * a + b)) rest)
               | _, _ => Py.Raise Py.ValueError
               end
           | EmptyString => Py.Raise Py.ValueError
           end
  end.

Definition fromhex (v : value) : Py.result value :=
  match v with
  | VStr s => b <- fromhex_text s ;;; Py.Ok (VBytes b)
  | _ => Py.Raise Py.TypeError
  end.

(** [MessageEncoder.default], lines 67-72, for a [bytes] object: the tagged
    object. [MessageProtocol.__init__] builds a [MessageEncoder], but
    [encode] does not use it (line 101 is commented out). *)
Definition MessageEncoder_default (b : string) : value :=
  VDict [ ("__bytes__", VStr (hex b)) ].

(** [message_decode_hook], lines 75-79. *)
Definition message_decode_hook (dct : list (string * value)) : Py.result value :=
  match assoc_get "__bytes__" dct with
  | Some tagged => fromhex tagged
  | None => Py.Ok (VDict dct)
  end.

(** [struct.pack("!I", n)]: four bytes, big-endian. *)
Definition pack_u32 (n : Z) : Py.result string :=
  if ((n <? 0) || (2 ^ 32 <=? n))%Z%bool then Py.Raise Py.StructError
  else
    let byte k := ascii_of_nat (Z.to_nat ((n / 256 ^ k) mod 256)) in
    Py.Ok (String (byte 3%Z) (String (byte 2%Z) (String (byte 1%Z)
             (String (byte 0%Z) EmptyString)))).

(** [struct.unpack("!I", b)[0]] on four bytes. *)
Definition unpack_u32 (b : string) : Z :=
  let z c := Z.of_nat (nat_of_ascii c) in
  match b with
  | String b3 (String b2 (String b1 (String b0 _))) =>
      (((z b3 * 256 + z b2) * 256 + z b1) * 256 + z b0)%Z
  | _ => 0%Z
  end.

(** [encode], lines 88-107. The document is ASCII ([ensure_ascii]), so its
    UTF-8 encoding is the text itself. *)
Definition encode (message : MessageBody) : Py.result string :=
  json_data <- Json.dumps (to_dict message) ;;;
  let message_bytes := json_data in
  let length := Z.of_nat (String.length message_bytes) in
  header <- pack_u32 length ;;;
  Py.Ok (header ++ message_bytes).

(** [decode], lines 109-136. The handler catches [struct.error],
    [JSONDecodeError] and [UnicodeDecodeError] and returns [None]; any other
    exception leaves [decode]. A body with non-ASCII bytes is outside the
    model and counts as undecodable. *)
Definition decode (data : string) : Py.result (option MessageBody) :=
  if Nat.ltb (String.length data) 4 then Py.Ok None
  else
    let length := unpack_u32 (String.substring 0 4 data) in
    if (Z.of_nat (String.length data) <? 4 + length)%Z then Py.Ok None
    else
      let body := String.substring 4 (Z.to_nat length) data in
      if negb (Json.all_ascii body) then Py.Ok None
      else match Json.loads message_decode_hook body with
           | Py.Raise Py.JSONDecodeError => Py.Ok None
           | Py.Raise e => Py.Raise e
           | Py.Ok message_dict =>
               m <- from_dict message_dict ;;; Py.Ok (Some m)
           end.

(** The frame of a given document, as a peer would send it. *)
Definition frame (document : string) : Py.result string :=
  header <- pack_u32 (Z.of_nat (String.length document)) ;;; Py.Ok (header ++ document).

(** [read_message], lines 138-169, on the bytes that remain in the stream
    up to its end: the message, if any, and the bytes left unread.
    [readexactly] raises [IncompleteReadError] when the stream ends early;
    every exception, also one leaving [decode], gives [None]. *)
Definition read_message (stream : string) : option MessageBody * string :=
  if Nat.ltb (String.length stream) 4 then (None, EmptyString)
  else
    let length_data := String.substring 0 4 stream in
    let after_header := String.substring 4 (String.length stream - 4) stream in
    let total_length := Z.to_nat (unpack_u32 length_data) in
    if Nat.ltb (String.length after_header) total_length then (None, EmptyString)
    else
      let message_data := String.substring 0 total_length after_header in
      let rest := String.substring total_length
                    (String.length after_header - total_length) after_header in
      let full_data := length_data ++ message_data in
      match decode full_data with
      | Py.Ok r => (r, rest)
      | Py.Raise _ => (None, rest)
      end.

End MessageProtocol.

(** ** Part II: properties *)

(** *** WebSocketManager.disconnect *)

Lemma disconnect_sets (self : WebSocketManager.t) (ws : WebSocketManager.WebSocket) :
  WebSocketManager.disconnect self ws =
  Py.Ok {| WebSocketManager.active_connections :=
             WebSocketManager.active_connections self ∖ {[ ws ]};
           WebSocketManager.log_subscribers :=
             WebSocketManager.log_subscribers self ∖ {[ ws ]};
           WebSocketManager.log_monitoring_enabled :=
             WebSocketManager.log_monitoring_enabled self |}.
Proof.
  unfold WebSocketManager.disconnect, WebSocketManager.discard. simpl.
  destruct (decide (ws ∈ WebSocketManager.log_subscribers self)) as [Hin | Hout];
    simpl; [reflexivity |].
  f_equal. f_equal. apply leibniz_equiv. set_solver.
Qed.

(** C10. [disconnect] is idempotent: on a socket that is in neither set
    it returns normally with the manager unchanged, and for every socket a
    second [disconnect] returns normally with exactly the state the first
    one produced. *)
Theorem disconnect_idempotent (self : WebSocketManager.t) (ws : WebSocketManager.WebSocket) :
  (ws ∉ WebSocketManager.active_connections self ->
   ws ∉ WebSocketManager.log_subscribers self ->
   WebSocketManager.disconnect self ws = Py.Ok self) /\
  (exists once : WebSocketManager.t,
     WebSocketManager.disconnect self ws = Py.Ok once /\
     (once' <- WebSocketManager.disconnect self ws ;;;
      WebSocketManager.disconnect once' ws) = Py.Ok once).
Proof.
  split.
  - intros Ha Hs. rewrite disconnect_sets. destruct self as [a s m]; simpl in *.
    f_equal. f_equal; apply leibniz_equiv; set_solver.
  - eexists. split; [apply disconnect_sets |].
    rewrite disconnect_sets. simpl. rewrite disconnect_sets. simpl.
    f_equal. f_equal; apply leibniz_equiv; set_solver.
Qed.

Lemma disconnect_idempotent_witness :
  let self := {| WebSocketManager.active_connections := {[ 1%positive ]};
                 WebSocketManager.log_subscribers := {[ 2%positive ]};
                 WebSocketManager.log_monitoring_enabled := false |} in
  WebSocketManager.disconnect self 3%positive = Py.Ok self.
Proof.
  intros self.
  apply (proj1 (disconnect_idempotent self 3%positive)); simpl; set_solver.
Defined.

(** *** BackoffStrategy *)









(** *** send_wechat *)

(** C7, as stated, fails: [send_wechat] has no exception handler, so a
    connection failure, a body that is not JSON and a JSON body without
    [errcode] each raise to the caller. *)
Lemma send_wechat_raises :
  Wecomm.send_wechat "margin call" (Wecomm.PostRaises Py.ConnectionError)
    = Py.Raise Py.ConnectionError /\
  Wecomm.send_wechat "margin call"
    (Wecomm.PostReturns {| Wecomm.status_code := 200;
                           Wecomm.text := "<html>ok</html>";
                           Wecomm.json := Py.Raise Py.JSONDecodeError |})
    = Py.Raise Py.JSONDecodeError /\
  Wecomm.send_wechat "margin call"
    (Wecomm.PostReturns {| Wecomm.status_code := 200;
                           Wecomm.text := "{}";
                           Wecomm.json := Py.Ok (PyVal.VDict []) |})
    = Py.Raise Py.KeyError.
Proof. repeat split. Qed.

(** C7, amended. A non-200 status, or a 200 response whose JSON body is an
    object with a non-zero [errcode], is logged as a failure (message and
    raw response text) and [send_wechat] returns normally; a 200 response
    with [errcode] 0 logs nothing. The call raises to its caller exactly
    when the post itself raises, or the status is 200 and either the body is
    not JSON or the parsed body has no [errcode] entry. *)
Theorem send_wechat_outcomes (msg : string) (relay : Wecomm.Relay) :
  let logged rsp := [ {| Wecomm.log_msg := msg; Wecomm.log_rsp_text := Wecomm.text rsp |} ] in
  (forall rsp, relay = Wecomm.PostReturns rsp -> Wecomm.status_code rsp <> 200%Z ->
     Wecomm.send_wechat msg relay = Py.Ok (logged rsp)) /\
  (forall rsp body errcode,
     relay = Wecomm.PostReturns rsp -> Wecomm.status_code rsp = 200%Z ->
     Wecomm.json rsp = Py.Ok body -> PyVal.getitem body "errcode" = Py.Ok errcode ->
     Wecomm.send_wechat msg relay =
       Py.Ok (if PyVal.ne_zero errcode then logged rsp else [])) /\
  (Py.raises (Wecomm.send_wechat msg relay) <->
     (exists e, relay = Wecomm.PostRaises e) \/
     (exists rsp, relay = Wecomm.PostReturns rsp /\ Wecomm.status_code rsp = 200%Z /\
        (Py.raises (Wecomm.json rsp) \/
         exists body, Wecomm.json rsp = Py.Ok body /\
                      Py.raises (PyVal.getitem body "errcode")))).
Proof.
  intros logged. split; [| split].
  - intros rsp -> Hst. unfold Wecomm.send_wechat.
    apply Z.eqb_neq in Hst. rewrite Hst. reflexivity.
  - intros rsp body errcode -> Hst Hj Hg. unfold Wecomm.send_wechat.
    rewrite Hst, Hj. simpl. rewrite Hg. simpl.
    destruct (PyVal.ne_zero errcode); reflexivity.
  - destruct relay as [e | rsp]; simpl.
    + split; [intros _; left; eauto | trivial].
    + destruct (Z.eqb_spec (Wecomm.status_code rsp) 200) as [Hst | Hst]; simpl.
      * destruct (Wecomm.json rsp) as [body | e] eqn:Hj; simpl.
        -- destruct (PyVal.getitem body "errcode") as [v | e] eqn:Hg; simpl.
           ++ split.
              ** destruct (PyVal.ne_zero v); simpl; intros [].
              ** intros [[e He] | (rsp' & Hr & _ & [Hraise | (b & Hb & Hraise)])].
                 --- discriminate.
                 --- injection Hr as <-. rewrite Hj in Hraise. destruct Hraise.
                 --- injection Hr as <-. rewrite Hj in Hb. injection Hb as <-.
                     rewrite Hg in Hraise. destruct Hraise.
           ++ split; [| trivial]. intros _. right. exists rsp.
              repeat split; try assumption. right. exists body.
              rewrite Hg. simpl. auto.
        -- split; [| trivial]. intros _. right. exists rsp.
           repeat split; try assumption. left. rewrite Hj. exact I.
      * split; [intros [] |].
        intros [[e He] | (rsp' & Hr & Hst' & _)]; [discriminate |].
        injection Hr as <-. contradiction.
Qed.

Lemma send_wechat_outcomes_witness :
  Wecomm.send_wechat "margin call"
    (Wecomm.PostReturns {| Wecomm.status_code := 502;
                           Wecomm.text := "Bad Gateway";
                           Wecomm.json := Py.Raise Py.JSONDecodeError |})
  = Py.Ok [ {| Wecomm.log_msg := "margin call"; Wecomm.log_rsp_text := "Bad Gateway" |} ].
Proof.
  apply (proj1 (send_wechat_outcomes "margin call"
           (Wecomm.PostReturns {| Wecomm.status_code := 502;
                                  Wecomm.text := "Bad Gateway";
                                  Wecomm.json := Py.Raise Py.JSONDecodeError |}))
         _ eq_refl).
  discriminate.
Defined.

(** *** TqGateway._format_symbol *)

Example format_symbol_samples :
  TqGateway._format_symbol "rb2505.SHFE" = Some "SHFE.rb2505" /\
  TqGateway._format_symbol "rb2505.shfe" = Some "SHFE.rb2505" /\
  TqGateway._format_symbol "SHFE.rb2505" = Some "SHFE.rb2505" /\
  TqGateway._format_symbol "rb2505" = Some "rb2505" /\
  TqGateway._format_symbol "a.b.SHFE" = None /\
  TqGateway._format_symbol "rb2505.NYSE" = None /\
  TqGateway._format_symbol "" = None.
Proof. repeat split. Qed.

Lemma split_not_nil (sep : ascii) (s : string) : PyStr.split sep s <> [].
Proof.
  destruct s as [| c r]; simpl; [discriminate |].
  destruct (Ascii.eqb c sep); [discriminate |].
  destruct (PyStr.split sep r); discriminate.
Qed.

Lemma split_no_sep (sep : ascii) (s : string) :
  PyStr.contains sep s = false -> PyStr.split sep s = [s].
Proof.
  induction s as [| c r IH]; simpl; [reflexivity |].
  destruct (Ascii.eqb c sep); [discriminate |].
  intros H. rewrite (IH H). reflexivity.
Qed.

Lemma split_one (sep : ascii) (s b : string) :
  PyStr.split sep s = [b] -> s = b /\ PyStr.contains sep s = false.
Proof.
  revert b. induction s as [| c r IH]; simpl; intros b H.
  - injection H as <-. split; reflexivity.
  - destruct (Ascii.eqb c sep).
    + injection H as _ H. destruct (split_not_nil _ _ H).
    + destruct (PyStr.split sep r) as [| h t] eqn:E.
      * destruct (split_not_nil _ _ E).
      * injection H as <- ->. destruct (IH h eq_refl) as [-> Hc].
        split; [reflexivity | exact Hc].
Qed.

Lemma split_two (sep : ascii) (s a b : string) :
  PyStr.split sep s = [a; b] ->
  s = a ++ String sep b /\ PyStr.contains sep a = false /\ PyStr.contains sep b = false.
Proof.
  revert a. induction s as [| c r IH]; simpl; intros a H; [discriminate |].
  destruct (Ascii.eqb_spec c sep) as [-> | Hne].
  - injection H as <- H. destruct (split_one _ _ _ H) as [-> Hc].
    repeat split; try reflexivity. exact Hc.
  - destruct (PyStr.split sep r) as [| h t] eqn:E; [discriminate |].
    injection H as <- ->. destruct (IH h eq_refl) as (-> & Ha & Hb).
    repeat split; simpl; try assumption.
    destruct (Ascii.eqb_spec c sep); [contradiction | exact Ha].
Qed.

Lemma split_join2 (sep : ascii) (a b : string) :
  PyStr.contains sep a = false -> PyStr.contains sep b = false ->
  PyStr.split sep (a ++ String sep b) = [a; b].
Proof.
  intros Ha Hb. induction a as [| c r IH]; simpl in *.
  - rewrite Ascii.eqb_refl, (split_no_sep _ _ Hb). reflexivity.
  - destruct (Ascii.eqb c sep); [discriminate |].
    rewrite (IH Ha). reflexivity.
Qed.

Lemma upper_ascii_dot (c : ascii) :
  Ascii.eqb (PyStr.upper_ascii c) "." = Ascii.eqb c ".".
Proof. destruct c as [[] [] [] [] [] [] [] []]; reflexivity. Qed.

Lemma upper_contains_dot (s : string) :
  PyStr.contains "." (PyStr.upper s) = PyStr.contains "." s.
Proof.
  induction s as [| c r IH]; simpl; [reflexivity |].
  rewrite upper_ascii_dot, IH. reflexivity.
Qed.

Lemma in_exchange_map_known (code : string) :
  TqGateway.in_exchange_map code = true <-> TqGateway.known_exchange code.
Proof.
  unfold TqGateway.in_exchange_map, TqGateway.known_exchange, TqGateway._init_exchange_map.
  cbn -[String.eqb].
  repeat match goal with
         | |- context [String.eqb ?k code] => destruct (String.eqb_spec k code)
         end; simpl; split; intros H; try reflexivity; try tauto; try discriminate.
Qed.

Lemma in_exchange_map_unknown (code : string) :
  TqGateway.in_exchange_map code = false <-> ~ TqGateway.known_exchange code.
Proof.
  rewrite <- in_exchange_map_known.
  destruct (TqGateway.in_exchange_map code); split; intros H;
    try reflexivity; try discriminate; try (intros H'; discriminate).
  exfalso. apply H. reflexivity.
Qed.

(** C8, as stated, fails in its last clause: a dotted symbol whose first
    part is an exchange code, in either case, is returned unchanged. *)
Lemma format_symbol_dotted_passthrough :
  PyStr.contains "." "SHFE.rb2505" = true /\
  TqGateway._format_symbol "SHFE.rb2505" = Some "SHFE.rb2505" /\
  PyStr.contains "." "shfe.rb2505" = true /\
  TqGateway._format_symbol "shfe.rb2505" = Some "shfe.rb2505".
Proof. repeat split. Qed.

(** C8, amended. For a symbol containing a dot, [_format_symbol] returns a
    string only when the symbol has exactly two dot-separated parts and at
    least one of them upper-cases to a known exchange code: the symbol itself
    when the first part does, otherwise the upper-cased second part, a dot
    and the first part. With more than two parts, or no part matching a known
    exchange, it returns [None]. A symbol is returned unchanged only if it is
    dot-free or its first of exactly two parts upper-cases to a known
    exchange code; every non-empty dot-free symbol is returned unchanged. *)
Theorem format_symbol_dotted (symbol : string) :
  (PyStr.contains "." symbol = true ->
   (forall r : string,
      TqGateway._format_symbol symbol = Some r ->
      exists p0 p1 : string,
        PyStr.split "." symbol = [p0; p1] /\
        ((TqGateway.known_exchange (PyStr.upper p0) /\ r = symbol) \/
         (~ TqGateway.known_exchange (PyStr.upper p0) /\
          TqGateway.known_exchange (PyStr.upper p1) /\
          r = PyStr.upper p1 ++ "." ++ p0))) /\
   ((2 < List.length (PyStr.split "." symbol) \/
     (forall p : string, In p (PyStr.split "." symbol) ->
        ~ TqGateway.known_exchange (PyStr.upper p))) ->
    TqGateway._format_symbol symbol = None)) /\
  (TqGateway._format_symbol symbol = Some symbol ->
   PyStr.contains "." symbol = false \/
   exists p0 p1 : string,
     PyStr.split "." symbol = [p0; p1] /\ TqGateway.known_exchange (PyStr.upper p0)) /\
  (PyStr.contains "." symbol = false -> symbol <> "" ->
   TqGateway._format_symbol symbol = Some symbol).
Proof.
  unfold TqGateway._format_symbol.
  destruct (String.eqb_spec symbol "") as [-> | Hne].
  { repeat split; try discriminate. intros _ H. contradiction. }
  destruct (PyStr.contains "." symbol) eqn:Hdot.
  2:{ repeat split; try discriminate; auto. }
  destruct (PyStr.split "." symbol) as [| p0 [| p1 [| p2 rest]]] eqn:Hsplit.
  - repeat split; try discriminate.
  - repeat split; try discriminate.
  - destruct (TqGateway.in_exchange_map (PyStr.upper p0)) eqn:H0;
      [| destruct (TqGateway.in_exchange_map (PyStr.upper p1)) eqn:H1].
    + apply in_exchange_map_known in H0. repeat split; try discriminate.
      * intros r [= <-]. exists p0, p1. split; [reflexivity |]. left. tauto.
      * intros [Hlen | Hnone]; [simpl in Hlen; lia |].
        destruct (Hnone p0); [left; reflexivity | exact H0].
      * intros _. right. exists p0, p1. tauto.
    + apply in_exchange_map_unknown in H0. apply in_exchange_map_known in H1.
      repeat split; try discriminate.
      * intros r [= <-]. exists p0, p1. split; [reflexivity |]. right. tauto.
      * intros [Hlen | Hnone]; [simpl in Hlen; lia |].
        destruct (Hnone p1); [right; left; reflexivity | exact H1].
      * intros [= Heq]. exfalso.
        destruct (split_two _ _ _ _ Hsplit) as (Hs & Hd0 & Hd1).
        assert (Hu : PyStr.contains "." (PyStr.upper p1) = false)
          by (rewrite upper_contains_dot; exact Hd1).
        pose proof (split_join2 "." _ _ Hu Hd0) as Hj.
        change (PyStr.upper p1 ++ "." ++ p0) with (PyStr.upper p1 ++ String "." p0) in Heq.
        rewrite Heq, Hsplit in Hj. injection Hj as Ha Hb.
        apply H0. rewrite <- Hb. exact H1.
    + repeat split; discriminate.
  - repeat split; try discriminate.
Qed.

Lemma format_symbol_dotted_witness :
  TqGateway._format_symbol "rb2505" = Some "rb2505" /\
  TqGateway._format_symbol "a.b.SHFE" = None.
Proof.
  split.
  - apply (proj2 (proj2 (format_symbol_dotted "rb2505"))); [reflexivity | discriminate].
  - apply (proj2 (proj1 (format_symbol_dotted "a.b.SHFE") eq_refl)).
    left. simpl. lia.
Defined.

(** *** get_alarm_stats *)

Example strftime_samples :
  Alarm.strftime_ymd 0%Z = "1970-01-01" /\
  Alarm.strftime_ymd 1704154200000000%Z = "2024-01-02" /\
  Alarm.strftime_ymd 1709164800000000%Z = "2024-02-29" /\
  Alarm.strftime_ymd 1735689599999999%Z = "2024-12-31".
Proof. vm_compute. repeat split. Qed.

Lemma query_count_mono (p q : Alarm.AlarmPo -> bool) (table : list Alarm.AlarmPo) :
  (forall a, In a table -> p a = true -> q a = true) ->
  (Alarm.query_count p table <= Alarm.query_count q table)%nat.
Proof.
  unfold Alarm.query_count. induction table as [| a rest IH]; intros H; simpl.
  - lia.
  - assert (IH' := IH (fun b Hb => H b (or_intror Hb))).
    destruct (p a) eqn:Hp.
    + rewrite (H a (or_introl eq_refl) Hp). simpl. lia.
    + destruct (q a); simpl; lia.
Qed.

(** C6, as stated, fails: ten minutes after midnight an alarm raised twenty
    minutes earlier carries yesterday's [alarm_date], so it counts for the
    last hour and not for today. *)
Lemma alarm_stats_across_midnight :
  let now := 1704154200000000%Z in
  let table := [ {| Alarm.id := 1;
                    Alarm.alarm_date := "2024-01-01";
                    Alarm.created_at := Some 1704153000000000%Z;
                    Alarm.message := "gateway disconnected";
                    Alarm.confirmed := false |} ] in
  let stats := Alarm.get_alarm_stats now table in
  Alarm.strftime_ymd now = "2024-01-02" /\
  Alarm.strftime_ymd 1704153000000000%Z = "2024-01-01" /\
  Alarm.today_total stats = 0%nat /\
  Alarm.last_hour stats = 1%nat /\
  Alarm.last_five_minutes stats = 0%nat /\
  ~ (Alarm.today_total stats >= Alarm.last_hour stats)%nat.
Proof.
  vm_compute. repeat split. intros H. inversion H.
Qed.

(** C6, amended. For any fixed snapshot of the alarm table, the today-total
    equals the number of alarms whose [alarm_date] equals the current
    calendar date, and the last-hour count is at least the
    last-5-minutes count; the today-total is at least the last-hour count
    whenever every alarm created within the last hour carries today's
    [alarm_date]. *)
Theorem alarm_stats_consistency (now : Alarm.datetime) (table : list Alarm.AlarmPo) :
  let stats := Alarm.get_alarm_stats now table in
  Alarm.today_total stats =
    List.length (List.filter
                   (fun a => bool_decide (Alarm.alarm_date a = Alarm.strftime_ymd now))
                   table) /\
  (Alarm.last_hour stats >= Alarm.last_five_minutes stats)%nat /\
  ((forall a t, In a table -> Alarm.created_at a = Some t ->
                (now - Alarm.timedelta 1 0 <= t)%Z ->
                Alarm.alarm_date a = Alarm.strftime_ymd now) ->
   (Alarm.today_total stats >= Alarm.last_hour stats)%nat).
Proof.
  intros stats. subst stats. unfold Alarm.get_alarm_stats. simpl.
  split; [| split].
  - unfold Alarm.query_count. f_equal. apply List.filter_ext. intros a.
    unfold Alarm.alarm_date_eq.
    destruct (String.eqb_spec (Alarm.alarm_date a) (Alarm.strftime_ymd now)) as [E | E].
    + rewrite bool_decide_eq_true_2; [reflexivity | exact E].
    + rewrite bool_decide_eq_false_2; [reflexivity | exact E].
  - apply query_count_mono. intros a _. unfold Alarm.created_at_ge, Alarm.timedelta.
    destruct (Alarm.created_at a) as [t |]; [| discriminate].
    rewrite !Z.leb_le. lia.
  - intros Hdate. apply query_count_mono. intros a Hin.
    unfold Alarm.created_at_ge, Alarm.alarm_date_eq.
    destruct (Alarm.created_at a) as [t |] eqn:Hc; [| discriminate].
    rewrite Z.leb_le. intros Hle. apply String.eqb_eq. eapply Hdate; eauto.
Qed.

Lemma alarm_stats_consistency_witness :
  let now := 1704196800000000%Z in
  let table := [ {| Alarm.id := 1;
                    Alarm.alarm_date := "2024-01-02";
                    Alarm.created_at := Some 1704196500000000%Z;
                    Alarm.message := "order rejected";
                    Alarm.confirmed := false |} ] in
  (Alarm.today_total (Alarm.get_alarm_stats now table)
   >= Alarm.last_hour (Alarm.get_alarm_stats now table))%nat.
Proof.
  intros now table.
  apply (proj2 (proj2 (alarm_stats_consistency now table))).
  intros a t [<- | []] _ _. vm_compute. reflexivity.
Defined.

(** *** Order command splitting *)

Lemma cut_length (tag : OrderCmd.Offset) (cap : Z) (fuel : nat) (qty : Z) :
  (0 < cap)%Z -> (qty <= Z.of_nat fuel)%Z ->
  List.length (OrderCmd.cut fuel qty cap tag) = Z.to_nat (OrderCmd.ceil_div qty cap).
Proof.
  intros Hcap. revert qty. unfold OrderCmd.ceil_div.
  induction fuel as [| fuel IH]; intros qty Hq.
  - simpl. assert ((qty + cap - 1) / cap <= 0)%Z; [| lia].
    assert ((qty + cap - 1) / cap < 1)%Z; [| lia].
    apply Z.div_lt_upper_bound; lia.
  - simpl. destruct (Z.leb_spec qty 0) as [H0 | H0].
    + simpl. assert ((qty + cap - 1) / cap < 1)%Z; [| lia].
      apply Z.div_lt_upper_bound; lia.
    + destruct (Z.leb_spec qty cap) as [H1 | H1].
      * simpl. assert ((qty + cap - 1) / cap = 1)%Z as ->; [| reflexivity].
        symmetry. apply Z.div_unique with (r := (qty - 1)%Z); lia.
      * simpl. rewrite IH by lia.
        replace (qty + cap - 1)%Z with ((qty - cap + cap - 1) + 1 * cap)%Z by lia.
        rewrite Z.div_add by lia.
        assert (0 <= (qty - cap + cap - 1) / cap)%Z by (apply Z.div_pos; lia).
        lia.
Qed.

Lemma cut_offsets (tag : OrderCmd.Offset) (cap : Z) (fuel : nat) (qty : Z) :
  List.map OrderCmd.slice_offset (OrderCmd.cut fuel qty cap tag) =
  List.repeat tag (List.length (OrderCmd.cut fuel qty cap tag)).
Proof.
  revert qty. induction fuel as [| fuel IH]; intros qty; simpl; [reflexivity |].
  destruct (qty <=? 0)%Z; [reflexivity |].
  destruct (qty <=? cap)%Z; [reflexivity |].
  simpl. rewrite IH. reflexivity.
Qed.

Lemma slices_offsets (tag : OrderCmd.Offset) (qty cap : Z) :
  (0 < cap)%Z ->
  List.map OrderCmd.slice_offset (OrderCmd.slices qty cap tag) =
  List.repeat tag (Z.to_nat (OrderCmd.ceil_div qty cap)).
Proof.
  intros Hcap. unfold OrderCmd.slices.
  rewrite cut_offsets, cut_length by lia. reflexivity.
Qed.

Lemma cut_sum (tag : OrderCmd.Offset) (cap : Z) (fuel : nat) (qty : Z) :
  (0 < cap)%Z -> (0 <= qty <= Z.of_nat fuel)%Z ->
  List.fold_right Z.add 0%Z (List.map OrderCmd.slice_volume (OrderCmd.cut fuel qty cap tag)) = qty.
Proof.
  intros Hcap. revert qty. induction fuel as [| fuel IH]; intros qty Hq; simpl.
  - lia.
  - destruct (Z.leb_spec qty 0); [simpl; lia |].
    destruct (Z.leb_spec qty cap); simpl; [lia |].
    rewrite IH by lia. lia.
Qed.

Lemma get_next_n_drains (l : list OrderCmd.SplitOrder) (v : Z) (o : OrderCmd.Offset) (c : Z) :
  OrderCmd.get_next_n (List.length l)
    {| OrderCmd.cmd_volume := v; OrderCmd.cmd_offset := o;
       OrderCmd.cmd_max_volume_per_order := c; OrderCmd.pending_slices := l |} =
  (List.map Some l,
   {| OrderCmd.cmd_volume := v; OrderCmd.cmd_offset := o;
      OrderCmd.cmd_max_volume_per_order := c; OrderCmd.pending_slices := [] |}).
Proof.
  induction l as [| s rest IH]; simpl; [reflexivity |].
  rewrite IH. reflexivity.
Qed.

(** C3. For a CLOSE command of volume [V] with cap [M > 0] and a position
    whose today-volume is [T], [split] produces [ceil(min(V,T)/M)] slices
    tagged CLOSETODAY followed by [ceil((V - min(V,T))/M)] slices tagged
    CLOSE; successive [get_next] calls hand out exactly these slices in that
    order, so every today-lot slice comes before any yesterday-lot slice, and
    the call after the last slice returns nothing. For V = 80, T = 50,
    M = 10 this is 5 CLOSETODAY slices, then 3 CLOSE slices, 8 in all. *)
Theorem close_split_today_before_yesterday
    (cmd : OrderCmd.t) (pos : OrderCmd.PositionData) :
  OrderCmd.offset cmd = OrderCmd.CLOSE ->
  (0 < OrderCmd.max_volume_per_order cmd)%Z ->
  let V := OrderCmd.volume cmd in
  let T := OrderCmd.today_volume pos in
  let M := OrderCmd.max_volume_per_order cmd in
  let n_today := Z.to_nat (OrderCmd.ceil_div (Z.min V T) M) in
  let n_yesterday := Z.to_nat (OrderCmd.ceil_div (V - Z.min V T) M) in
  (exists cmd' strategy produced drained,
     OrderCmd.split cmd (Some pos) = Some (Z.of_nat (n_today + n_yesterday), cmd') /\
     OrderCmd._strategy cmd' = Some strategy /\
     OrderCmd.get_next_n (n_today + n_yesterday) strategy = (List.map Some produced, drained) /\
     List.map OrderCmd.slice_offset produced =
       (List.repeat OrderCmd.CLOSETODAY n_today ++ List.repeat OrderCmd.CLOSE n_yesterday)%list /\
     fst (OrderCmd.get_next drained) = None) /\
  (exists cmd' strategy,
     OrderCmd.split (OrderCmd.test_cmd OrderCmd.CLOSE OrderCmd.SELL 80 10)
                    (Some {| OrderCmd.today_volume := 50 |}) = Some (8%Z, cmd') /\
     OrderCmd._strategy cmd' = Some strategy /\
     fst (OrderCmd.get_next_n 9 strategy) =
       (List.repeat (Some {| OrderCmd.slice_volume := 10; OrderCmd.slice_offset := OrderCmd.CLOSETODAY |}) 5
        ++ List.repeat (Some {| OrderCmd.slice_volume := 10; OrderCmd.slice_offset := OrderCmd.CLOSE |}) 3
        ++ [None])%list).
Proof.
  intros Hoff Hcap V T M n_today n_yesterday. split.
  - unfold OrderCmd.split, OrderCmd.strategy_split, OrderCmd.new_strategy. simpl.
    rewrite Hoff. simpl. fold V T M.
    set (produced := (OrderCmd.slices (Z.min V T) M OrderCmd.CLOSETODAY
                      ++ OrderCmd.slices (V - Z.min V T) M OrderCmd.CLOSE)%list).
    assert (Hoffs : List.map OrderCmd.slice_offset produced =
                    (List.repeat OrderCmd.CLOSETODAY n_today
                     ++ List.repeat OrderCmd.CLOSE n_yesterday)%list).
    { unfold produced. rewrite List.map_app, !slices_offsets by exact Hcap. reflexivity. }
    assert (Hlen : List.length produced = (n_today + n_yesterday)%nat).
    { rewrite <- (List.length_map OrderCmd.slice_offset), Hoffs.
      rewrite List.length_app, !List.repeat_length. reflexivity. }
    rewrite Hlen. do 4 eexists. split; [reflexivity |]. simpl. split; [reflexivity |].
    rewrite <- Hlen. rewrite get_next_n_drains. split; [reflexivity |].
    split; [exact Hoffs | reflexivity].
  - do 2 eexists. vm_compute. repeat split.
Qed.

Lemma close_split_today_before_yesterday_witness :
  exists cmd' strategy produced drained,
    OrderCmd.split (OrderCmd.test_cmd OrderCmd.CLOSE OrderCmd.SELL 25 10)
                   (Some {| OrderCmd.today_volume := 7 |}) = Some (3%Z, cmd') /\
    OrderCmd._strategy cmd' = Some strategy /\
    OrderCmd.get_next_n 3 strategy = (List.map Some produced, drained) /\
    List.map OrderCmd.slice_offset produced =
      [OrderCmd.CLOSETODAY; OrderCmd.CLOSE; OrderCmd.CLOSE] /\
    fst (OrderCmd.get_next drained) = None.
Proof.
  apply (proj1 (close_split_today_before_yesterday
                  (OrderCmd.test_cmd OrderCmd.CLOSE OrderCmd.SELL 25 10)
                  {| OrderCmd.today_volume := 7 |} eq_refl eq_refl)).
Defined.

(** C4. Whenever [split] produces [N] slices, the command it leaves has
    [_left_retry_times = 2 * N + 1], where [N] is the number of slices loaded
    into its strategy; for the commands of the tests this is 3 for N = 1, 17
    for N = 8 and 21 for N = 10. *)
Theorem split_seeds_retry_budget
    (cmd cmd' : OrderCmd.t) (pos : option OrderCmd.PositionData) (N : Z) :
  OrderCmd.split cmd pos = Some (N, cmd') ->
  (OrderCmd._left_retry_times cmd' = 2 * N + 1)%Z /\
  (exists strategy,
     OrderCmd._strategy cmd' = Some strategy /\
     N = Z.of_nat (List.length (OrderCmd.pending_slices strategy))) /\
  (exists c1 c8 c10,
     OrderCmd.split (OrderCmd.test_cmd OrderCmd.OPEN OrderCmd.BUY 10 10) None = Some (1%Z, c1) /\
     OrderCmd._left_retry_times c1 = 3%Z /\
     OrderCmd.split (OrderCmd.test_cmd OrderCmd.CLOSE OrderCmd.SELL 80 10)
                    (Some {| OrderCmd.today_volume := 50 |}) = Some (8%Z, c8) /\
     OrderCmd._left_retry_times c8 = 17%Z /\
     OrderCmd.split (OrderCmd.test_cmd OrderCmd.OPEN OrderCmd.BUY 100 10) None = Some (10%Z, c10) /\
     OrderCmd._left_retry_times c10 = 21%Z).
Proof.
  intros H. unfold OrderCmd.split in H.
  destruct (OrderCmd.strategy_split (OrderCmd.new_strategy cmd) pos)
    as [[count strategy] |] eqn:Hs; [| discriminate].
  injection H as <- <-. simpl. split; [reflexivity |]. split.
  - exists strategy. split; [reflexivity |].
    unfold OrderCmd.strategy_split in Hs.
    destruct (OrderCmd.cmd_offset (OrderCmd.new_strategy cmd)), pos;
      try discriminate; injection Hs as <- <-; reflexivity.
  - do 3 eexists. vm_compute. repeat split.
Qed.

Lemma split_seeds_retry_budget_witness :
  exists cmd' : OrderCmd.t,
    OrderCmd.split (OrderCmd.test_cmd OrderCmd.OPEN OrderCmd.BUY 25 10) None = Some (3%Z, cmd') /\
    OrderCmd._left_retry_times cmd' = (2 * 3 + 1)%Z.
Proof.
  eexists. split; [vm_compute; reflexivity |].
  apply (proj1 (split_seeds_retry_budget
                  (OrderCmd.test_cmd OrderCmd.OPEN OrderCmd.BUY 25 10) _ None 3 eq_refl)).
Defined.

(** *** SocketClient: responses to pending requests *)

(** C2 (code defect). A response that carries the id of a pending request
    and whose status is not "error" is not resolved: line 278 rebinds
    [message] to the response's [message] field or the empty string, so
    unless that field is a non-empty object the [.get("data")] of line 282
    raises [AttributeError]. The future has already been removed from the
    pending table and stays pending, and the exception ends the receive loop:
    the client is marked disconnected and the following frames are never
    read. *)
Theorem success_response_left_unresolved
    (st : SocketClient.t) (d : list (string * PyVal.value)) (k : string)
    (fid : positive) (rest : list (option PyVal.value)) :
  SocketClient.connected st = true ->
  PyVal.assoc_get "type" d = Some (PyVal.VStr "response") ->
  PyVal.assoc_get "request_id" d = Some (PyVal.VStr k) ->
  k <> "" ->
  SocketClient._pending_requests st !! k = Some fid ->
  SocketClient.futures st !! fid = Some SocketClient.FPending ->
  (forall s, PyVal.assoc_get "status" d = Some s -> PyVal.eq_str s "error" = false) ->
  (forall m, PyVal.assoc_get "message" d = Some m ->
             PyVal.truthy m = false \/ PyVal.get m "data" = Py.Raise Py.AttributeError) ->
  let after := SocketClient._receiving_loop st (Some (PyVal.VDict d) :: rest) in
  snd (SocketClient._handle_message st (PyVal.VDict d)) = Some Py.AttributeError /\
  SocketClient.futures (SocketClient.final after) !! fid = Some SocketClient.FPending /\
  SocketClient._pending_requests (SocketClient.final after) !! k = None /\
  SocketClient.connected (SocketClient.final after) = false /\
  SocketClient.unread after = rest.
Proof.
  intros Hconn Htype Hid Hk Hpend Hfut Hstatus Hmsg after.
  assert (Hh : SocketClient._handle_message st (PyVal.VDict d) =
               (SocketClient.set_pending st (delete k (SocketClient._pending_requests st)),
                Some Py.AttributeError)).
  { unfold SocketClient._handle_message. simpl. rewrite Htype. simpl. rewrite Hid. simpl.
    destruct (String.eqb_spec k "") as [-> | _]; [contradiction |]. simpl.
    rewrite Hpend, Hfut. simpl.
    unfold SocketClient.resolve. simpl.
    assert (Hraise : forall m, PyVal.truthy m = false \/
                               PyVal.get m "data" = Py.Raise Py.AttributeError ->
              PyVal.get (SocketClient.or_else m (PyVal.VStr "")) "data"
              = Py.Raise Py.AttributeError).
    { intros m [Hf | Hr]; unfold SocketClient.or_else.
      - rewrite Hf. reflexivity.
      - destruct (PyVal.truthy m); [exact Hr | reflexivity]. }
    destruct (PyVal.assoc_get "status" d) as [s |];
      destruct (PyVal.assoc_get "message" d) as [m |]; cbv beta iota;
      try rewrite (Hstatus s eq_refl); cbn [PyVal.eq_str];
      try rewrite (Hraise m (Hmsg m eq_refl));
      try rewrite (Hraise PyVal.VNone (or_introl eq_refl)); reflexivity. }
  subst after. assert (Hd : d <> []) by (intros ->; discriminate).
  split; [rewrite Hh; reflexivity |].
  unfold SocketClient._receiving_loop. rewrite Hconn. simpl.
  destruct d as [| kv d']; [contradiction |]. simpl negb. cbv iota.
  rewrite Hh. simpl. repeat split; [exact Hfut | apply lookup_delete_eq].
Qed.

(** The failing run: the pending echo request of tests/test_socket_quick.py
    is answered with a success response, followed by a tick push. *)
Lemma success_response_left_unresolved_witness :
  let st := {| SocketClient.connected := true;
               SocketClient._pending_requests := {[ "req-1" := 1%positive ]};
               SocketClient.futures := {[ 1%positive := SocketClient.FPending ]};
               SocketClient.on_data_callback := Some (fun _ _ => None);
               SocketClient.delivered := [] |} in
  let response := PyVal.VDict [ ("type", PyVal.VStr "response");
                                ("request_id", PyVal.VStr "req-1");
                                ("status", PyVal.VStr "success");
                                ("data", PyVal.VDict [("message", PyVal.VStr "hello")]) ] in
  let push := PyVal.VDict [ ("type", PyVal.VStr "tick");
                            ("data", PyVal.VDict [("last_price", PyVal.VInt 3500)]) ] in
  let after := SocketClient._receiving_loop st [Some response; Some push] in
  snd (SocketClient._handle_message st response) = Some Py.AttributeError /\
  SocketClient.futures (SocketClient.final after) !! 1%positive = Some SocketClient.FPending /\
  SocketClient._pending_requests (SocketClient.final after) !! "req-1" = None /\
  SocketClient.connected (SocketClient.final after) = false /\
  SocketClient.unread after = [Some push].
Proof.
  intros st response push.
  apply (success_response_left_unresolved st _ "req-1" 1%positive [Some push]);
    try reflexivity.
  - discriminate.
  - intros s [= <-]. reflexivity.
  - intros m [=].
Defined.

(** *** LogWatcher *)

Lemma codes_app (a b : string) :
  PyText.codes (a ++ b) = (PyText.codes a ++ PyText.codes b)%list.
Proof.
  unfold PyText.codes. induction a as [| c r IH]; [reflexivity |].
  change (String c r ++ b) with (String c (r ++ b)). simpl. rewrite IH. reflexivity.
Qed.

Lemma codes_length (a : string) : List.length (PyText.codes a) = String.length a.
Proof.
  unfold PyText.codes. induction a as [| c r IH]; simpl; [reflexivity | rewrite IH; reflexivity].
Qed.

Lemma decode_step_takes (s : list N) (c : N) (k : nat) :
  PyText.decode_step s = Some (c, k) -> (1 <= k)%nat.
Proof.
  destruct s as [| b0 r0]; [discriminate |]. unfold PyText.decode_step.
  intros [= H]. revert H.
  repeat match goal with
         | |- context [if ?b then _ else _] => destruct b
         | |- context [match ?l with [] => _ | _ :: _ => _ end] => destruct l
         end; intros [= <- <-]; lia.
Qed.

Lemma decode_from_length (fuel : nat) (s : list N) :
  (List.length (PyText.decode_from fuel s) <= List.length s)%nat.
Proof.
  revert s. induction fuel as [| fuel IH]; intros s; simpl; [lia |].
  destruct (PyText.decode_step s) as [[c k] |] eqn:E; simpl; [| lia].
  destruct s as [| b r]; [discriminate |].
  apply decode_step_takes in E. specialize (IH (List.skipn k (b :: r))).
  rewrite List.length_skipn in IH. simpl in *. lia.
Qed.

Lemma utf8_decode_ascii (c : N) (r : list N) :
  (c <? 128)%N = true -> PyText.utf8_decode (c :: r) = c :: PyText.utf8_decode r.
Proof.
  intros Hc. unfold PyText.utf8_decode. simpl. rewrite Hc. reflexivity.
Qed.

Lemma universal_newlines_length (s : PyText.text) :
  (List.length (PyText.universal_newlines s) <= List.length s)%nat.
Proof.
  remember (List.length s) as n eqn:Hn.
  assert (H : (List.length s <= n)%nat) by lia. clear Hn.
  revert s H. induction n as [| n IH]; intros s H.
  - destruct s; simpl in *; lia.
  - destruct s as [| c r]; simpl in *; [lia |].
    destruct (c =? 13)%N.
    + destruct r as [| c' r']; simpl in *; [lia |].
      destruct (c' =? 10)%N; simpl.
      * specialize (IH r'). lia.
      * specialize (IH (c' :: r')). simpl in IH. lia.
    + simpl. specialize (IH r). lia.
Qed.

Lemma universal_newlines_nil (s : PyText.text) :
  PyText.universal_newlines s = [] -> s = [].
Proof.
  destruct s as [| c r]; [reflexivity |]. simpl.
  destruct (c =? 13)%N; [| discriminate].
  destruct r as [| c' r']; [discriminate |]. destruct (c' =? 10)%N; discriminate.
Qed.

Lemma utf8_decode_nil (s : list N) : PyText.utf8_decode s = [] -> s = [].
Proof.
  destruct s as [| b r]; [reflexivity |]. unfold PyText.utf8_decode. simpl.
  match goal with |- context [let '(c, k) := ?p in _] => destruct p end. discriminate.
Qed.

(** Decoding leaves plain bytes as they are, whatever follows them. *)
Lemma plain_read (a b : list N) :
  PyText.plain a = true ->
  PyText.universal_newlines (PyText.utf8_decode (a ++ b))
  = (a ++ PyText.universal_newlines (PyText.utf8_decode b))%list.
Proof.
  induction a as [| c r IH]; intros H; [reflexivity |].
  simpl in H. apply andb_prop in H as [Hc Hr]. apply andb_prop in Hc as [Hlt Hcr].
  simpl. rewrite utf8_decode_ascii by exact Hlt. simpl.
  destruct (c =? 13)%N; [discriminate |]. rewrite IH by exact Hr. reflexivity.
Qed.

Lemma plain_read_all (a : list N) :
  PyText.plain a = true -> PyText.universal_newlines (PyText.utf8_decode a) = a.
Proof.
  intros H. rewrite <- (List.app_nil_r a) at 1. rewrite plain_read by exact H.
  apply List.app_nil_r.
Qed.

Lemma read_text_length (p : nat) (bytes : string) :
  (List.length (PyText.read_text p bytes) <= String.length bytes - p)%nat.
Proof.
  unfold PyText.read_text.
  etransitivity; [apply universal_newlines_length |].
  etransitivity; [apply decode_from_length |].
  rewrite List.length_skipn, codes_length. lia.
Qed.

Lemma read_text_past_end (p : nat) (bytes : string) :
  (String.length bytes <= p)%nat -> PyText.read_text p bytes = [].
Proof.
  intros H. pose proof (read_text_length p bytes) as Hl.
  destruct (PyText.read_text p bytes); [reflexivity | simpl in Hl; lia].
Qed.

Lemma read_text_nonempty (p : nat) (bytes : string) :
  (p < String.length bytes)%nat -> PyText.read_text p bytes <> [].
Proof.
  intros H Hnil. unfold PyText.read_text in Hnil.
  apply universal_newlines_nil, utf8_decode_nil in Hnil.
  apply (f_equal (@List.length N)) in Hnil.
  rewrite List.length_skipn, codes_length in Hnil. simpl in Hnil. lia.
Qed.

Lemma read_text_app (a b : string) :
  PyText.read_text (String.length a) (a ++ b) = PyText.read_text 0 b.
Proof.
  unfold PyText.read_text. rewrite codes_app, <- (codes_length a).
  rewrite List.skipn_app, List.skipn_all, Nat.sub_diag. reflexivity.
Qed.

Lemma skipn_codes_app (p : nat) (a b : string) :
  (p <= String.length a)%nat ->
  List.skipn p (PyText.codes (a ++ b))
  = (List.skipn p (PyText.codes a) ++ PyText.codes b)%list.
Proof.
  intros H. rewrite codes_app, List.skipn_app, codes_length.
  replace (p - String.length a)%nat with 0%nat by lia. reflexivity.
Qed.

Example normpath_samples :
  OsPath.normpath "logs//app_2024-01-02.log" = "logs/app_2024-01-02.log" /\
  OsPath.normpath "./logs/../logs/app.log" = "logs/app.log" /\
  OsPath.normpath "" = "." /\
  OsPath.normpath "//a/./b/" = "//a/b" /\
  OsPath.normpath "///a/../../b" = "/b" /\
  OsPath.normpath "../../a/.." = "../.." /\
  OsPath.normpath "a/.." = "." /\
  OsPath.normpath "/" = "/" /\
  OsPath.normpath "//" = "//" /\
  OsPath.normpath "a/b/../../../c" = "../c".
Proof. vm_compute. repeat split. Qed.

(** **** [normpath] returns a path in normal form *)

Lemma split_parts_no_sep (sep : ascii) (s : string) :
  Forall (fun c => PyStr.contains sep c = false) (PyStr.split sep s).
Proof.
  induction s as [| c r IH]; simpl.
  - constructor; [reflexivity | constructor].
  - destruct (Ascii.eqb c sep) eqn:E.
    + constructor; [reflexivity | exact IH].
    + destruct (PyStr.split sep r) as [| h t]; [repeat constructor; simpl; rewrite E; reflexivity |].
      inversion IH as [| ? ? Hh Ht]; subst. constructor; [| exact Ht].
      simpl. rewrite E. exact Hh.
Qed.

Lemma split_app_sep (sep : ascii) (a b : string) :
  PyStr.split sep (a ++ String sep b) = (PyStr.split sep a ++ PyStr.split sep b)%list.
Proof.
  induction a as [| c r IH].
  - change ("" ++ String sep b) with (String sep b). simpl.
    rewrite Ascii.eqb_refl. reflexivity.
  - change (String c r ++ String sep b) with (String c (r ++ String sep b)).
    simpl. destruct (Ascii.eqb c sep).
    + rewrite IH. reflexivity.
    + rewrite IH. destruct (PyStr.split sep r) as [| h t] eqn:E.
      * destruct (split_not_nil _ _ E).
      * reflexivity.
Qed.

Lemma split_join (cs : list string) :
  cs <> [] ->
  Forall (fun c => PyStr.contains "/" c = false) cs ->
  PyStr.split "/" (OsPath.join "/" cs) = cs.
Proof.
  induction cs as [| c r IH]; intros Hne H; [contradiction |].
  inversion H as [| ? ? Hc Hr]; subst.
  destruct r as [| c' r'].
  - simpl. apply split_no_sep. exact Hc.
  - change (OsPath.join "/" (c :: c' :: r'))
      with (c ++ String "/" (OsPath.join "/" (c' :: r'))).
    rewrite split_app_sep, (split_no_sep _ _ Hc), IH by (discriminate || assumption).
    reflexivity.
Qed.

Lemma normpath_step_normal (k : nat) (stack : list string) (comp : string) :
  PyStr.contains "/" comp = false ->
  OsPath.normal_stack k stack -> OsPath.normal_stack k (OsPath.normpath_step k stack comp).
Proof.
  intros Hs (n & rest & -> & Hrest & Hk). unfold OsPath.normpath_step.
  destruct (String.eqb_spec comp "") as [-> | He]; simpl; [exists n, rest; auto |].
  destruct (String.eqb_spec comp ".") as [-> | Hd]; simpl; [exists n, rest; auto |].
  destruct (String.eqb_spec comp "..") as [-> | Hdd]; simpl.
  2: { exists n, (comp :: rest). repeat split; auto. constructor; [| exact Hrest].
       repeat split; assumption. }
  destruct rest as [| c0 rest']; simpl.
  - destruct n as [| n']; simpl.
    + destruct k as [| k']; simpl.
      * exists 1%nat, []. repeat split; [constructor | congruence].
      * exists 0%nat, []. repeat split; [constructor].
    + rewrite Bool.orb_true_r. exists (S (S n')), []. repeat split; [constructor |].
      intros Hk0. specialize (Hk Hk0). discriminate.
  - inversion Hrest as [| ? ? Hc0 Hrest']; subst.
    destruct Hc0 as (_ & _ & Hc0 & _).
    rewrite Bool.andb_false_r. simpl.
    destruct (String.eqb_spec c0 ".."); [contradiction |].
    exists n, rest'. repeat split; assumption.
Qed.

Lemma normpath_fold_normal (k : nat) (comps stack : list string) :
  Forall (fun c => PyStr.contains "/" c = false) comps ->
  OsPath.normal_stack k stack ->
  OsPath.normal_stack k (List.fold_left (OsPath.normpath_step k) comps stack).
Proof.
  revert stack. induction comps as [| c r IH]; intros stack H Hs; [exact Hs |].
  inversion H; subst. simpl. apply IH; [assumption |].
  apply normpath_step_normal; assumption.
Qed.

Lemma normpath_fold_kept (k : nat) (l stack : list string) :
  Forall OsPath.kept_component l ->
  List.fold_left (OsPath.normpath_step k) l stack = (List.rev l ++ stack)%list.
Proof.
  revert stack. induction l as [| c r IH]; intros stack H; [reflexivity |].
  inversion H as [| ? ? (Hc1 & Hc2 & Hc3 & _) Hr]; subst. simpl.
  assert (Hstep : OsPath.normpath_step k stack c = c :: stack).
  { unfold OsPath.normpath_step.
    destruct (String.eqb_spec c ""); [contradiction |].
    destruct (String.eqb_spec c "."); [contradiction |].
    destruct (String.eqb_spec c ".."); [contradiction |]. reflexivity. }
  rewrite Hstep, IH by exact Hr. rewrite <- List.app_assoc. reflexivity.
Qed.

Lemma normpath_fold_dotdots (n m : nat) :
  List.fold_left (OsPath.normpath_step 0) (List.repeat ".." n) (List.repeat ".." m)
  = List.repeat ".." (n + m).
Proof.
  revert m. induction n as [| n IH]; intros m; [reflexivity |].
  simpl List.repeat. simpl List.fold_left.
  assert (Hstep : OsPath.normpath_step 0 (List.repeat ".." m) ".."
                  = List.repeat ".." (S m)).
  { destruct m; reflexivity. }
  rewrite Hstep, IH. replace (n + S m)%nat with (S (n + m)) by lia. reflexivity.
Qed.

Lemma rev_repeat (A : Type) (x : A) (n : nat) :
  List.rev (List.repeat x n) = List.repeat x n.
Proof.
  induction n as [| n IH]; [reflexivity |].
  simpl. rewrite IH. symmetry. apply List.repeat_cons.
Qed.

Lemma normpath_fold_stable (k : nat) (stack : list string) :
  OsPath.normal_stack k stack ->
  List.fold_left (OsPath.normpath_step k) (List.rev stack) [] = stack.
Proof.
  intros (n & rest & -> & Hrest & Hk).
  rewrite List.rev_app_distr, rev_repeat, List.fold_left_app.
  assert (Hdots : List.fold_left (OsPath.normpath_step k) (List.repeat ".." n) []
                  = List.repeat ".." n).
  { destruct k as [| k'].
    - change (@nil string) with (List.repeat ".." 0) at 1.
      rewrite normpath_fold_dotdots. f_equal. lia.
    - rewrite Hk by discriminate. reflexivity. }
  rewrite Hdots, normpath_fold_kept by (apply List.Forall_rev; exact Hrest).
  rewrite List.rev_involutive. reflexivity.
Qed.

Lemma normal_stack_components (k : nat) (stack : list string) :
  OsPath.normal_stack k stack ->
  Forall (fun c => c <> "" /\ PyStr.contains "/" c = false) (List.rev stack).
Proof.
  intros (n & rest & -> & Hrest & _). apply List.Forall_rev, List.Forall_app. split.
  - eapply List.Forall_impl; [| exact Hrest]. intros c (H1 & _ & _ & H4). auto.
  - clear. induction n as [| n IH]; simpl; constructor; [| exact IH].
    split; [discriminate | reflexivity].
Qed.

Lemma prefix_head (a b : ascii) (s t : string) :
  String.prefix (String a s) (String b t) = (Ascii.eqb a b && String.prefix s t)%bool.
Proof.
  change (String.prefix (String a s) (String b t))
    with (if ascii_dec a b then String.prefix s t else false).
  destruct (ascii_dec a b) as [-> | H].
  - rewrite Ascii.eqb_refl. reflexivity.
  - destruct (Ascii.eqb_spec a b); [contradiction | reflexivity].
Qed.

Lemma join_starts (cs : list string) :
  Forall (fun c => c <> "" /\ PyStr.contains "/" c = false) cs ->
  String.prefix "/" (OsPath.join "/" cs) = false.
Proof.
  intros H. destruct cs as [| c r]; [reflexivity |].
  inversion H as [| ? ? (Hne & Hs) _]; subst.
  destruct c as [| a c0]; [contradiction |].
  assert (Hhead : exists tail, OsPath.join "/" (String a c0 :: r) = String a tail).
  { destruct r; simpl; eauto. }
  destruct Hhead as (tail & ->). rewrite prefix_head.
  simpl in Hs. rewrite Ascii.eqb_sym.
  destruct (Ascii.eqb a "/"); [discriminate | reflexivity].
Qed.

Lemma initial_slashes_join (k : nat) (x : string) :
  (k <= 2)%nat -> String.prefix "/" x = false ->
  OsPath.initial_slashes (OsPath.slashes k ++ x) = k.
Proof.
  intros Hk Hx. unfold OsPath.initial_slashes.
  destruct k as [| [| [| k']]]; [| | | lia].
  - change (OsPath.slashes 0 ++ x) with x. rewrite Hx. reflexivity.
  - change (OsPath.slashes 1 ++ x) with (String "/" x).
    destruct x as [| a t]; [reflexivity |].
    rewrite prefix_head in Hx. rewrite !prefix_head.
    simpl in *. rewrite Hx. reflexivity.
  - change (OsPath.slashes 2 ++ x) with (String "/" (String "/" x)).
    destruct x as [| a t]; [reflexivity |].
    rewrite prefix_head in Hx. rewrite !prefix_head.
    simpl in *. rewrite Hx. reflexivity.
Qed.

Lemma initial_slashes_range (path : string) : (OsPath.initial_slashes path <= 2)%nat.
Proof.
  unfold OsPath.initial_slashes.
  destruct (String.prefix "/" path); [| lia].
  destruct (String.prefix "//" path && negb (String.prefix "///" path))%bool; lia.
Qed.

Lemma normpath_fold_split_join (k j : nat) (cs : list string) :
  (j <= 2)%nat ->
  Forall (fun c => c <> "" /\ PyStr.contains "/" c = false) cs ->
  List.fold_left (OsPath.normpath_step k)
    (PyStr.split "/" (OsPath.slashes j ++ OsPath.join "/" cs)) []
  = List.fold_left (OsPath.normpath_step k) cs [].
Proof.
  intros Hj H.
  assert (Hjoin : List.fold_left (OsPath.normpath_step k)
                    (PyStr.split "/" (OsPath.join "/" cs)) []
                  = List.fold_left (OsPath.normpath_step k) cs []).
  { destruct cs as [| c r]; [reflexivity |].
    rewrite split_join; [reflexivity | discriminate |].
    eapply List.Forall_impl; [| exact H]. intros ? [_ ?]. assumption. }
  destruct j as [| [| [| j']]]; [| | | lia].
  - exact Hjoin.
  - change (OsPath.slashes 1 ++ OsPath.join "/" cs) with (String "/" (OsPath.join "/" cs)).
    simpl PyStr.split. exact Hjoin.
  - change (OsPath.slashes 2 ++ OsPath.join "/" cs)
      with (String "/" (String "/" (OsPath.join "/" cs))).
    simpl PyStr.split. exact Hjoin.
Qed.

(** [os.path.normpath] is idempotent. *)
Lemma normpath_idempotent (path : string) :
  OsPath.normpath (OsPath.normpath path) = OsPath.normpath path.
Proof.
  unfold OsPath.normpath at 2 3.
  destruct (String.eqb path ""); [reflexivity |].
  set (k := OsPath.initial_slashes path).
  set (stack := List.fold_left (OsPath.normpath_step k) (PyStr.split "/" path) []).
  assert (Hstack : OsPath.normal_stack k stack).
  { apply normpath_fold_normal; [apply split_parts_no_sep |].
    exists 0%nat, []. repeat split; [constructor]. }
  pose proof (normal_stack_components k stack Hstack) as Hcs.
  pose proof (initial_slashes_range path) as Hk. fold k in Hk.
  set (p := OsPath.slashes k ++ OsPath.join "/" (List.rev stack)).
  destruct (String.eqb_spec p "") as [Hp | Hp]; [reflexivity |].
  unfold OsPath.normpath.
  destruct (String.eqb_spec p ""); [contradiction |].
  assert (Hinit : OsPath.initial_slashes p = k).
  { apply initial_slashes_join; [exact Hk | apply join_starts; exact Hcs]. }
  assert (Hfold : List.fold_left (OsPath.normpath_step k) (PyStr.split "/" p) [] = stack).
  { unfold p. rewrite normpath_fold_split_join by assumption.
    apply normpath_fold_stable. exact Hstack. }
  rewrite Hinit, Hfold. fold p.
  destruct (String.eqb_spec p ""); [contradiction | reflexivity].
Qed.

(** **** Events on today's log file *)

Example parse_log_line_samples :
  let parse s := LogWatcher._parse_log_line PyText.ascii_runtime (PyText.codes s) in
  parse "2024-01-02 10:00:00.000 | INFO     | src.engine:start:42 | engine started"
  = Some {| LogWatcher.timestamp := PyText.codes "2024-01-02 10:00:00.000";
            LogWatcher.level := PyText.codes "INFO";
            LogWatcher.logger := PyText.codes "src.engine";
            LogWatcher.function := PyText.codes "start";
            LogWatcher.line := 42;
            LogWatcher.message := PyText.codes "engine started";
            LogWatcher.raw := PyText.codes
              "2024-01-02 10:00:00.000 | INFO     | src.engine:start:42 | engine started" |} /\
  parse "2024-01-02 10:00:00.000 | ERROR | a:b:c:7 | x | y: 1"
  = Some {| LogWatcher.timestamp := PyText.codes "2024-01-02 10:00:00.000";
            LogWatcher.level := PyText.codes "ERROR";
            LogWatcher.logger := PyText.codes "a";
            LogWatcher.function := PyText.codes "b:c";
            LogWatcher.line := 7;
            LogWatcher.message := PyText.codes "x | y: 1";
            LogWatcher.raw :=
              PyText.codes "2024-01-02 10:00:00.000 | ERROR | a:b:c:7 | x | y: 1" |} /\
  parse "rted" = None /\
  parse "2024-01-02 10:00:00.000 | INFO | a:b:7 | " = None /\
  PyText.strip PyText.ascii_runtime (PyText.codes "  a b	 ") = PyText.codes "a b".
Proof. vm_compute. repeat split. Qed.

Example read_text_samples :
  PyText.read_text 0 "中" = [20013%N] /\
  PyText.read_text 1 "中" = [PyText.replacement; PyText.replacement] /\
  PyText.read_text 0 (String "228" (String "184" "A")) = [PyText.replacement; 65%N] /\
  PyText.read_text 0 (String "228" (String "184" "")) = [PyText.replacement] /\
  PyText.read_text 0 (String "237" (String "160" (String "128" "")))
    = [PyText.replacement; PyText.replacement; PyText.replacement] /\
  PyText.read_text 0 (String "a" (String "013" (String "010" (String "b" (String "013" "")))))
    = [97%N; 10%N; 98%N; 10%N] /\
  PyText.read_text 0 "😀" = [128512%N].
Proof. vm_compute. repeat split. Qed.

Lemma text_split_not_nil (sep : N) (s : PyText.text) : PyText.split sep s <> [].
Proof.
  destruct s as [| c r]; simpl; [discriminate |].
  destruct (c =? sep)%N; [discriminate |].
  destruct (PyText.split sep r); discriminate.
Qed.


Lemma on_file_modified_today (rt : PyText.runtime) (self : LogWatcher.t)
    (fs : LogWatcher.filesystem) (today path bytes : string) :
  LogWatcher.endswith path ".log" = true ->
  OsPath.normpath path = OsPath.normpath today ->
  LogWatcher.open_ fs (OsPath.normpath path) = Some bytes ->
  let key := OsPath.normpath path in
  let last_pos := default 0%nat (LogWatcher.file_position self !! key) in
  let content := PyText.read_text last_pos bytes in
  let entries := LogWatcher.parse_lines rt (PyText.split 10 content) in
  LogWatcher._on_file_modified rt self fs today path =
  {| LogWatcher.log_dir := LogWatcher.log_dir self;
     LogWatcher.file_position :=
       match content with
       | [] => LogWatcher.file_position self
       | _ => <[ key := (last_pos + List.length content)%nat ]> (LogWatcher.file_position self)
       end;
     LogWatcher.callback_calls :=
       (LogWatcher.callback_calls self
        ++ match entries with [] => [] | _ => [entries] end)%list |}.
Proof.
  intros Hlog Hsame Hfs key last_pos content entries.
  unfold LogWatcher._on_file_modified.
  rewrite Hlog, <- Hsame, String.eqb_refl. simpl negb. cbv iota.
  unfold LogWatcher._read_new_lines. rewrite Hfs, normpath_idempotent.
  fold key. fold last_pos. fold content.
  destruct content as [| c0 content'] eqn:Hc.
  - subst entries. simpl. rewrite List.app_nil_r. destruct self; reflexivity.
  - fold entries. destruct entries as [| e es]; simpl.
    + rewrite List.app_nil_r. reflexivity.
    + reflexivity.
Qed.




(** *** MessageProtocol: encode then decode *)

(** C1 (code defect). A byte-valued field does not survive the round trip.
    [encode] calls [json.dumps(..., default=str)] and not the
    [MessageEncoder] that tags bytes as [{"__bytes__": hex}], so the bytes
    [b"ab"] are written as the plain string "ab" and decoded as a [str]; for
    bytes that are not text, [encode] raises. The decoding side does
    implement the tag: the same message, with the field tagged as
    [MessageEncoder.default] would, decodes to the original message. *)
Theorem bytes_field_not_restored :
  let stamp := PyVal.VStr "2024-01-02T10:00:00.123456" in
  let with_data d :=
    {| MessageProtocol.msg_type := MessageProtocol.REQUEST;
       MessageProtocol.request_id := PyVal.VStr "req-1";
       MessageProtocol.data := d;
       MessageProtocol.timestamp := stamp;
       MessageProtocol.error := PyVal.VNone |} in
  let m := with_data (PyVal.VDict [("payload", PyVal.VBytes "ab")]) in
  (exists wire m',
     MessageProtocol.encode m = Py.Ok wire /\
     MessageProtocol.decode wire = Py.Ok (Some m') /\
     m' = with_data (PyVal.VDict [("payload", PyVal.VStr "ab")]) /\
     m' <> m) /\
  MessageProtocol.encode
    (with_data (PyVal.VDict [("payload", PyVal.VBytes (String "255" (String "000" EmptyString)))]))
    = Py.Raise Py.UnicodeDecodeError /\
  (wire <- MessageProtocol.encode
             (with_data (PyVal.VDict [("payload", MessageProtocol.MessageEncoder_default "ab")])) ;;;
   MessageProtocol.decode wire) = Py.Ok (Some m).
Proof.
  cbv zeta. split; [| split].
  - do 2 eexists. split; [vm_compute; reflexivity |].
    split; [vm_compute; reflexivity |].
    split; [reflexivity | discriminate].
  - vm_compute. reflexivity.
  - vm_compute. reflexivity.
Qed.

(** ** Part III: further properties of the embedded code *)

(** *** Strings as byte sequences *)

Lemma length_app (a b : string) :
  String.length (a ++ b) = (String.length a + String.length b)%nat.
Proof. induction a as [| c r IH]; simpl; [reflexivity | rewrite IH; reflexivity]. Qed.

Lemma substring_whole (s : string) : String.substring 0 (String.length s) s = s.
Proof. induction s as [| c r IH]; simpl; [reflexivity | rewrite IH; reflexivity]. Qed.

Lemma substring_from_length (text : string) (p : nat) :
  (p <= String.length text)%nat ->
  String.length (String.substring p (String.length text - p) text)
  = (String.length text - p)%nat.
Proof.
  revert p. induction text as [| c r IH]; intros p Hp; simpl in *.
  - destruct p; reflexivity.
  - destruct p as [| p].
    + simpl. rewrite substring_whole. reflexivity.
    + simpl. apply IH. lia.
Qed.

Lemma substring_app_prefix (a b : string) :
  String.substring 0 (String.length a) (a ++ b) = a.
Proof. induction a as [| c r IH]; simpl; [destruct b; reflexivity | rewrite IH; reflexivity]. Qed.

Lemma substring_app_skip (a b : string) (n : nat) :
  String.substring (String.length a) n (a ++ b) = String.substring 0 n b.
Proof. induction a as [| c r IH]; simpl; [reflexivity | exact IH]. Qed.

Lemma substring_0_app_l (n : nat) (a b : string) :
  (n <= String.length a)%nat ->
  String.substring 0 n (a ++ b) = String.substring 0 n a.
Proof.
  revert a. induction n as [| n IH]; intros a Hn.
  - destruct a; destruct b; reflexivity.
  - destruct a as [| c r]; simpl in *; [lia |]. rewrite IH by lia. reflexivity.
Qed.

Lemma app_cons (x : ascii) (r b : string) : String x r ++ b = String x (r ++ b).
Proof. reflexivity. Qed.

Lemma app_assoc_string (a b c : string) : (a ++ b) ++ c = a ++ b ++ c.
Proof.
  induction a as [| x r IH]; [reflexivity |].
  rewrite !app_cons. f_equal. exact IH.
Qed.

Lemma app_empty_r (a : string) : a ++ "" = a.
Proof.
  induction a as [| x r IH]; [reflexivity |].
  rewrite app_cons. f_equal. exact IH.
Qed.

(** *** MessageProtocol: framing *)

Lemma byte_embedding (z : Z) :
  (0 <= z < 256)%Z -> Z.of_nat (nat_of_ascii (ascii_of_nat (Z.to_nat z))) = z.
Proof. intros H. rewrite nat_ascii_embedding by lia. lia. Qed.

Lemma pack_u32_ok (n : Z) :
  (0 <= n < 2 ^ 32)%Z ->
  exists header, MessageProtocol.pack_u32 n = Py.Ok header /\
                 String.length header = 4%nat /\
                 MessageProtocol.unpack_u32 header = n.
Proof.
  intros Hn. unfold MessageProtocol.pack_u32.
  destruct (Z.ltb_spec n 0); [lia |].
  destruct (Z.leb_spec (2 ^ 32) n); [lia |]. simpl orb. cbv iota.
  eexists. split; [reflexivity |]. split; [reflexivity |].
  unfold MessageProtocol.unpack_u32.
  change (256 ^ 3)%Z with (256 * 256 * 256)%Z.
  change (256 ^ 2)%Z with (256 * 256)%Z.
  change (256 ^ 1)%Z with 256%Z. change (256 ^ 0)%Z with 1%Z.
  change (2 ^ 32)%Z with 4294967296%Z in *.
  rewrite !byte_embedding by (apply Z.mod_pos_bound; lia).
  rewrite <- !Z.div_div by lia. rewrite Z.div_1_r.
  pose proof (Z.div_mod n 256 ltac:(lia)) as H1.
  pose proof (Z.div_mod (n / 256) 256 ltac:(lia)) as H2.
  pose proof (Z.div_mod (n / 256 / 256) 256 ltac:(lia)) as H3.
  assert (H4 : (n / 256 / 256 / 256 < 256)%Z).
  { rewrite !Z.div_div by lia. apply Z.div_lt_upper_bound; lia. }
  assert (H5 : (0 <= n / 256 / 256 / 256)%Z).
  { rewrite !Z.div_div by lia. apply Z.div_pos; lia. }
  rewrite (Z.mod_small (n / 256 / 256 / 256) 256) by lia. lia.
Qed.

Lemma encode_layout (m : MessageProtocol.MessageBody) (wire : string) :
  MessageProtocol.encode m = Py.Ok wire ->
  exists header body,
    wire = header ++ body /\
    Json.dumps (MessageProtocol.to_dict m) = Py.Ok body /\
    String.length header = 4%nat /\
    MessageProtocol.unpack_u32 header = Z.of_nat (String.length body).
Proof.
  unfold MessageProtocol.encode. intros H.
  destruct (Json.dumps (MessageProtocol.to_dict m)) as [body | e]; [| discriminate].
  simpl in H.
  destruct (MessageProtocol.pack_u32 (Z.of_nat (String.length body))) as [header | e] eqn:Hp;
    [| discriminate].
  simpl in H. injection H as <-.
  assert (Hrange : (0 <= Z.of_nat (String.length body) < 2 ^ 32)%Z).
  { unfold MessageProtocol.pack_u32 in Hp.
    destruct (Z.ltb_spec (Z.of_nat (String.length body)) 0); [discriminate |].
    destruct (Z.leb_spec (2 ^ 32) (Z.of_nat (String.length body))); [discriminate |]. lia. }
  destruct (pack_u32_ok _ Hrange) as (h & Hh & Hlen & Hun).
  rewrite Hp in Hh. injection Hh as <-.
  exists header, body. repeat split; assumption.
Qed.

Lemma decode_framed (header body extra : string) :
  String.length header = 4%nat ->
  MessageProtocol.unpack_u32 header = Z.of_nat (String.length body) ->
  MessageProtocol.decode (header ++ body ++ extra) = MessageProtocol.decode (header ++ body).
Proof.
  intros Hlen Hun.
  assert (Hgen : forall tail,
             MessageProtocol.decode (header ++ body ++ tail) =
             (if negb (Json.all_ascii body) then Py.Ok None
              else match Json.loads MessageProtocol.message_decode_hook body with
                   | Py.Raise Py.JSONDecodeError => Py.Ok None
                   | Py.Raise e => Py.Raise e
                   | Py.Ok message_dict =>
                       m <- MessageProtocol.from_dict message_dict ;;; Py.Ok (Some m)
                   end)).
  { intros tail. unfold MessageProtocol.decode.
    rewrite !length_app, Hlen.
    destruct (Nat.ltb_spec (4 + (String.length body + String.length tail)) 4); [lia |].
    assert (Hh : String.substring 0 4 (header ++ body ++ tail) = header).
    { rewrite <- Hlen. apply substring_app_prefix. }
    rewrite Hh, Hun.
    destruct (Z.ltb_spec (Z.of_nat (4 + (String.length body + String.length tail)))
                (4 + Z.of_nat (String.length body))); [lia |].
    rewrite Nat2Z.id.
    assert (Hb : String.substring 4 (String.length body) (header ++ body ++ tail) = body).
    { rewrite <- Hlen at 1. rewrite substring_app_skip. apply substring_app_prefix. }
    rewrite Hb. reflexivity. }
  rewrite (Hgen extra). pose proof (Hgen "") as H0.
  rewrite app_empty_r in H0. rewrite H0. reflexivity.
Qed.

(** X1. A frame that [encode] produced is still decoded, to the same
    result, when further bytes follow it: [decode] reads the four length
    bytes and exactly that many bytes of body. *)
Theorem decode_ignores_trailing_bytes
    (m : MessageProtocol.MessageBody) (wire extra : string) :
  MessageProtocol.encode m = Py.Ok wire ->
  MessageProtocol.decode (wire ++ extra) = MessageProtocol.decode wire.
Proof.
  intros H. destruct (encode_layout m wire H) as (header & body & -> & _ & Hlen & Hun).
  rewrite app_assoc_string. apply decode_framed; assumption.
Qed.

(** X2. Every proper prefix of a frame that [encode] produced decodes to
    [None], without an exception: an incomplete frame never yields a
    message. *)
Theorem decode_incomplete_frame
    (m : MessageProtocol.MessageBody) (wire received missing : string) :
  MessageProtocol.encode m = Py.Ok wire ->
  wire = received ++ missing ->
  missing <> "" ->
  MessageProtocol.decode received = Py.Ok None.
Proof.
  intros H Hsplit Hmiss.
  destruct (encode_layout m wire H) as (header & body & Hw & _ & Hlen & Hun).
  assert (Hshort : (String.length received < 4 + String.length body)%nat).
  { assert (Hl : String.length wire = (4 + String.length body)%nat)
      by (rewrite Hw, length_app, Hlen; reflexivity).
    rewrite Hsplit, length_app in Hl.
    destruct missing; [contradiction | simpl in Hl; lia]. }
  unfold MessageProtocol.decode.
  destruct (Nat.ltb_spec (String.length received) 4) as [Hlt | Hge]; [reflexivity |].
  assert (Hh : String.substring 0 4 received = header).
  { rewrite <- (substring_0_app_l 4 received missing Hge), <- Hsplit, Hw.
    rewrite <- Hlen. apply substring_app_prefix. }
  rewrite Hh, Hun.
  destruct (Z.ltb_spec (Z.of_nat (String.length received))
              (4 + Z.of_nat (String.length body))); [reflexivity | lia].
Qed.

Lemma decode_incomplete_frame_witness :
  let m := {| MessageProtocol.msg_type := MessageProtocol.HEARTBEAT;
              MessageProtocol.request_id := PyVal.VStr "";
              MessageProtocol.data := PyVal.VNone;
              MessageProtocol.timestamp := PyVal.VStr "2024-01-02T10:00:00";
              MessageProtocol.error := PyVal.VNone |} in
  let wire := match MessageProtocol.encode m with
              | Py.Ok w => w
              | Py.Raise _ => ""
              end in
  MessageProtocol.decode (String.substring 0 30 wire) = Py.Ok None.
Proof.
  intros m wire.
  apply (decode_incomplete_frame m wire (String.substring 0 30 wire)
           (String.substring 30 200 wire)).
  - vm_compute. reflexivity.
  - vm_compute. reflexivity.
  - vm_compute. discriminate.
Defined.

Lemma decode_ignores_trailing_bytes_witness :
  let m := {| MessageProtocol.msg_type := MessageProtocol.HEARTBEAT;
              MessageProtocol.request_id := PyVal.VStr "";
              MessageProtocol.data := PyVal.VNone;
              MessageProtocol.timestamp := PyVal.VStr "2024-01-02T10:00:00";
              MessageProtocol.error := PyVal.VNone |} in
  exists wire, MessageProtocol.encode m = Py.Ok wire /\
               MessageProtocol.decode (wire ++ "next frame") = MessageProtocol.decode wire.
Proof.
  intros m. eexists. split; [vm_compute; reflexivity |].
  apply (decode_ignores_trailing_bytes m). vm_compute. reflexivity.
Defined.

Lemma substring_rest (a b : string) :
  String.substring (String.length a) (String.length (a ++ b) - String.length a) (a ++ b) = b.
Proof.
  induction a as [| c r IH]; simpl.
  - rewrite Nat.sub_0_r. apply substring_whole.
  - exact IH.
Qed.

(** X3. Reading from a stream that starts with a frame produced by
    [encode] gives what [decode] gives for that frame (nothing when [decode]
    raises) and leaves exactly the bytes after the frame, so successive reads
    take the frames one at a time in order; when the stream ends inside the
    frame the read gives nothing. *)
Theorem read_message_takes_one_frame
    (m : MessageProtocol.MessageBody) (wire : string) :
  MessageProtocol.encode m = Py.Ok wire ->
  (forall rest : string,
     MessageProtocol.read_message (wire ++ rest) =
     (match MessageProtocol.decode wire with
      | Py.Ok r => r
      | Py.Raise _ => None
      end, rest)) /\
  (forall received missing : string,
     wire = received ++ missing -> missing <> "" ->
     MessageProtocol.read_message received = (None, "")).
Proof.
  intros H. destruct (encode_layout m wire H) as (header & body & -> & _ & Hlen & Hun).
  split.
  - intros rest. rewrite app_assoc_string. unfold MessageProtocol.read_message.
    rewrite length_app, Hlen.
    destruct (Nat.ltb_spec (4 + String.length (body ++ rest)) 4); [lia |].
    assert (Hh : String.substring 0 4 (header ++ body ++ rest) = header).
    { rewrite <- Hlen. apply substring_app_prefix. }
    assert (Ha : String.substring 4 (4 + String.length (body ++ rest) - 4)
                   (header ++ body ++ rest) = body ++ rest).
    { rewrite <- Hlen at 1. rewrite substring_app_skip.
      replace (4 + String.length (body ++ rest) - 4)%nat
        with (String.length (body ++ rest)) by lia.
      apply substring_whole. }
    rewrite Hh, Ha, Hun, Nat2Z.id.
    destruct (Nat.ltb_spec (String.length (body ++ rest)) (String.length body)) as [Hlt | _];
      [rewrite length_app in Hlt; lia |].
    rewrite substring_app_prefix, substring_rest.
    destruct (MessageProtocol.decode (header ++ body)); reflexivity.
  - intros received missing Hsplit Hmiss.
    assert (Hshort : (String.length received < 4 + String.length body)%nat).
    { assert (Hl : String.length (header ++ body) = (4 + String.length body)%nat)
        by (rewrite length_app, Hlen; reflexivity).
      rewrite Hsplit, length_app in Hl.
      destruct missing; [contradiction | simpl in Hl; lia]. }
    unfold MessageProtocol.read_message.
    destruct (Nat.ltb_spec (String.length received) 4) as [Hlt | Hge]; [reflexivity |].
    assert (Hh : String.substring 0 4 received = header).
    { rewrite <- (substring_0_app_l 4 received missing Hge), <- Hsplit.
      rewrite <- Hlen. apply substring_app_prefix. }
    rewrite Hh, Hun, Nat2Z.id.
    assert (Hal : String.length (String.substring 4 (String.length received - 4) received)
                  = (String.length received - 4)%nat).
    { apply (substring_from_length received 4 Hge). }
    rewrite Hal.
    destruct (Nat.ltb_spec (String.length received - 4) (String.length body));
      [reflexivity | lia].
Qed.

Lemma read_message_takes_one_frame_witness :
  let m := {| MessageProtocol.msg_type := MessageProtocol.PUSH;
              MessageProtocol.request_id := PyVal.VStr "p-1";
              MessageProtocol.data :=
                PyVal.VDict [("type", PyVal.VStr "tick"); ("data", PyVal.VInt 1)];
              MessageProtocol.timestamp := PyVal.VStr "2024-01-02T10:00:00";
              MessageProtocol.error := PyVal.VNone |} in
  exists wire, MessageProtocol.encode m = Py.Ok wire /\
               MessageProtocol.read_message (wire ++ wire) = (Some m, wire).
Proof.
  intros m. eexists. split; [vm_compute; reflexivity |].
  etransitivity.
  - apply (proj1 (read_message_takes_one_frame m _ ltac:(vm_compute; reflexivity))).
  - vm_compute. reflexivity.
Defined.

(** *** MessageProtocol: envelope and byte tagging *)

(** X4. [from_dict] undoes [to_dict] for every message; a document
    without an [error] entry is accepted with [error = None], and one whose
    [msg_type] is not a member value is refused with [ValueError]. *)
Theorem from_dict_to_dict (m : MessageProtocol.MessageBody) :
  MessageProtocol.from_dict (MessageProtocol.to_dict m) = Py.Ok m /\
  MessageProtocol.from_dict
    (PyVal.VDict [ ("msg_type", PyVal.VStr (MessageProtocol.type_value (MessageProtocol.msg_type m)));
                   ("request_id", MessageProtocol.request_id m);
                   ("data", MessageProtocol.data m);
                   ("timestamp", MessageProtocol.timestamp m) ])
  = Py.Ok {| MessageProtocol.msg_type := MessageProtocol.msg_type m;
             MessageProtocol.request_id := MessageProtocol.request_id m;
             MessageProtocol.data := MessageProtocol.data m;
             MessageProtocol.timestamp := MessageProtocol.timestamp m;
             MessageProtocol.error := PyVal.VNone |} /\
  (forall v : PyVal.value,
     (forall ty, v <> PyVal.VStr (MessageProtocol.type_value ty)) ->
     MessageProtocol.from_dict
       (PyVal.VDict [ ("msg_type", v);
                      ("request_id", MessageProtocol.request_id m);
                      ("data", MessageProtocol.data m);
                      ("timestamp", MessageProtocol.timestamp m);
                      ("error", MessageProtocol.error m) ])
     = Py.Raise Py.ValueError).
Proof.
  destruct m as [ty rid dat ts err]. repeat split.
  - destruct ty; reflexivity.
  - destruct ty; reflexivity.
  - intros v Hv. unfold MessageProtocol.from_dict. simpl.
    assert (Ht : MessageProtocol.type_of_value v = Py.Raise Py.ValueError).
    { destruct v as [| b | z | s | b | l | d]; try reflexivity.
      unfold MessageProtocol.type_of_value.
      destruct (String.eqb_spec s "heartbeat") as [-> | _];
        [destruct (Hv MessageProtocol.HEARTBEAT); reflexivity |].
      destruct (String.eqb_spec s "request") as [-> | _];
        [destruct (Hv MessageProtocol.REQUEST); reflexivity |].
      destruct (String.eqb_spec s "response") as [-> | _];
        [destruct (Hv MessageProtocol.RESPONSE); reflexivity |].
      destruct (String.eqb_spec s "push") as [-> | _];
        [destruct (Hv MessageProtocol.PUSH); reflexivity |].
      destruct (String.eqb_spec s "error") as [-> | _];
        [destruct (Hv MessageProtocol.ERROR); reflexivity |].
      reflexivity. }
    rewrite Ht. reflexivity.
Qed.

Lemma from_dict_to_dict_witness :
  MessageProtocol.from_dict
    (PyVal.VDict [ ("msg_type", PyVal.VStr "REQUEST");
                   ("request_id", PyVal.VStr "r");
                   ("data", PyVal.VNone);
                   ("timestamp", PyVal.VStr "t");
                   ("error", PyVal.VNone) ])
  = Py.Raise Py.ValueError.
Proof.
  apply (proj2 (proj2 (from_dict_to_dict
    {| MessageProtocol.msg_type := MessageProtocol.PUSH;
       MessageProtocol.request_id := PyVal.VStr "r";
       MessageProtocol.data := PyVal.VNone;
       MessageProtocol.timestamp := PyVal.VStr "t";
       MessageProtocol.error := PyVal.VNone |})) (PyVal.VStr "REQUEST")).
  intros ty. destruct ty; discriminate.
Defined.

Lemma fromhex_hex_byte (c : ascii) (rest : string) :
  MessageProtocol.fromhex_text
    (String (Json.hex_digit (nat_of_ascii c / 16))
       (String (Json.hex_digit (nat_of_ascii c mod 16)) rest))
  = (tail <- MessageProtocol.fromhex_text rest ;;; Py.Ok (String c tail)).
Proof. destruct c as [[] [] [] [] [] [] [] []]; reflexivity. Qed.

Lemma fromhex_hex (b : string) :
  MessageProtocol.fromhex_text (MessageProtocol.hex b) = Py.Ok b.
Proof.
  induction b as [| c r IH]; [reflexivity |].
  change (MessageProtocol.hex (String c r))
    with (String (Json.hex_digit (nat_of_ascii c / 16))
            (String (Json.hex_digit (nat_of_ascii c mod 16)) (MessageProtocol.hex r))).
  rewrite fromhex_hex_byte, IH. reflexivity.
Qed.

(** X5. The decode hook undoes the tag of [MessageEncoder.default] for
    every byte string: the tagged object [{"__bytes__": b.hex()}] is turned
    back into exactly [b]; an object without that key is returned as it
    is, and a [__bytes__] entry that is not a string makes the hook raise
    [TypeError]. *)
Theorem decode_hook_restores_tagged_bytes (b : string) :
  (exists tagged,
     MessageProtocol.MessageEncoder_default b = PyVal.VDict tagged /\
     MessageProtocol.message_decode_hook tagged = Py.Ok (PyVal.VBytes b)) /\
  (forall dct, PyVal.assoc_get "__bytes__" dct = None ->
     MessageProtocol.message_decode_hook dct = Py.Ok (PyVal.VDict dct)) /\
  (forall dct v, PyVal.assoc_get "__bytes__" dct = Some v ->
     (forall s, v <> PyVal.VStr s) ->
     MessageProtocol.message_decode_hook dct = Py.Raise Py.TypeError).
Proof.
  repeat split.
  - eexists. split; [reflexivity |].
    unfold MessageProtocol.message_decode_hook. simpl.
    rewrite fromhex_hex. reflexivity.
  - intros dct H. unfold MessageProtocol.message_decode_hook. rewrite H. reflexivity.
  - intros dct v H Hv. unfold MessageProtocol.message_decode_hook. rewrite H.
    destruct v; try reflexivity. destruct (Hv s). reflexivity.
Qed.

Lemma decode_hook_restores_tagged_bytes_witness :
  MessageProtocol.message_decode_hook [("__bytes__", PyVal.VInt 7)] = Py.Raise Py.TypeError /\
  MessageProtocol.message_decode_hook [("k", PyVal.VInt 7)] = Py.Ok (PyVal.VDict [("k", PyVal.VInt 7)]).
Proof.
  split.
  - apply (proj2 (proj2 (decode_hook_restores_tagged_bytes ""))
             [("__bytes__", PyVal.VInt 7)] (PyVal.VInt 7) eq_refl).
    intros s. discriminate.
  - apply (proj1 (proj2 (decode_hook_restores_tagged_bytes ""))). reflexivity.
Defined.

(** *** SocketClient: the receive path *)

Lemma set_pending_same (st : SocketClient.t) :
  SocketClient.set_pending st (SocketClient._pending_requests st) = st.
Proof. destruct st; reflexivity. Qed.

(** X6. A response with status "error" for a pending request fails that
    request: its future gets an exception carrying the response's [message]
    field (the empty string when the field is absent or empty), the request
    leaves the pending table, and the receive loop goes on with the next
    frame. *)
Theorem error_response_fails_request
    (st : SocketClient.t) (d : list (string * PyVal.value)) (k : string)
    (fid : positive) (rest : list (option PyVal.value)) :
  SocketClient.connected st = true ->
  PyVal.assoc_get "type" d = Some (PyVal.VStr "response") ->
  PyVal.assoc_get "request_id" d = Some (PyVal.VStr k) ->
  k <> "" ->
  SocketClient._pending_requests st !! k = Some fid ->
  SocketClient.futures st !! fid = Some SocketClient.FPending ->
  PyVal.assoc_get "status" d = Some (PyVal.VStr "error") ->
  let detail :=
    SocketClient.or_else (default PyVal.VNone (PyVal.assoc_get "message" d)) (PyVal.VStr "") in
  let st' :=
    SocketClient.set_future
      (SocketClient.set_pending st (delete k (SocketClient._pending_requests st)))
      fid (SocketClient.FException detail) in
  SocketClient._handle_message st (PyVal.VDict d) = (st', None) /\
  SocketClient.futures st' !! fid = Some (SocketClient.FException detail) /\
  SocketClient._pending_requests st' !! k = None /\
  SocketClient._receiving_loop st (Some (PyVal.VDict d) :: rest) =
    SocketClient._receiving_loop st' rest.
Proof.
  intros Hconn Htype Hid Hk Hpend Hfut Hstatus detail st'.
  assert (Hh : SocketClient._handle_message st (PyVal.VDict d) = (st', None)).
  { unfold SocketClient._handle_message. simpl. rewrite Htype. simpl. rewrite Hid. simpl.
    destruct (String.eqb_spec k "") as [-> | _]; [contradiction |]. simpl.
    rewrite Hpend, Hfut. simpl.
    unfold SocketClient.resolve. simpl. rewrite Hstatus.
    subst st' detail. destruct (PyVal.assoc_get "message" d); reflexivity. }
  split; [exact Hh |]. split; [apply lookup_insert_eq |]. split; [apply lookup_delete_eq |].
  assert (Hd : d <> []) by (intros ->; discriminate).
  destruct d as [| kv d']; [contradiction |].
  unfold SocketClient._receiving_loop at 1. rewrite Hconn. simpl negb. cbv iota.
  rewrite Hh. reflexivity.
Qed.

Lemma error_response_fails_request_witness :
  let st := {| SocketClient.connected := true;
               SocketClient._pending_requests := {[ "req-1" := 1%positive ]};
               SocketClient.futures := {[ 1%positive := SocketClient.FPending ]};
               SocketClient.on_data_callback := None;
               SocketClient.delivered := [] |} in
  let response := [ ("type", PyVal.VStr "response");
                    ("request_id", PyVal.VStr "req-1");
                    ("status", PyVal.VStr "error");
                    ("message", PyVal.VStr "unknown request type") ] in
  SocketClient.futures (fst (SocketClient._handle_message st (PyVal.VDict response)))
    !! 1%positive
  = Some (SocketClient.FException (PyVal.VStr "unknown request type")).
Proof.
  intros st response.
  destruct (error_response_fails_request st response "req-1" 1%positive []
              eq_refl eq_refl eq_refl ltac:(discriminate) eq_refl eq_refl eq_refl)
    as (Hh & Hf & _).
  rewrite Hh. exact Hf.
Defined.

(** X7. A response whose request id is not pending (a late answer to a
    request that timed out, or an unknown id) is dropped: the client state is
    unchanged and the receive loop goes on with the next frame. *)
Theorem late_response_dropped
    (st : SocketClient.t) (d : list (string * PyVal.value)) (k : string)
    (rest : list (option PyVal.value)) :
  SocketClient.connected st = true ->
  PyVal.assoc_get "type" d = Some (PyVal.VStr "response") ->
  PyVal.assoc_get "request_id" d = Some (PyVal.VStr k) ->
  SocketClient._pending_requests st !! k = None ->
  SocketClient._handle_message st (PyVal.VDict d) = (st, None) /\
  SocketClient._receiving_loop st (Some (PyVal.VDict d) :: rest) =
    SocketClient._receiving_loop st rest.
Proof.
  intros Hconn Htype Hid Hpend.
  assert (Hh : SocketClient._handle_message st (PyVal.VDict d) = (st, None)).
  { unfold SocketClient._handle_message. simpl. rewrite Htype. simpl. rewrite Hid. simpl.
    destruct (String.eqb_spec k ""); simpl; [reflexivity |].
    rewrite Hpend. rewrite (delete_id _ _ Hpend), set_pending_same. reflexivity. }
  split; [exact Hh |].
  assert (Hd : d <> []) by (intros ->; discriminate).
  destruct d as [| kv d']; [contradiction |].
  unfold SocketClient._receiving_loop at 1. rewrite Hconn. simpl negb. cbv iota.
  rewrite Hh. reflexivity.
Qed.

Lemma late_response_dropped_witness :
  let st := {| SocketClient.connected := true;
               SocketClient._pending_requests := {[ "req-2" := 2%positive ]};
               SocketClient.futures := {[ 2%positive := SocketClient.FPending ]};
               SocketClient.on_data_callback := None;
               SocketClient.delivered := [] |} in
  let response := [ ("type", PyVal.VStr "response");
                    ("request_id", PyVal.VStr "req-1");
                    ("status", PyVal.VStr "success") ] in
  SocketClient._handle_message st (PyVal.VDict response) = (st, None).
Proof.
  intros st response.
  apply (proj1 (late_response_dropped st response "req-1" [] eq_refl eq_refl eq_refl eq_refl)).
Defined.

(** X8. A push (a message whose type is present and is not "response") is
    handed to the registered callback with its type and its [data] entry, or
    an empty object when there is none; the pending requests and the
    futures are untouched, and the receive loop goes on with the next frame
    whatever the callback does. Without a callback the push is dropped. *)
Theorem push_message_delivered
    (st : SocketClient.t) (d : list (string * PyVal.value)) (ty : PyVal.value)
    (rest : list (option PyVal.value)) :
  SocketClient.connected st = true ->
  PyVal.assoc_get "type" d = Some ty ->
  ty <> PyVal.VNone ->
  PyVal.eq_str ty "response" = false ->
  let data := default (PyVal.VDict []) (PyVal.assoc_get "data" d) in
  let st' := match SocketClient.on_data_callback st with
             | Some _ => SocketClient.add_delivered st ty data
             | None => st
             end in
  SocketClient._handle_message st (PyVal.VDict d) = (st', None) /\
  SocketClient._pending_requests st' = SocketClient._pending_requests st /\
  SocketClient.futures st' = SocketClient.futures st /\
  SocketClient._receiving_loop st (Some (PyVal.VDict d) :: rest) =
    SocketClient._receiving_loop st' rest.
Proof.
  intros Hconn Htype Hnone Hresp data st'.
  assert (Hh : SocketClient._handle_message st (PyVal.VDict d) = (st', None)).
  { unfold SocketClient._handle_message. simpl. rewrite Htype.
    subst st' data.
    destruct ty; try contradiction; simpl in Hresp |- *; try rewrite Hresp;
      destruct (PyVal.assoc_get "data" d);
      destruct (SocketClient.on_data_callback st); reflexivity. }
  split; [exact Hh |].
  split; [subst st'; destruct (SocketClient.on_data_callback st); reflexivity |].
  split; [subst st'; destruct (SocketClient.on_data_callback st); reflexivity |].
  assert (Hd : d <> []) by (intros ->; discriminate).
  destruct d as [| kv d']; [contradiction |].
  unfold SocketClient._receiving_loop at 1. rewrite Hconn. simpl negb. cbv iota.
  rewrite Hh. reflexivity.
Qed.

Lemma push_message_delivered_witness :
  let st := {| SocketClient.connected := true;
               SocketClient._pending_requests := {[ "req-1" := 1%positive ]};
               SocketClient.futures := {[ 1%positive := SocketClient.FPending ]};
               SocketClient.on_data_callback := Some (fun _ _ => Some Py.ValueError);
               SocketClient.delivered := [] |} in
  let push := [ ("type", PyVal.VStr "order_update") ] in
  SocketClient._handle_message st (PyVal.VDict push) =
    (SocketClient.add_delivered st (PyVal.VStr "order_update") (PyVal.VDict []), None).
Proof.
  intros st push.
  apply (proj1 (push_message_delivered st push (PyVal.VStr "order_update") []
                  eq_refl eq_refl ltac:(discriminate) eq_refl)).
Defined.

Lemma preserved_refl (st : SocketClient.t) : SocketClient.preserved st st.
Proof.
  repeat split; auto. exists []. rewrite List.app_nil_r. reflexivity.
Qed.

Lemma preserved_trans (a b c : SocketClient.t) :
  SocketClient.preserved a b -> SocketClient.preserved b c -> SocketClient.preserved a c.
Proof.
  intros (P1 & F1 & D1 & [m1 E1]) (P2 & F2 & D2 & [m2 E2]). repeat split; auto.
  exists (m1 ++ m2)%list. rewrite E2, E1, List.app_assoc. reflexivity.
Qed.

Lemma preserved_set_pending (st : SocketClient.t) (k : string) :
  SocketClient.preserved st
    (SocketClient.set_pending st (delete k (SocketClient._pending_requests st))).
Proof.
  repeat split; simpl; auto.
  - intros k' H. destruct (decide (k = k')) as [-> | Hne];
      [apply lookup_delete_eq | rewrite lookup_delete_ne by exact Hne; exact H].
  - exists []. rewrite List.app_nil_r. reflexivity.
Qed.

Lemma preserved_set_future (st : SocketClient.t) (fid : positive) (f0 f : SocketClient.Future) :
  SocketClient.futures st !! fid = Some f0 -> SocketClient.done f0 = false ->
  SocketClient.preserved st (SocketClient.set_future st fid f).
Proof.
  intros Hf Hd. repeat split; simpl; auto.
  - intros fid' H. destruct (decide (fid = fid')) as [-> | Hne]; [congruence |].
    rewrite lookup_insert_ne by exact Hne. exact H.
  - intros fid' f' H Hdone. destruct (decide (fid = fid')) as [-> | Hne].
    + rewrite Hf in H. injection H as <-. congruence.
    + rewrite lookup_insert_ne by exact Hne. exact H.
  - exists []. rewrite List.app_nil_r. reflexivity.
Qed.

Lemma preserved_add_delivered (st : SocketClient.t) (ty data : PyVal.value) :
  SocketClient.preserved st (SocketClient.add_delivered st ty data).
Proof. repeat split; simpl; auto. eexists. reflexivity. Qed.

Lemma resolve_preserved (st : SocketClient.t) (fid : positive) (f0 : SocketClient.Future)
    (message : PyVal.value) :
  SocketClient.futures st !! fid = Some f0 -> SocketClient.done f0 = false ->
  SocketClient.preserved st (fst (SocketClient.resolve st fid message)) /\
  SocketClient.connected (fst (SocketClient.resolve st fid message)) = SocketClient.connected st.
Proof.
  intros Hf Hd. unfold SocketClient.resolve.
  destruct (PyVal.get message "status") as [status | e]; [| split; [apply preserved_refl | reflexivity]].
  destruct (PyVal.get message "message") as [m | e]; [| split; [apply preserved_refl | reflexivity]].
  destruct (PyVal.eq_str status "error");
    [split; [eapply preserved_set_future; eassumption | reflexivity] |].
  destruct (PyVal.get (SocketClient.or_else m (PyVal.VStr "")) "data") as [data | e];
    [split; [eapply preserved_set_future; eassumption | reflexivity]
    | split; [apply preserved_refl | reflexivity]].
Qed.

Lemma handle_message_preserved (st : SocketClient.t) (message : PyVal.value) :
  SocketClient.preserved st (fst (SocketClient._handle_message st message)) /\
  SocketClient.connected (fst (SocketClient._handle_message st message)) = SocketClient.connected st.
Proof.
  unfold SocketClient._handle_message.
  destruct (PyVal.get message "type") as [ty | e]; [| split; [apply preserved_refl | reflexivity]].
  assert (Hgen :
    let r := if PyVal.eq_str ty "response"
             then match PyVal.get message "request_id" with
                  | Py.Raise e => (st, Some e)
                  | Py.Ok request_id =>
                      if negb (PyVal.truthy request_id) then (st, None)
                      else match SocketClient.pop_pending st request_id with
                           | Py.Raise e => (st, Some e)
                           | Py.Ok (None, st1) => (st1, None)
                           | Py.Ok (Some fid, st1) =>
                               match SocketClient.futures st1 !! fid with
                               | Some f =>
                                   if SocketClient.done f then (st1, None)
                                   else SocketClient.resolve st1 fid message
                               | None => (st1, None)
                               end
                           end
                  end
             else match SocketClient.get_default message "data" (PyVal.VDict []) with
                  | Py.Raise e => (st, Some e)
                  | Py.Ok data =>
                      match SocketClient.on_data_callback st with
                      | Some handler =>
                          let _caught := handler ty data in
                          (SocketClient.add_delivered st ty data, None)
                      | None => (st, None)
                      end
                  end in
    SocketClient.preserved st (fst r) /\ SocketClient.connected (fst r) = SocketClient.connected st).
  { cbv zeta. destruct (PyVal.eq_str ty "response").
    - destruct (PyVal.get message "request_id") as [rid | e];
        [| split; [apply preserved_refl | reflexivity]].
      destruct (negb (PyVal.truthy rid)); [split; [apply preserved_refl | reflexivity] |].
      assert (Hpop : forall o st1, SocketClient.pop_pending st rid = Py.Ok (o, st1) ->
                SocketClient.preserved st st1 /\
                SocketClient.connected st1 = SocketClient.connected st).
      { intros o st1 H. unfold SocketClient.pop_pending in H.
        destruct rid; try discriminate; injection H as _ <-;
          try (split; [apply preserved_refl | reflexivity]).
        split; [apply preserved_set_pending | reflexivity]. }
      destruct (SocketClient.pop_pending st rid) as [[[fid |] st1] | e] eqn:Hp;
        [| destruct (Hpop _ _ eq_refl); split; assumption
         | split; [apply preserved_refl | reflexivity]].
      destruct (Hpop _ _ eq_refl) as [Hpres Hconn].
      destruct (SocketClient.futures st1 !! fid) as [f |] eqn:Hf; [| split; assumption].
      destruct (SocketClient.done f) eqn:Hd; [split; assumption |].
      destruct (resolve_preserved st1 fid f message Hf Hd) as [Hr Hc].
      split; [eapply preserved_trans; eassumption | congruence].
    - destruct (SocketClient.get_default message "data" (PyVal.VDict [])) as [data | e];
        [| split; [apply preserved_refl | reflexivity]].
      destruct (SocketClient.on_data_callback st);
        [split; [apply preserved_add_delivered | reflexivity]
        | split; [apply preserved_refl | reflexivity]]. }
  destruct ty; try exact Hgen. split; [apply preserved_refl | reflexivity].
Qed.

(** X9. Whatever frames arrive, the receive loop ends with the client
    marked disconnected, reads the frames in order (what is left unread is a
    suffix of the input), never makes a request pending, never creates a
    future, never changes the outcome of a future that is already done, and
    only appends to the pushes delivered. *)
Theorem receiving_loop_invariants
    (st : SocketClient.t) (incoming : list (option PyVal.value)) :
  let after := SocketClient._receiving_loop st incoming in
  SocketClient.connected (SocketClient.final after) = false /\
  (exists read, incoming = (read ++ SocketClient.unread after)%list) /\
  (forall k, SocketClient._pending_requests st !! k = None ->
             SocketClient._pending_requests (SocketClient.final after) !! k = None) /\
  (forall fid, SocketClient.futures st !! fid = None ->
               SocketClient.futures (SocketClient.final after) !! fid = None) /\
  (forall fid f, SocketClient.futures st !! fid = Some f -> SocketClient.done f = true ->
                 SocketClient.futures (SocketClient.final after) !! fid = Some f) /\
  (exists more, SocketClient.delivered (SocketClient.final after)
                = (SocketClient.delivered st ++ more)%list).
Proof.
  cbv zeta.
  assert (Hgen : forall incoming st,
            SocketClient.connected
              (SocketClient.final (SocketClient._receiving_loop st incoming)) = false /\
            (exists read, incoming =
               (read ++ SocketClient.unread (SocketClient._receiving_loop st incoming))%list) /\
            SocketClient.preserved st
              (SocketClient.final (SocketClient._receiving_loop st incoming))).
  { clear. intros incoming. induction incoming as [| frame rest IH]; intros st.
    - simpl. destruct (negb (SocketClient.connected st)); simpl;
        (split; [reflexivity | split; [exists []; reflexivity |]]);
        repeat split; simpl; auto; exists []; rewrite List.app_nil_r; reflexivity.
    - simpl. destruct (negb (SocketClient.connected st)).
      { simpl. split; [reflexivity |]. split; [exists []; reflexivity |].
        repeat split; simpl; auto. exists []. rewrite List.app_nil_r. reflexivity. }
      assert (Hexit : forall st', SocketClient.preserved st st' ->
                SocketClient.connected (SocketClient.final (SocketClient.loop_exit st' rest)) = false /\
                (exists read, frame :: rest =
                   (read ++ SocketClient.unread (SocketClient.loop_exit st' rest))%list) /\
                SocketClient.preserved st (SocketClient.final (SocketClient.loop_exit st' rest))).
      { intros st' Hp. simpl. split; [reflexivity |]. split; [exists [frame]; reflexivity |].
        destruct Hp as (P & F & D & M). repeat split; simpl; auto. }
      destruct frame as [message |]; [| apply Hexit, preserved_refl].
      destruct (negb (PyVal.truthy message)); [apply Hexit, preserved_refl |].
      destruct (handle_message_preserved st message) as [Hp Hc].
      destruct (SocketClient._handle_message st message) as [st' [e |]]; simpl in Hp, Hc.
      + apply Hexit, Hp.
      + destruct (IH st') as (C & [read R] & P). split; [exact C |].
        split; [exists (Some message :: read); simpl; rewrite <- R; reflexivity |].
        eapply preserved_trans; eassumption. }
  destruct (Hgen incoming st) as (C & R & P & F & D & M).
  repeat split; assumption.
Qed.

Lemma receiving_loop_invariants_witness :
  let st := {| SocketClient.connected := true;
               SocketClient._pending_requests := {[ "req-1" := 1%positive ]};
               SocketClient.futures := {[ 1%positive := SocketClient.FCancelled ]};
               SocketClient.on_data_callback := None;
               SocketClient.delivered := [] |} in
  let response := PyVal.VDict [ ("type", PyVal.VStr "response");
                                ("request_id", PyVal.VStr "req-1");
                                ("status", PyVal.VStr "error") ] in
  SocketClient.futures
    (SocketClient.final (SocketClient._receiving_loop st [Some response; None]))
    !! 1%positive = Some SocketClient.FCancelled.
Proof.
  intros st response.
  apply (proj1 (proj2 (proj2 (proj2 (proj2
           (receiving_loop_invariants st [Some response; None])))))
         1%positive SocketClient.FCancelled eq_refl eq_refl).
Defined.

(** X10. [disconnect] leaves no request hanging: every request in the
    pending table whose future was not done now has a future that is done,
    with the connection error of line 126; no future that was done changes,
    no other future is touched, the pending table is empty and the client is
    marked disconnected. *)
Theorem disconnect_fails_pending_requests (st : SocketClient.t) :
  let st' := SocketClient.disconnect st in
  SocketClient.connected st' = false /\
  SocketClient._pending_requests st' = ∅ /\
  (forall k fid f,
     SocketClient._pending_requests st !! k = Some fid ->
     SocketClient.futures st !! fid = Some f ->
     exists f', SocketClient.futures st' !! fid = Some f' /\
                SocketClient.done f' = true /\
                (SocketClient.done f = true -> f' = f) /\
                (SocketClient.done f = false ->
                 f' = SocketClient.FException (PyVal.VStr "连接已断开"))) /\
  (forall fid f,
     SocketClient.futures st !! fid = Some f ->
     (SocketClient.done f = true \/
      forall k, SocketClient._pending_requests st !! k <> Some fid) ->
     SocketClient.futures st' !! fid = Some f).
Proof.
  cbv zeta. split; [reflexivity |]. split; [reflexivity |]. split.
  - intros k fid f Hk Hf. unfold SocketClient.disconnect. simpl.
    rewrite map_lookup_imap, Hf. simpl.
    assert (Hin : fid ∈ (map_img (SocketClient._pending_requests st) : gset positive))
      by (apply elem_of_map_img; exists k; exact Hk).
    rewrite (bool_decide_eq_true_2 _ Hin). simpl.
    destruct (SocketClient.done f) eqn:Hd; simpl.
    + exists f. repeat split; auto. discriminate.
    + eexists. split; [reflexivity |]. split; [reflexivity |].
      split; [discriminate | reflexivity].
  - intros fid f Hf Hcase. unfold SocketClient.disconnect. simpl.
    rewrite map_lookup_imap, Hf. simpl. destruct Hcase as [Hd | Hno].
    + rewrite Hd. rewrite andb_false_r. reflexivity.
    + rewrite bool_decide_eq_false_2; [reflexivity |].
      intros Hin. apply elem_of_map_img in Hin as [k Hk]. exact (Hno k Hk).
Qed.

Lemma disconnect_fails_pending_requests_witness :
  let st := {| SocketClient.connected := true;
               SocketClient._pending_requests := {[ "req-1" := 1%positive ]};
               SocketClient.futures :=
                 {[ 1%positive := SocketClient.FPending;
                    2%positive := SocketClient.FPending ]};
               SocketClient.on_data_callback := None;
               SocketClient.delivered := [] |} in
  (exists f', SocketClient.futures (SocketClient.disconnect st) !! 1%positive = Some f' /\
              SocketClient.done f' = true /\
              (SocketClient.done SocketClient.FPending = true -> f' = SocketClient.FPending) /\
              (SocketClient.done SocketClient.FPending = false ->
               f' = SocketClient.FException (PyVal.VStr "连接已断开"))) /\
  SocketClient.futures (SocketClient.disconnect st) !! 2%positive = Some SocketClient.FPending.
Proof.
  intros st. split.
  - apply (proj1 (proj2 (proj2 (disconnect_fails_pending_requests st)))
             "req-1" 1%positive SocketClient.FPending eq_refl eq_refl).
  - apply (proj2 (proj2 (proj2 (disconnect_fails_pending_requests st)))
             2%positive SocketClient.FPending eq_refl).
    right. intros k Hk.
    destruct (decide (k = "req-1")) as [-> | Hne].
    + vm_compute in Hk. discriminate.
    + unfold st in Hk. simpl in Hk. rewrite lookup_singleton_ne in Hk by congruence.
      discriminate.
Defined.

(** *** LogWatcher: events *)

(** X11. Events that deliver nothing leave the watcher exactly as it was:
    an event for a path that does not end in [.log] or whose normalised path
    is not that of today's log file, an event while the file cannot be
    opened, and an event while the file is not longer than the recorded
    offset. In particular, after the file was truncated the watcher reads
    nothing until the file has grown past the old offset. *)
Theorem log_event_without_effect (rt : PyText.runtime) (self : LogWatcher.t)
    (fs : LogWatcher.filesystem) (today path : string) :
  (LogWatcher.endswith path ".log" = false ->
   LogWatcher._on_file_modified rt self fs today path = self) /\
  (OsPath.normpath path <> OsPath.normpath today ->
   LogWatcher._on_file_modified rt self fs today path = self) /\
  (LogWatcher.open_ fs (OsPath.normpath path) = None ->
   LogWatcher._on_file_modified rt self fs today path = self) /\
  (forall bytes,
     LogWatcher.open_ fs (OsPath.normpath path) = Some bytes ->
     (String.length bytes
      <= default 0%nat (LogWatcher.file_position self !! OsPath.normpath path))%nat ->
     LogWatcher._on_file_modified rt self fs today path = self).
Proof.
  unfold LogWatcher._on_file_modified.
  destruct (LogWatcher.endswith path ".log"); simpl.
  2: { repeat split; reflexivity. }
  destruct (String.eqb_spec (OsPath.normpath path) (OsPath.normpath today)) as [He | Hne];
    simpl.
  2: { repeat split; try reflexivity; discriminate. }
  unfold LogWatcher._read_new_lines.
  split; [discriminate |]. split; [contradiction |]. split.
  - intros ->. reflexivity.
  - intros bytes Hfs Hlen. rewrite Hfs.
    rewrite (read_text_past_end _ bytes Hlen). reflexivity.
Qed.

Lemma log_event_without_effect_witness :
  let rt := PyText.ascii_runtime in
  let today := "logs/app_2024-01-02.log" in
  let w := {| LogWatcher.log_dir := "logs";
              LogWatcher.file_position := {[ today := 100%nat ]};
              LogWatcher.callback_calls := [] |} in
  let fs : LogWatcher.filesystem :=
    fun p => if String.eqb p today
             then LogWatcher.Readable "2024-01-02 10:00:00.000 | INFO | a:b:1 | rotated"
             else LogWatcher.Missing in
  LogWatcher._on_file_modified rt w fs today "logs/./app_2024-01-02.log" = w /\
  LogWatcher._on_file_modified rt w fs today "logs/app_2024-01-01.log" = w.
Proof.
  intros rt today w fs. split.
  - apply (proj2 (proj2 (proj2
             (log_event_without_effect rt w fs today "logs/./app_2024-01-02.log")))
             "2024-01-02 10:00:00.000 | INFO | a:b:1 | rotated" eq_refl).
    vm_compute. lia.
  - apply (proj1 (proj2
             (log_event_without_effect rt w fs today "logs/app_2024-01-01.log"))).
    vm_compute. discriminate.
Defined.

Lemma parse_lines_entries (rt : PyText.runtime) (lines : list PyText.text)
    (e : LogWatcher.entry) :
  In e (LogWatcher.parse_lines rt lines) ->
  exists l, In l lines /\ LogWatcher.raw e = PyText.strip rt l /\
            LogWatcher.raw e <> [] /\
            LogWatcher._parse_log_line rt (PyText.strip rt l) = Some e.
Proof.
  induction lines as [| l rest IH]; simpl; [contradiction |].
  assert (Hrest : In e (LogWatcher.parse_lines rt rest) ->
                  exists l0, (l = l0 \/ In l0 rest) /\
                             LogWatcher.raw e = PyText.strip rt l0 /\
                             LogWatcher.raw e <> [] /\
                             LogWatcher._parse_log_line rt (PyText.strip rt l0) = Some e).
  { intros H. destruct (IH H) as (l0 & Hin & Hr). exists l0. tauto. }
  destruct (PyText.strip rt l) as [| c s] eqn:Hs; [exact Hrest |].
  destruct (LogWatcher._parse_log_line rt (c :: s)) as [p |] eqn:Hp; [| exact Hrest].
  intros [<- | Hin]; [| exact (Hrest Hin)].
  exists l. split; [left; reflexivity |].
  assert (Hraw : LogWatcher.raw p = c :: s).
  { unfold LogWatcher._parse_log_line in Hp.
    destruct (Re.match_ (LogWatcher.pattern rt) (c :: s)); [| discriminate].
    destruct (PyText.int_ rt _); [| discriminate].
    injection Hp as <-. reflexivity. }
  rewrite Hs, Hraw. repeat split; [discriminate | exact Hp].
Qed.

(** X12. The callback is never invoked with an empty batch, and every
    entry handed to it comes from a non-blank line of the text read by that
    event: its [raw] field is that line stripped of surrounding whitespace,
    and the entry is what the line parses to. Batches delivered earlier are
    kept as they were. *)
Theorem log_event_batches (rt : PyText.runtime) (self : LogWatcher.t)
    (fs : LogWatcher.filesystem) (today path : string) :
  exists new_batches,
    LogWatcher.callback_calls (LogWatcher._on_file_modified rt self fs today path)
      = (LogWatcher.callback_calls self ++ new_batches)%list /\
    (List.length new_batches <= 1)%nat /\
    forall batch, In batch new_batches ->
      batch <> [] /\
      exists bytes,
        LogWatcher.open_ fs (OsPath.normpath path) = Some bytes /\
        forall e, In e batch ->
          LogWatcher.raw e <> [] /\
          LogWatcher._parse_log_line rt (LogWatcher.raw e) = Some e /\
          exists l,
            In l (PyText.split 10
                    (PyText.read_text
                       (default 0%nat
                          (LogWatcher.file_position self !! OsPath.normpath path)) bytes)) /\
            LogWatcher.raw e = PyText.strip rt l.
Proof.
  assert (Hnone : exists new_batches : list (list LogWatcher.entry),
             LogWatcher.callback_calls self = (LogWatcher.callback_calls self ++ new_batches)%list /\
             (List.length new_batches <= 1)%nat /\
             forall batch, In batch new_batches ->
               batch <> [] /\
               exists bytes,
                 LogWatcher.open_ fs (OsPath.normpath path) = Some bytes /\
                 forall e, In e batch ->
                   LogWatcher.raw e <> [] /\
                   LogWatcher._parse_log_line rt (LogWatcher.raw e) = Some e /\
                   exists l,
                     In l (PyText.split 10
                             (PyText.read_text
                                (default 0%nat
                                   (LogWatcher.file_position self !! OsPath.normpath path))
                                bytes)) /\
                     LogWatcher.raw e = PyText.strip rt l).
  { exists []. rewrite List.app_nil_r. split; [reflexivity |]. split; [simpl; lia |].
    intros batch []. }
  unfold LogWatcher._on_file_modified.
  destruct (LogWatcher.endswith path ".log"); simpl; [| exact Hnone].
  destruct (String.eqb (OsPath.normpath path) (OsPath.normpath today)); simpl;
    [| exact Hnone].
  unfold LogWatcher._read_new_lines.
  destruct (LogWatcher.open_ fs (OsPath.normpath path)) as [bytes |] eqn:Hfs;
    [| exact Hnone].
  remember (PyText.read_text
              (default 0%nat (LogWatcher.file_position self !! OsPath.normpath path))
              bytes) as content eqn:Hcontent.
  destruct content as [| c0 content']; [exact Hnone |].
  destruct (LogWatcher.parse_lines rt (PyText.split 10 (c0 :: content')))
    as [| e0 es] eqn:Hparse; simpl.
  - exists []. rewrite List.app_nil_r. split; [reflexivity |]. split; [simpl; lia |].
    intros batch [].
  - exists [e0 :: es]. split; [reflexivity |]. split; [simpl; lia |].
    intros batch [<- | []]. split; [discriminate |].
    exists bytes. split; [reflexivity |].
    intros e He. rewrite <- Hparse in He.
    destruct (parse_lines_entries rt _ e He) as (l & Hin & Hraw & Hne & Hp).
    split; [exact Hne |]. split; [rewrite Hraw; exact Hp |].
    exists l. rewrite <- Hcontent. split; assumption.
Qed.

Lemma log_event_batches_witness :
  let rt := PyText.ascii_runtime in
  let path := "logs/app_2024-01-02.log" in
  let w := {| LogWatcher.log_dir := "logs";
              LogWatcher.file_position := ∅;
              LogWatcher.callback_calls := [] |} in
  let fs : LogWatcher.filesystem :=
    fun p => if String.eqb p path
             then LogWatcher.Readable "2024-01-02 10:00:00.000 | INFO | a:b:1 | up"
             else LogWatcher.Missing in
  exists new_batches,
    LogWatcher.callback_calls (LogWatcher._on_file_modified rt w fs path path)
      = (LogWatcher.callback_calls w ++ new_batches)%list /\
    forall batch, In batch new_batches -> batch <> [].
Proof.
  intros rt path w fs.
  destruct (log_event_batches rt w fs path path) as (nb & Hcalls & _ & Hb).
  exists nb. split; [exact Hcalls |]. intros batch Hin. exact (proj1 (Hb batch Hin)).
Defined.

Lemma text_split_app_sep (sep : N) (a b : PyText.text) :
  PyText.split sep (a ++ sep :: b)%list
  = (PyText.split sep a ++ PyText.split sep b)%list.
Proof.
  induction a as [| c r IH]; simpl.
  - rewrite N.eqb_refl. reflexivity.
  - destruct (c =? sep)%N.
    + rewrite IH. reflexivity.
    + rewrite IH. destruct (PyText.split sep r) as [| h t] eqn:E.
      * destruct (text_split_not_nil _ _ E).
      * reflexivity.
Qed.

Lemma parse_lines_app (rt : PyText.runtime) (l1 l2 : list PyText.text) :
  LogWatcher.parse_lines rt (l1 ++ l2)%list
  = (LogWatcher.parse_lines rt l1 ++ LogWatcher.parse_lines rt l2)%list.
Proof.
  induction l1 as [| l rest IH]; simpl; [reflexivity |].
  destruct (PyText.strip rt l); [exact IH |].
  destruct (LogWatcher._parse_log_line rt _); [| exact IH].
  simpl. rewrite IH. reflexivity.
Qed.

Lemma concat_batch (A : Type) (calls : list (list A)) (e : list A) :
  List.concat (calls ++ match e with [] => [] | _ => [e] end)%list
  = (List.concat calls ++ e)%list.
Proof.
  rewrite List.concat_app. destruct e; simpl; [reflexivity |].
  rewrite List.app_nil_r. reflexivity.
Qed.

Lemma plain_app (a b : list N) :
  PyText.plain (a ++ b) = (PyText.plain a && PyText.plain b)%bool.
Proof. unfold PyText.plain. apply List.forallb_app. Qed.

(** X13. What is delivered does not depend on how the writes are grouped
    into events, as long as the first group is plain ASCII without carriage
    returns and ends at a line end: an event after such a first write and
    then an event after a second write deliver, in order, the same entries as
    one event after both writes, and record the same offset. *)
Theorem log_delivery_independent_of_batching
    (rt : PyText.runtime) (self : LogWatcher.t) (fs1 fs2 : LogWatcher.filesystem)
    (today path text more : string) (head : list N) :
  LogWatcher.endswith path ".log" = true ->
  OsPath.normpath path = OsPath.normpath today ->
  LogWatcher.open_ fs1 (OsPath.normpath path) = Some text ->
  LogWatcher.open_ fs2 (OsPath.normpath path) = Some (text ++ more) ->
  let key := OsPath.normpath path in
  let last_pos := default 0%nat (LogWatcher.file_position self !! key) in
  (last_pos <= String.length text)%nat ->
  List.skipn last_pos (PyText.codes text) = (head ++ [10%N])%list ->
  PyText.plain head = true ->
  let two := LogWatcher._on_file_modified rt
               (LogWatcher._on_file_modified rt self fs1 today path) fs2 today path in
  let one := LogWatcher._on_file_modified rt self fs2 today path in
  List.concat (LogWatcher.callback_calls two) = List.concat (LogWatcher.callback_calls one) /\
  LogWatcher.file_position two !! key = LogWatcher.file_position one !! key.
Proof.
  intros Hlog Hsame Hfs1 Hfs2 key last_pos Hle Hrest Hplain two one.
  set (appended := PyText.read_text 0 more).
  assert (Hplain' : PyText.plain (head ++ [10%N]) = true).
  { rewrite plain_app, Hplain. reflexivity. }
  assert (Hc1 : PyText.read_text last_pos text = (head ++ [10%N])%list).
  { unfold PyText.read_text. rewrite Hrest. apply plain_read_all. exact Hplain'. }
  assert (Hc : PyText.read_text last_pos (text ++ more) = (head ++ 10%N :: appended)%list).
  { unfold PyText.read_text. rewrite skipn_codes_app by exact Hle.
    rewrite Hrest, plain_read by exact Hplain'.
    rewrite <- List.app_assoc. reflexivity. }
  assert (Hlen : (last_pos + List.length (head ++ [10%N]) = String.length text)%nat).
  { rewrite <- Hrest, List.length_skipn, codes_length. lia. }
  pose proof (on_file_modified_today rt self fs1 today path text Hlog Hsame Hfs1) as H1.
  pose proof (on_file_modified_today rt self fs2 today path (text ++ more) Hlog Hsame Hfs2)
    as Hone.
  cbv zeta in H1, Hone. fold key last_pos in H1, Hone.
  rewrite Hc1 in H1. rewrite Hc in Hone.
  rewrite text_split_app_sep, parse_lines_app in Hone.
  replace (head ++ [10%N])%list with (head ++ 10%N :: [])%list in H1 by reflexivity.
  rewrite text_split_app_sep, parse_lines_app in H1.
  change (LogWatcher.parse_lines rt (PyText.split 10 [])) with (@nil LogWatcher.entry) in H1.
  rewrite List.app_nil_r in H1.
  set (w1 := LogWatcher._on_file_modified rt self fs1 today path) in *.
  assert (Hpos1 : LogWatcher.file_position w1 !! key = Some (String.length text)).
  { rewrite H1. destruct head; simpl; rewrite lookup_insert_eq; f_equal;
      simpl in Hlen; lia. }
  pose proof (on_file_modified_today rt w1 fs2 today path (text ++ more) Hlog Hsame Hfs2)
    as H2.
  cbv zeta in H2. fold key in H2.
  rewrite Hpos1 in H2. simpl default in H2. rewrite read_text_app in H2. fold appended in H2.
  subst two one. rewrite H2, Hone. simpl. split.
  - rewrite !concat_batch. rewrite H1. simpl. rewrite concat_batch.
    rewrite List.app_assoc. reflexivity.
  - assert (Htotal : (last_pos + List.length (head ++ 10%N :: appended)
                      = String.length text + List.length appended)%nat).
    { rewrite <- Hlen, !List.length_app. simpl. lia. }
    replace (match (head ++ 10%N :: appended)%list with
             | [] => LogWatcher.file_position self
             | _ :: _ =>
                 <[ key := (last_pos + List.length (head ++ 10%N :: appended))%nat ]>
                   (LogWatcher.file_position self)
             end)
      with (<[ key := (String.length text + List.length appended)%nat ]>
              (LogWatcher.file_position self))
      by (rewrite <- Htotal; destruct head; reflexivity).
    rewrite lookup_insert_eq.
    destruct appended as [| a0 appended'].
    + rewrite Hpos1. f_equal. simpl. lia.
    + rewrite lookup_insert_eq. reflexivity.
Qed.

Lemma log_delivery_independent_of_batching_witness :
  let rt := PyText.ascii_runtime in
  let path := "logs/app_2024-01-02.log" in
  let line1 := "2024-01-02 10:00:00.000 | INFO | a:b:1 | up" in
  let text := line1 ++ String "010" "" in
  let more := "2024-01-02 10:00:01.000 | ERROR | a:b:2 | 连接已断开" ++ String "010" "" in
  let w := {| LogWatcher.log_dir := "logs";
              LogWatcher.file_position := ∅;
              LogWatcher.callback_calls := [] |} in
  let fs1 : LogWatcher.filesystem :=
    fun p => if String.eqb p path then LogWatcher.Readable text else LogWatcher.Missing in
  let fs2 : LogWatcher.filesystem :=
    fun p => if String.eqb p path then LogWatcher.Readable (text ++ more)
             else LogWatcher.Missing in
  List.concat (LogWatcher.callback_calls
                 (LogWatcher._on_file_modified rt
                    (LogWatcher._on_file_modified rt w fs1 path path) fs2 path path))
  = List.concat (LogWatcher.callback_calls (LogWatcher._on_file_modified rt w fs2 path path)).
Proof.
  intros rt path line1 text more w fs1 fs2.
  apply (proj1 (log_delivery_independent_of_batching rt w fs1 fs2 path path text more
                  (PyText.codes line1)
                  eq_refl eq_refl eq_refl eq_refl ltac:(vm_compute; lia)
                  ltac:(vm_compute; reflexivity) ltac:(vm_compute; reflexivity))).
Defined.

(** X14. After [start] on an existing log file its size in bytes is the
    recorded offset, so what the file already held is never delivered: the
    first modification event that passes the handler's filter parses only
    the bytes appended since [start]. It advances the offset by the number of
    characters appended, which is at most the number of bytes appended and
    reaches the new end of the file when these are ASCII without carriage
    returns. *)
Theorem start_skips_existing_content
    (rt : PyText.runtime) (self : LogWatcher.t) (fs fs' : LogWatcher.filesystem)
    (today text more : string) :
  LogWatcher.endswith today ".log" = true ->
  String.prefix (LogWatcher.log_dir self) today = true ->
  fs today = LogWatcher.Readable text ->
  LogWatcher.open_ fs' (OsPath.normpath today) = Some (text ++ more) ->
  let key := OsPath.normpath today in
  let started := LogWatcher.start self fs today in
  let after := LogWatcher.on_modified rt started fs' today false today in
  let appended := PyText.read_text 0 more in
  LogWatcher.file_position started !! key = Some (String.length text) /\
  LogWatcher.callback_calls after =
    (LogWatcher.callback_calls self
     ++ match LogWatcher.parse_lines rt (PyText.split 10 appended) with
        | [] => []
        | batch => [batch]
        end)%list /\
  (more <> "" ->
   LogWatcher.file_position after !! key
   = Some (String.length text + List.length appended)%nat) /\
  (List.length appended <= String.length more)%nat /\
  (PyText.plain (PyText.codes more) = true ->
   (String.length text + List.length appended)%nat = String.length (text ++ more)).
Proof.
  intros Hlog Hdir Hfs Hfs' key started after appended.
  assert (Hstart : started =
            {| LogWatcher.log_dir := LogWatcher.log_dir self;
               LogWatcher.file_position :=
                 <[ key := String.length text ]> (LogWatcher.file_position self);
               LogWatcher.callback_calls := LogWatcher.callback_calls self |}).
  { subst started. unfold LogWatcher.start, LogWatcher.exists_, LogWatcher.getsize.
    rewrite Hfs. reflexivity. }
  assert (Hpos : LogWatcher.file_position started !! key = Some (String.length text)).
  { rewrite Hstart. simpl. apply lookup_insert_eq. }
  split; [exact Hpos |].
  assert (Hafter : after = LogWatcher._on_file_modified rt started fs' today today).
  { subst after. unfold LogWatcher.on_modified. rewrite Hlog.
    replace (LogWatcher.log_dir started) with (LogWatcher.log_dir self)
      by (rewrite Hstart; reflexivity).
    rewrite Hdir. reflexivity. }
  rewrite Hafter.
  rewrite (on_file_modified_today rt started fs' today today (text ++ more) Hlog eq_refl Hfs').
  fold key. rewrite Hpos. simpl default. rewrite read_text_app. fold appended. simpl.
  split; [| split; [| split]].
  - rewrite Hstart. simpl.
    destruct (LogWatcher.parse_lines rt (PyText.split 10 appended)); reflexivity.
  - intros Hm.
    assert (Hne : appended <> []).
    { apply read_text_nonempty. destruct more; [contradiction | simpl; lia]. }
    destruct appended; [contradiction |]. apply lookup_insert_eq.
  - pose proof (read_text_length 0 more) as Hl. fold appended in Hl. lia.
  - intros Hplain. rewrite length_app. f_equal. subst appended. unfold PyText.read_text.
    simpl List.skipn. rewrite plain_read_all by exact Hplain. apply codes_length.
Qed.

Lemma start_skips_existing_content_witness :
  let rt := PyText.ascii_runtime in
  let today := "logs/app_2024-01-02.log" in
  let text := "2024-01-02 09:00:00.000 | INFO | a:b:1 | old" ++ String "010" "" in
  let more := "2024-01-02 10:00:00.000 | INFO | a:b:2 | new" ++ String "010" "" in
  let w := {| LogWatcher.log_dir := "logs";
              LogWatcher.file_position := ∅;
              LogWatcher.callback_calls := [] |} in
  let fs : LogWatcher.filesystem :=
    fun p => if String.eqb p today then LogWatcher.Readable text else LogWatcher.Missing in
  let fs' : LogWatcher.filesystem :=
    fun p => if String.eqb p today then LogWatcher.Readable (text ++ more)
             else LogWatcher.Missing in
  List.map (List.map LogWatcher.message)
    (LogWatcher.callback_calls
       (LogWatcher.on_modified rt (LogWatcher.start w fs today) fs' today false today))
  = [[PyText.codes "new"]].
Proof.
  intros rt today text more w fs fs'.
  rewrite (proj1 (proj2 (start_skips_existing_content rt w fs fs' today text more
                           eq_refl eq_refl eq_refl eq_refl))).
  vm_compute. reflexivity.
Defined.

(** X15. An event never moves a recorded offset backwards, never moves the
    offset of the file it reads past the end of that file, and never touches
    the offset recorded under any path other than the normalised path of the
    event. *)
Theorem log_offsets_never_decrease (rt : PyText.runtime) (self : LogWatcher.t)
    (fs : LogWatcher.filesystem) (today path : string) :
  let key := OsPath.normpath path in
  let after := LogWatcher._on_file_modified rt self fs today path in
  (forall p : string,
     (default 0%nat (LogWatcher.file_position self !! p)
      <= default 0%nat (LogWatcher.file_position after !! p))%nat) /\
  (forall bytes,
     LogWatcher.open_ fs key = Some bytes ->
     (default 0%nat (LogWatcher.file_position self !! key) <= String.length bytes)%nat ->
     (default 0%nat (LogWatcher.file_position after !! key) <= String.length bytes)%nat) /\
  (forall p : string, p <> key ->
     LogWatcher.file_position after !! p = LogWatcher.file_position self !! p).
Proof.
  cbv zeta.
  assert (Hsame : (forall p : string,
             (default 0%nat (LogWatcher.file_position self !! p)
              <= default 0%nat (LogWatcher.file_position self !! p))%nat) /\
          (forall bytes,
             LogWatcher.open_ fs (OsPath.normpath path) = Some bytes ->
             (default 0%nat (LogWatcher.file_position self !! OsPath.normpath path)
              <= String.length bytes)%nat ->
             (default 0%nat (LogWatcher.file_position self !! OsPath.normpath path)
              <= String.length bytes)%nat) /\
          (forall p : string, p <> OsPath.normpath path ->
             LogWatcher.file_position self !! p = LogWatcher.file_position self !! p))
    by (repeat split; intros; (lia || assumption || reflexivity)).
  unfold LogWatcher._on_file_modified.
  destruct (LogWatcher.endswith path ".log"); simpl; [| exact Hsame].
  destruct (String.eqb (OsPath.normpath path) (OsPath.normpath today)); simpl;
    [| exact Hsame].
  unfold LogWatcher._read_new_lines. rewrite normpath_idempotent.
  set (key := OsPath.normpath path) in *.
  set (last_pos := default 0%nat (LogWatcher.file_position self !! key)) in *.
  destruct (LogWatcher.open_ fs key) as [bytes |] eqn:Hfs; [| exact Hsame].
  pose proof (read_text_length last_pos bytes) as Hlen.
  destruct (PyText.read_text last_pos bytes) as [| c0 content'] eqn:Hc; [exact Hsame |].
  set (n := List.length (c0 :: content')) in *.
  assert (Hins :
            (forall p : string,
               (default 0%nat (LogWatcher.file_position self !! p)
                <= default 0%nat
                     (<[ key := (last_pos + n)%nat ]> (LogWatcher.file_position self) !! p))%nat) /\
            (forall bytes0,
               Some bytes = Some bytes0 ->
               (last_pos <= String.length bytes0)%nat ->
               (default 0%nat
                  (<[ key := (last_pos + n)%nat ]> (LogWatcher.file_position self) !! key)
                <= String.length bytes0)%nat) /\
            (forall p : string, p <> key ->
               <[ key := (last_pos + n)%nat ]> (LogWatcher.file_position self) !! p
               = LogWatcher.file_position self !! p)).
  { split; [| split].
    - intros p. destruct (decide (key = p)) as [<- | Hne].
      + rewrite lookup_insert_eq. simpl. fold last_pos. lia.
      + rewrite lookup_insert_ne by exact Hne. lia.
    - intros bytes0 [= <-] Hle. rewrite lookup_insert_eq. simpl. lia.
    - intros p Hne. apply lookup_insert_ne. congruence. }
  destruct (LogWatcher.parse_lines rt _); simpl; exact Hins.
Qed.

Lemma log_offsets_never_decrease_witness :
  let rt := PyText.ascii_runtime in
  let today := "logs/app_2024-01-02.log" in
  let w := {| LogWatcher.log_dir := "logs";
              LogWatcher.file_position := {[ "logs/app_2024-01-01.log" := 7%nat ]};
              LogWatcher.callback_calls := [] |} in
  let fs : LogWatcher.filesystem :=
    fun p => if String.eqb p today then LogWatcher.Readable "行" else LogWatcher.Missing in
  let after := LogWatcher._on_file_modified rt w fs today "logs//app_2024-01-02.log" in
  LogWatcher.file_position after !! "logs/app_2024-01-01.log" = Some 7%nat /\
  (default 0%nat (LogWatcher.file_position after !! today) <= 3)%nat.
Proof.
  intros rt today w fs after.
  pose proof (log_offsets_never_decrease rt w fs today "logs//app_2024-01-02.log") as H.
  cbv zeta in H. destruct H as (_ & Hend & Hother). subst after. split.
  - rewrite (Hother "logs/app_2024-01-01.log") by (vm_compute; discriminate). reflexivity.
  - apply (Hend "行" eq_refl). vm_compute. lia.
Defined.

(** *** WebSocketManager: broadcasting *)

Lemma for_each_disconnect (self : WebSocketManager.t)
    (disconnected : gset WebSocketManager.WebSocket)
    (step : WebSocketManager.t -> WebSocketManager.WebSocket -> Py.result WebSocketManager.t) :
  (forall st c, step st c =
     Py.Ok {| WebSocketManager.active_connections :=
                WebSocketManager.active_connections st ∖ {[ c ]};
              WebSocketManager.log_subscribers :=
                WebSocketManager.log_subscribers st ∖ {[ c ]};
              WebSocketManager.log_monitoring_enabled :=
                WebSocketManager.log_monitoring_enabled st |}) ->
  WebSocketManager.for_each disconnected step self =
  Py.Ok {| WebSocketManager.active_connections :=
             WebSocketManager.active_connections self ∖ disconnected;
           WebSocketManager.log_subscribers :=
             WebSocketManager.log_subscribers self ∖ disconnected;
           WebSocketManager.log_monitoring_enabled :=
             WebSocketManager.log_monitoring_enabled self |}.
Proof.
  intros Hstep. unfold WebSocketManager.for_each.
  apply (set_fold_ind_L
           (fun acc (X : gset WebSocketManager.WebSocket) =>
              acc = Py.Ok {| WebSocketManager.active_connections :=
                               WebSocketManager.active_connections self ∖ X;
                             WebSocketManager.log_subscribers :=
                               WebSocketManager.log_subscribers self ∖ X;
                             WebSocketManager.log_monitoring_enabled :=
                               WebSocketManager.log_monitoring_enabled self |})).
  - destruct self as [a s m]. simpl. f_equal. f_equal; apply leibniz_equiv; set_solver.
  - intros c X acc Hc ->. simpl. rewrite Hstep. simpl.
    f_equal. f_equal; apply leibniz_equiv; set_solver.
Qed.

Lemma broadcast_log_step (st : WebSocketManager.t) (c : WebSocketManager.WebSocket) :
  (subs <- WebSocketManager.discard c (WebSocketManager.log_subscribers st) ;;;
   WebSocketManager.disconnect
     {| WebSocketManager.active_connections := WebSocketManager.active_connections st;
        WebSocketManager.log_subscribers := subs;
        WebSocketManager.log_monitoring_enabled := WebSocketManager.log_monitoring_enabled st |}
     c)
  = Py.Ok {| WebSocketManager.active_connections :=
               WebSocketManager.active_connections st ∖ {[ c ]};
             WebSocketManager.log_subscribers :=
               WebSocketManager.log_subscribers st ∖ {[ c ]};
             WebSocketManager.log_monitoring_enabled :=
               WebSocketManager.log_monitoring_enabled st |}.
Proof.
  unfold WebSocketManager.discard. simpl. rewrite disconnect_sets. simpl.
  f_equal. f_equal. apply leibniz_equiv. set_solver.
Qed.


Lemma filter_elements (P : WebSocketManager.WebSocket -> Prop) `{!forall c, Decision (P c)}
    (X : gset WebSocketManager.WebSocket) :
  list_to_set (filter P (elements X)) = filter P X.
Proof.
  apply set_eq. intros c.
  rewrite elem_of_list_to_set, list_elem_of_filter, elem_of_elements, elem_of_filter.
  reflexivity.
Qed.

(** Without other tasks the loop visits every socket and sorts them by the
    outcome of their send. *)
Lemma send_loop_alone (live : WebSocketManager.t -> gset WebSocketManager.WebSocket)
    (fails : WebSocketManager.WebSocket -> bool)
    (others : WebSocketManager.WebSocket -> list WebSocketManager.operation)
    (todo : list WebSocketManager.WebSocket) (self : WebSocketManager.t)
    (disconnected received : gset WebSocketManager.WebSocket) :
  (forall c, c ∈ todo -> others c = []) ->
  WebSocketManager.send_loop live (size (live self)) fails others todo self
    disconnected received
  = WebSocketManager.Exhausted self
      (list_to_set (filter (fun c => fails c = true) todo) ∪ disconnected)
      (list_to_set (filter (fun c => fails c = false) todo) ∪ received).
Proof.
  revert disconnected received.
  induction todo as [| c rest IH]; intros disconnected received Hquiet.
  - simpl. f_equal; apply leibniz_equiv; set_solver.
  - simpl. rewrite (Hquiet c) by (left). simpl. rewrite Nat.eqb_refl. simpl.
    rewrite IH by (intros c' Hc'; apply Hquiet; right; exact Hc').
    destruct (fails c) eqn:Hf.
    + rewrite filter_cons_True by exact Hf.
      rewrite filter_cons_False by (rewrite Hf; discriminate).
      f_equal; apply leibniz_equiv; set_solver.
    + rewrite filter_cons_False by (rewrite Hf; discriminate).
      rewrite filter_cons_True by exact Hf.
      f_equal; apply leibniz_equiv; set_solver.
Qed.



(** Without other tasks, [broadcast_run] and [broadcast_log_run] are
    [broadcast] and [broadcast_log]. *)
Lemma broadcast_run_alone (self : WebSocketManager.t) (message_str : Py.result string)
    (fails : WebSocketManager.WebSocket -> bool)
    (others : WebSocketManager.WebSocket -> list WebSocketManager.operation) :
  (forall c, c ∈ WebSocketManager.active_connections self -> others c = []) ->
  WebSocketManager.broadcast_run self message_str fails others
  = match WebSocketManager.broadcast self message_str fails with
    | Py.Ok (self', received) => WebSocketManager.Returned self' received
    | Py.Raise e => WebSocketManager.Raised e
    end.
Proof.
  intros Hquiet. unfold WebSocketManager.broadcast_run, WebSocketManager.broadcast.
  destruct (decide (WebSocketManager.active_connections self = ∅)); [reflexivity |].
  destruct message_str as [text | e]; [| reflexivity].
  rewrite send_loop_alone
    by (intros c Hc; apply Hquiet; apply elem_of_elements; exact Hc).
  rewrite !filter_elements. simpl.
  replace (filter (fun c => fails c = true) (WebSocketManager.active_connections self) ∪ ∅)
    with (filter (fun c => fails c = true) (WebSocketManager.active_connections self))
    by (apply leibniz_equiv; set_solver).
  replace (filter (fun c => fails c = false) (WebSocketManager.active_connections self) ∪ ∅)
    with (filter (fun c => fails c = false) (WebSocketManager.active_connections self))
    by (apply leibniz_equiv; set_solver).
  destruct (WebSocketManager.for_each _ WebSocketManager.disconnect self); reflexivity.
Qed.

Lemma broadcast_log_run_alone (self : WebSocketManager.t) (message_str : Py.result string)
    (fails : WebSocketManager.WebSocket -> bool)
    (others : WebSocketManager.WebSocket -> list WebSocketManager.operation) :
  (forall c, c ∈ WebSocketManager.log_subscribers self -> others c = []) ->
  WebSocketManager.broadcast_log_run self message_str fails others
  = match WebSocketManager.broadcast_log self message_str fails with
    | Py.Ok (self', received) => WebSocketManager.Returned self' received
    | Py.Raise e => WebSocketManager.Raised e
    end.
Proof.
  intros Hquiet. unfold WebSocketManager.broadcast_log_run, WebSocketManager.broadcast_log.
  destruct (negb (WebSocketManager.log_monitoring_enabled self)
            || bool_decide (WebSocketManager.log_subscribers self = ∅))%bool;
    [reflexivity |].
  destruct message_str as [text | e]; [| reflexivity].
  rewrite send_loop_alone
    by (intros c Hc; apply Hquiet; apply elem_of_elements; exact Hc).
  rewrite !filter_elements. simpl.
  replace (filter (fun c => fails c = true) (WebSocketManager.log_subscribers self) ∪ ∅)
    with (filter (fun c => fails c = true) (WebSocketManager.log_subscribers self))
    by (apply leibniz_equiv; set_solver).
  replace (filter (fun c => fails c = false) (WebSocketManager.log_subscribers self) ∪ ∅)
    with (filter (fun c => fails c = false) (WebSocketManager.log_subscribers self))
    by (apply leibniz_equiv; set_solver).
  destruct (WebSocketManager.for_each _ _ self); reflexivity.
Qed.





(** X18. The manager keeps its log subscribers among its active connections
    through [connect], [disconnect], [unsubscribe_logs], [broadcast] and
    [broadcast_log]; [subscribe_logs] keeps them there only for a socket that
    is connected, since it does not check: subscribing a socket that is not
    an active connection leaves a subscriber that [broadcast_log] will address. *)
Theorem subscribers_stay_connected
    (self : WebSocketManager.t) (ws : WebSocketManager.WebSocket)
    (message_str : Py.result string) (fails : WebSocketManager.WebSocket -> bool) :
  WebSocketManager.log_subscribers self ⊆ WebSocketManager.active_connections self ->
  (WebSocketManager.log_subscribers (WebSocketManager.connect self ws)
     ⊆ WebSocketManager.active_connections (WebSocketManager.connect self ws)) /\
  (forall self', WebSocketManager.disconnect self ws = Py.Ok self' ->
     WebSocketManager.log_subscribers self' ⊆ WebSocketManager.active_connections self') /\
  (forall self', WebSocketManager.unsubscribe_logs self ws = Py.Ok self' ->
     WebSocketManager.log_subscribers self' ⊆ WebSocketManager.active_connections self') /\
  (forall self' received,
     WebSocketManager.broadcast self message_str fails = Py.Ok (self', received) ->
     WebSocketManager.log_subscribers self' ⊆ WebSocketManager.active_connections self') /\
  (forall self' received,
     WebSocketManager.broadcast_log self message_str fails = Py.Ok (self', received) ->
     WebSocketManager.log_subscribers self' ⊆ WebSocketManager.active_connections self') /\
  (WebSocketManager.log_subscribers (WebSocketManager.subscribe_logs self ws)
     ⊆ WebSocketManager.active_connections (WebSocketManager.subscribe_logs self ws)
   <-> ws ∈ WebSocketManager.active_connections self).
Proof.
  intros Hinv. repeat split.
  - simpl. set_solver.
  - intros self'. rewrite disconnect_sets. intros [= <-]. simpl. set_solver.
  - intros self'. unfold WebSocketManager.unsubscribe_logs, WebSocketManager.discard. simpl.
    intros [= <-]. simpl. set_solver.
  - intros self' received. unfold WebSocketManager.broadcast.
    destruct (decide (WebSocketManager.active_connections self = ∅)).
    + intros [= <- _]. exact Hinv.
    + destruct message_str as [text | e]; simpl; [| discriminate].
      rewrite (for_each_disconnect self _ _ disconnect_sets). simpl.
      intros [= <- _]. simpl. set_solver.
  - intros self' received. unfold WebSocketManager.broadcast_log.
    destruct (negb (WebSocketManager.log_monitoring_enabled self)
              || bool_decide (WebSocketManager.log_subscribers self = ∅))%bool.
    + intros [= <- _]. exact Hinv.
    + destruct message_str as [text | e]; simpl; [| discriminate].
      rewrite (for_each_disconnect self _ _ broadcast_log_step). simpl.
      intros [= <- _]. simpl. set_solver.
  - simpl. set_solver.
  - simpl. set_solver.
Qed.

Lemma subscribers_stay_connected_witness :
  let self := {| WebSocketManager.active_connections := {[ 1%positive ]};
                 WebSocketManager.log_subscribers := {[ 1%positive ]};
                 WebSocketManager.log_monitoring_enabled := true |} in
  ~ (WebSocketManager.log_subscribers (WebSocketManager.subscribe_logs self 2%positive)
       ⊆ WebSocketManager.active_connections (WebSocketManager.subscribe_logs self 2%positive)).
Proof.
  intros self H.
  assert (Hinv : WebSocketManager.log_subscribers self ⊆ WebSocketManager.active_connections self)
    by (simpl; set_solver).
  pose proof (proj1 (proj2 (proj2 (proj2 (proj2 (proj2
           (subscribers_stay_connected self 2%positive (Py.Ok "{}") (fun _ => false) Hinv))))))
           H) as Hin.
  unfold self in Hin. simpl in Hin.
  apply (elem_of_singleton_1 (C := gset positive) 2%positive 1%positive) in Hin.
  clear H. rename Hin into H.
  discriminate H.
Defined.

(** *** TqGateway: symbols and exchanges *)

Lemma upper_ascii_idem (c : ascii) :
  PyStr.upper_ascii (PyStr.upper_ascii c) = PyStr.upper_ascii c.
Proof. destruct c as [[] [] [] [] [] [] [] []]; reflexivity. Qed.

Lemma upper_idem (s : string) : PyStr.upper (PyStr.upper s) = PyStr.upper s.
Proof.
  induction s as [| c r IH]; simpl; [reflexivity |].
  rewrite upper_ascii_idem, IH. reflexivity.
Qed.

Lemma contains_app_sep (sep : ascii) (a b : string) :
  PyStr.contains sep (a ++ String sep b) = true.
Proof.
  induction a as [| c r IH].
  - change ("" ++ String sep b) with (String sep b). simpl.
    rewrite Ascii.eqb_refl. reflexivity.
  - rewrite app_cons. simpl. destruct (Ascii.eqb c sep); [reflexivity | exact IH].
Qed.

Lemma app_sep_not_empty (sep : ascii) (a b : string) :
  String.eqb (a ++ String sep b) "" = false.
Proof. destruct a; reflexivity. Qed.

Lemma format_symbol_exchange_first (e i : string) :
  PyStr.contains "." e = false -> PyStr.contains "." i = false ->
  TqGateway.in_exchange_map (PyStr.upper e) = true ->
  TqGateway._format_symbol (e ++ String "." i) = Some (e ++ String "." i).
Proof.
  intros He Hi Hk. unfold TqGateway._format_symbol.
  rewrite app_sep_not_empty, contains_app_sep, (split_join2 _ _ _ He Hi), Hk. reflexivity.
Qed.

(** X19. [_format_symbol] is idempotent: whatever it returns is a symbol
    that it returns unchanged. *)
Theorem format_symbol_idempotent (symbol r : string) :
  TqGateway._format_symbol symbol = Some r ->
  TqGateway._format_symbol r = Some r.
Proof.
  intros H. pose proof H as H0. unfold TqGateway._format_symbol in H.
  destruct (String.eqb symbol ""); [discriminate |].
  destruct (PyStr.contains "." symbol) eqn:Hdot.
  2: { injection H as <-. exact H0. }
  destruct (PyStr.split "." symbol) as [| p0 [| p1 [| p2 rest]]] eqn:Hsplit;
    try discriminate.
  destruct (TqGateway.in_exchange_map (PyStr.upper p0)).
  { injection H as <-. exact H0. }
  destruct (TqGateway.in_exchange_map (PyStr.upper p1)) eqn:H1; [| discriminate].
  injection H as <-.
  destruct (split_two _ _ _ _ Hsplit) as (_ & Hd0 & Hd1).
  change (PyStr.upper p1 ++ "." ++ p0) with (PyStr.upper p1 ++ String "." p0).
  apply format_symbol_exchange_first.
  - rewrite upper_contains_dot. exact Hd1.
  - exact Hd0.
  - rewrite upper_idem. exact H1.
Qed.

Lemma format_symbol_idempotent_witness :
  TqGateway._format_symbol "SHFE.rb2505" = Some "SHFE.rb2505".
Proof. apply (format_symbol_idempotent "rb2505.shfe"). reflexivity. Defined.

(** X20. The two spellings of a contract give the same key: for an ASCII
    instrument [i] that is not itself an exchange code and a part [e] that
    upper-cases to a known exchange code, both [i.e] and [E.i], with [E] the
    upper-cased [e], format to [E.i]. *)
Theorem symbol_spellings_agree (i e : string) :
  PyStr.isascii i = true ->
  PyStr.contains "." i = false ->
  PyStr.contains "." e = false ->
  TqGateway.known_exchange (PyStr.upper e) ->
  ~ TqGateway.known_exchange (PyStr.upper i) ->
  TqGateway._format_symbol (i ++ "." ++ e) = Some (PyStr.upper e ++ "." ++ i) /\
  TqGateway._format_symbol (PyStr.upper e ++ "." ++ i) = Some (PyStr.upper e ++ "." ++ i).
Proof.
  intros _ Hi He Hk Hn.
  apply in_exchange_map_known in Hk. apply in_exchange_map_unknown in Hn.
  split.
  - change (i ++ "." ++ e) with (i ++ String "." e). unfold TqGateway._format_symbol.
    rewrite app_sep_not_empty, contains_app_sep, (split_join2 _ _ _ Hi He), Hn, Hk.
    reflexivity.
  - change (PyStr.upper e ++ "." ++ i) with (PyStr.upper e ++ String "." i).
    apply format_symbol_exchange_first.
    + rewrite upper_contains_dot. exact He.
    + exact Hi.
    + rewrite upper_idem. exact Hk.
Qed.

Lemma symbol_spellings_agree_witness :
  TqGateway._format_symbol "rb2505.shfe" = Some "SHFE.rb2505" /\
  TqGateway._format_symbol "SHFE.rb2505" = Some "SHFE.rb2505".
Proof.
  apply (symbol_spellings_agree "rb2505" "shfe"); try reflexivity.
  - apply in_exchange_map_known. reflexivity.
  - apply in_exchange_map_unknown. reflexivity.
Defined.

Lemma parse_exchange_known (code : string) :
  TqGateway._parse_exchange code <> TqGateway.NONE <->
  TqGateway.in_exchange_map (PyStr.upper code) = true.
Proof.
  unfold TqGateway._parse_exchange, TqGateway.in_exchange_map, TqGateway._init_exchange_map.
  cbn -[String.eqb].
  repeat match goal with
         | |- context [String.eqb ?k (PyStr.upper code)] =>
             destruct (String.eqb k (PyStr.upper code))
         end; simpl; split; intros H; try reflexivity; try discriminate; try congruence.
Qed.

Lemma known_exchange_dot_free (code : string) :
  TqGateway.in_exchange_map code = true -> PyStr.contains "." code = false.
Proof.
  intros H. apply in_exchange_map_known in H. simpl in H.
  repeat (destruct H as [<- | H]; [reflexivity |]). destruct H.
Qed.

(** X21. Conversions that take the exchange from the part before the dot
    always find one for a dotted symbol that [_format_symbol] returned: the
    symbol is that exchange part, a dot and the instrument part, and the
    exchange part parses to a known exchange. [query_contracts] instead
    parses the whole symbol, so every dotted symbol gets the exchange
    [NONE] there. *)
Theorem exchange_of_formatted_symbol (symbol r : string) :
  (TqGateway._format_symbol symbol = Some r ->
   PyStr.contains "." r = true ->
   r = TqGateway.exchange_id_of r ++ "." ++ TqGateway.instrument_id_of r /\
   TqGateway._parse_exchange (TqGateway.exchange_id_of r) <> TqGateway.NONE) /\
  (PyStr.contains "." symbol = true ->
   TqGateway.contract_exchange symbol = TqGateway.NONE).
Proof.
  split.
  - intros H Hr.
    assert (Hshape : exists p0 p1, PyStr.split "." r = [p0; p1] /\
                       TqGateway.in_exchange_map (PyStr.upper p0) = true).
    { unfold TqGateway._format_symbol in H.
      destruct (String.eqb symbol ""); [discriminate |].
      destruct (PyStr.contains "." symbol) eqn:Hdot.
      2: { injection H as <-. congruence. }
      destruct (PyStr.split "." symbol) as [| p0 [| p1 [| p2 rest]]] eqn:Hsplit;
        try discriminate.
      destruct (TqGateway.in_exchange_map (PyStr.upper p0)) eqn:H0.
      { injection H as <-. exists p0, p1. split; assumption. }
      destruct (TqGateway.in_exchange_map (PyStr.upper p1)) eqn:H1; [| discriminate].
      injection H as <-.
      destruct (split_two _ _ _ _ Hsplit) as (_ & Hd0 & Hd1).
      exists (PyStr.upper p1), p0. split.
      - change (PyStr.upper p1 ++ "." ++ p0) with (PyStr.upper p1 ++ String "." p0).
        apply split_join2; [rewrite upper_contains_dot; exact Hd1 | exact Hd0].
      - rewrite upper_idem. exact H1. }
    destruct Hshape as (p0 & p1 & Hsplit & Hk).
    unfold TqGateway.exchange_id_of, TqGateway.instrument_id_of, TqGateway.part.
    rewrite Hr, Hsplit. simpl. split.
    + exact (proj1 (split_two _ _ _ _ Hsplit)).
    + apply parse_exchange_known. exact Hk.
  - intros Hdot. unfold TqGateway.contract_exchange.
    destruct (TqGateway._parse_exchange symbol) eqn:E; try reflexivity;
      exfalso;
      (assert (Hne : TqGateway._parse_exchange symbol <> TqGateway.NONE)
         by (rewrite E; discriminate));
      apply parse_exchange_known, known_exchange_dot_free in Hne;
      rewrite upper_contains_dot in Hne; congruence.
Qed.

Lemma exchange_of_formatted_symbol_witness :
  TqGateway._parse_exchange (TqGateway.exchange_id_of "SHFE.rb2505") <> TqGateway.NONE /\
  TqGateway.contract_exchange "SHFE.rb2505" = TqGateway.NONE.
Proof.
  split.
  - apply (proj1 (exchange_of_formatted_symbol "rb2505.shfe" "SHFE.rb2505")
             eq_refl eq_refl).
  - apply (proj2 (exchange_of_formatted_symbol "SHFE.rb2505" "")). reflexivity.
Defined.

(** X22. [unsubscribe] always returns true and removes from the quote cache
    exactly the keys that the given symbols format to: such a key is absent
    afterwards, in whichever spelling the symbol was given, and every other
    key keeps its quote. *)
Theorem unsubscribe_removes_formatted_keys
    (Tick : Type) (symbols : list string) (quotes : gmap string Tick) :
  let formatted k := exists s, In s symbols /\ TqGateway._format_symbol s = Some k in
  snd (TqGateway.unsubscribe symbols quotes) = true /\
  (forall k, formatted k -> fst (TqGateway.unsubscribe symbols quotes) !! k = None) /\
  (forall k, ~ formatted k ->
     fst (TqGateway.unsubscribe symbols quotes) !! k = quotes !! k).
Proof.
  cbv zeta.
  assert (Hgen : forall symbols (quotes : gmap string Tick),
            snd (TqGateway.unsubscribe symbols quotes) = true /\
            (forall k, (exists s, In s symbols /\ TqGateway._format_symbol s = Some k) ->
               fst (TqGateway.unsubscribe symbols quotes) !! k = None) /\
            (forall k, ~ (exists s, In s symbols /\ TqGateway._format_symbol s = Some k) ->
               fst (TqGateway.unsubscribe symbols quotes) !! k = quotes !! k) /\
            (forall k, quotes !! k = None ->
               fst (TqGateway.unsubscribe symbols quotes) !! k = None)).
  { clear. intros symbols. induction symbols as [| s rest IH]; intros quotes; simpl.
    - repeat split; auto. intros k (s & [] & _).
    - destruct (TqGateway._format_symbol s) as [f |] eqn:Hf.
      + destruct (IH (delete f quotes)) as (Hret & Hin & Hout & Hnone).
        split; [exact Hret |]. split; [| split].
        * intros k (s' & [<- | Hs'] & Hk).
          -- rewrite Hf in Hk. injection Hk as <-. apply Hnone, lookup_delete_eq.
          -- apply Hin. eauto.
        * intros k Hno. rewrite Hout.
          -- apply lookup_delete_ne. intros <-. apply Hno. exists s. auto.
          -- intros (s' & Hs' & Hk). apply Hno. exists s'. auto.
        * intros k Hk. apply Hnone. destruct (decide (f = k)) as [<- | Hne];
            [apply lookup_delete_eq | rewrite lookup_delete_ne by exact Hne; exact Hk].
      + destruct (IH quotes) as (Hret & Hin & Hout & Hnone).
        split; [exact Hret |]. split; [| split; [| exact Hnone]].
        * intros k (s' & [<- | Hs'] & Hk); [congruence | apply Hin; eauto].
        * intros k Hno. apply Hout. intros (s' & Hs' & Hk). apply Hno. exists s'. auto. }
  destruct (Hgen symbols quotes) as (H1 & H2 & H3 & _).
  repeat split; assumption.
Qed.

Lemma unsubscribe_removes_formatted_keys_witness :
  let quotes : gmap string nat := {[ "SHFE.rb2505" := 1%nat; "DCE.m2505" := 2%nat ]} in
  fst (TqGateway.unsubscribe ["rb2505.shfe"] quotes) !! "SHFE.rb2505" = None /\
  fst (TqGateway.unsubscribe ["rb2505.shfe"] quotes) !! "DCE.m2505" = Some 2%nat.
Proof.
  intros quotes.
  pose proof (unsubscribe_removes_formatted_keys nat ["rb2505.shfe"] quotes) as H.
  cbv zeta in H. destruct H as (_ & Hin & Hout).
  split.
  - apply Hin. exists "rb2505.shfe". split; [left; reflexivity | reflexivity].
  - rewrite Hout; [reflexivity |].
    intros (s & [<- | []] & Hs). discriminate Hs.
Defined.
